(** * News backend: pagination, slugs, authentication, comments and articles

    A shallow embedding of the service layer of the news backend
    (TypeScript, Express + Prisma) together with the properties its
    specification states about it.

    Conventions of the embedding:
    - JavaScript numbers that the code only ever uses as integers (ids,
      page numbers, counters, timestamps) are [Z] or [nat];
    - an optional field ([x?: T], [T | null]) is an [option];
    - a [throw] inside a service is the [Err] branch of [Result];
    - arithmetic on them is the arithmetic of doubles: a result is
      rounded to the nearest double, which changes nothing up to 2^53;
    - a database table is a finite map from the primary key to the row,
      and every service takes the database and returns the new one;
    - [new Date()] is an explicit argument [now]. *)

From Stdlib Require Import ZArith String List Lia DecimalString.
From Stdlib Require DecimalNat SpecFloat.
From stdpp Require Import gmap strings list fin_maps sorting.

Local Open Scope Z_scope.

(* ===================================================================== *)
(** * Part I: the program *)
(* ===================================================================== *)

(** ** Errors *)

(** [new ApiError(statusCode, message)]. *)
Record ApiError := mkApiError { statusCode : Z; message : string }.

(** What a service call can throw: one of the application's own
    [ApiError]s, or a known-request error of the ORM identified by its
    code (P2025 is "a record the operation needs was not found", P2003
    "foreign key constraint failed", P2020 "value out of range"). *)
Inductive Thrown :=
| ThrowApi (e : ApiError)
| ThrowPrisma (code : string).

Inductive Result (A : Type) :=
| Ok (a : A)
| Err (t : Thrown).
Arguments Ok {A} a.
Arguments Err {A} t.

Definition throwApi {A} (status : Z) (msg : string) : Result A :=
  Err (ThrowApi (mkApiError status msg)).

(** JavaScript truthiness for the three shapes the services test. *)
Definition truthy_num (x : option Z) : bool :=
  match x with Some v => negb (v =? 0) | None => false end.

Definition truthy_str (x : option string) : bool :=
  match x with Some s => negb (String.eqb s "") | None => false end.

(** Template-literal rendering of a non-negative integer. *)
Definition show_nat (n : nat) : string := NilZero.string_of_uint (Nat.to_uint n).

(** ** Numbers

    A JavaScript [number] is an IEEE 754 double.  The numbers this
    program computes with are integers (page numbers, limits, counts) and
    are embedded as the integer they denote; the result of a subtraction
    or a multiplication is the double nearest to the exact result, ties
    going to the even significand.  Overflow to [Infinity], which takes
    results beyond 2^1023, is left out. *)
Module Double.

(** The double nearest to the integer [z]: [z] itself when it has at
    most 53 significant bits, else [z] rounded to a multiple of the unit
    in the last place of its binade. *)
Definition round (z : Z) : Z :=
  let bits := Z.log2 (Z.abs z) + 1 in
  if bits <=? 53 then z
  else
    let ulp := 2 ^ (bits - 53) in
    let q := Z.abs z / ulp in
    let r := Z.abs z mod ulp in
    let q' := if 2 * r <? ulp then q
              else if ulp <? 2 * r then q + 1
              else if Z.even q then q else q + 1 in
    Z.sgn z * (q' * ulp).

Definition sub (a b : Z) : Z := round (a - b).
Definition mul (a b : Z) : Z := round (a * b).

(** Every integer up to this one, in magnitude, is a double. *)
Definition maxSafe : Z := 2 ^ 53.

(** The same integer as a binary64 value of the Standard Library's model
    of IEEE 754 arithmetic. *)
Definition binary64 (z : Z) : SpecFloat.spec_float :=
  SpecFloat.binary_normalize 53 1024 z 0 false.

End Double.

(** ** src/utils/pagination.ts *)

Module PaginationParams.
Record t := mk { page : option Z; limit : option Z }.
End PaginationParams.

Module PaginationResult.
Record t := mk { skip : Z; take : Z; page : Z; limit : Z }.
End PaginationResult.

Module Pagination.

(** [x || d] on an optional number: [undefined] and [0] give [d]. *)
Definition or_default (x : option Z) (d : Z) : Z :=
  match x with
  | Some v => if v =? 0 then d else v
  | None => d
  end.

(** [x ?? d]: only [undefined] gives [d]. *)
Definition nullish (x : option Z) (d : Z) : Z :=
  match x with Some v => v | None => d end.

Definition getPagination (params : PaginationParams.t) : PaginationResult.t :=
  let page := Z.max 1 (or_default (PaginationParams.page params) 1) in
  let limit := Z.min 100 (Z.max 1 (nullish (PaginationParams.limit params) 10)) in
  let skip := Double.mul (Double.sub page 1) limit in
  PaginationResult.mk skip limit page limit.

End Pagination.

(** ** src/utils/slugify.ts ([generateSlug], [generateUniqueSlug]) *)

Module Slugify.
Section UniqueSlug.

(** [generateSlug] wraps the external [slugify] package; the loop below is
    parametric in it.  [checkExists] is the caller's asynchronous
    predicate: it may consult or change a state of type [St]. *)
Context {St : Type}.
Variable generateSlug : string -> string.
Variable checkExists : string -> St -> bool * St.

(** [`${generateSlug(text)}-${counter}`] *)
Definition suffixed (text : string) (counter : nat) : string :=
  generateSlug text +:+ "-" +:+ show_nat counter.

(** The [while (await checkExists(slug))] loop; [fuel] bounds the number
    of calls to [checkExists], and [None] stands for a loop that has not
    returned within that bound. *)
Fixpoint uniqueSlugLoop (fuel : nat) (text slug : string) (counter : nat) (st : St)
  : option (string * St) :=
  match fuel with
  | O => None
  | S fuel' =>
      let '(taken, st') := checkExists slug st in
      if taken
      then uniqueSlugLoop fuel' text (suffixed text counter) (S counter) st'
      else Some (slug, st')
  end.

Definition generateUniqueSlug (fuel : nat) (text : string) (st : St)
  : option (string * St) :=
  uniqueSlugLoop fuel text (generateSlug text) 1%nat st.

(** The sequence [slugify(text)], [slugify(text)-1], [slugify(text)-2], ... *)
Definition candidate (text : string) (k : nat) : string :=
  match k with
  | O => generateSlug text
  | S _ => suffixed text k
  end.

End UniqueSlug.

(** A predicate that does not depend on any state. *)
Definition purely (P : string -> bool) : string -> unit -> bool * unit :=
  fun slug st => (P slug, st).

(** A scripted predicate (a mock): it answers with the next recorded
    answer whatever the slug, and [false] once the script is used up. *)
Definition scripted : string -> list bool -> bool * list bool :=
  fun _ script =>
    match script with
    | b :: rest => (b, rest)
    | [] => (false, [])
    end.

End Slugify.

(** ** Data model *)

Module JwtPayload.
Record t := mk { userId : Z; email : string; role : string }.
End JwtPayload.

(** A row of the [user] table. *)
Module User.
Record t := mk {
  id : Z; email : string; password : string; name : string; role : string;
  avatarUrl : option string; bio : option string; isActive : bool;
  createdAt : Z; updatedAt : Z }.
End User.

(** The columns the authenticator selects (everything but the password);
    this is what ends up in [req.user]. *)
Module AuthUser.
Record t := mk {
  id : Z; email : string; name : string; role : string;
  avatarUrl : option string; bio : option string; isActive : bool;
  createdAt : Z; updatedAt : Z }.
End AuthUser.

Module ArticleStatus.
Inductive t := DRAFT | PUBLISHED | ARCHIVED.
#[global] Instance eq_dec : EqDecision t.
Proof. solve_decision. Defined.
End ArticleStatus.

Module CommentStatus.
Inductive t := PENDING | APPROVED | REJECTED | SPAM.
#[global] Instance eq_dec : EqDecision t.
Proof. solve_decision. Defined.
End CommentStatus.

(** A row of the [article] table.  [updatedAt] is maintained by the
    database and read by none of the services below; it is left out. *)
Module Article.
Record t := mk {
  id : Z; title : string; slug : string; content : string;
  excerpt : option string; featuredImage : option string;
  authorId : Z; categoryId : option Z; status : ArticleStatus.t;
  viewCount : Z; publishedAt : option Z; tagIds : list Z; createdAt : Z }.
End Article.

(** A row of the [comment] table. *)
Module Comment.
Record t := mk {
  id : Z; articleId : Z; userId : option Z; parentId : option Z;
  content : string; authorName : option string; authorEmail : option string;
  status : CommentStatus.t; createdAt : Z }.
End Comment.

(** The database: one finite map per table, keyed by primary key, and the
    next value of each auto-increment sequence.  Of the [category] and
    [tag] tables, which none of the calls below writes, only the keys are
    kept. *)
Module Db.
Record t := mk {
  users : gmap Z User.t;
  categories : gset Z;
  tags : gset Z;
  articles : gmap Z Article.t;
  comments : gmap Z Comment.t;
  nextArticleId : Z;
  nextCommentId : Z }.

Definition withArticles (db : t) (a : gmap Z Article.t) (next : Z) : t :=
  mk (users db) (categories db) (tags db) a (comments db) next (nextCommentId db).

Definition withComments (db : t) (c : gmap Z Comment.t) (next : Z) : t :=
  mk (users db) (categories db) (tags db) (articles db) c (nextArticleId db) next.

(** The rows of a table, in the enumeration order of the map. *)
Definition commentRows (db : t) : list Comment.t := (map_to_list (comments db)).*2.
Definition articleRows (db : t) : list Article.t := (map_to_list (articles db)).*2.

(** A database with no article and no comment yet. *)
Definition initial (us : gmap Z User.t) (cats tgs : gset Z) : t :=
  mk us cats tgs ∅ ∅ 1 1.
End Db.

(** ** The database schema

    [prisma/schema.prisma] and its migration are not among the sources.
    The data model of the spec gives the references between the tables
    ([article.authorId -> User], [article.categoryId? -> Category], tags
    many-to-many with [Tag], [comment.articleId -> Article],
    [comment.userId? -> User], [comment.parentId? -> Comment]) and says
    that the database enforces them.  A write that breaks one fails as a
    whole and leaves the database as it was: the ORM throws P2003 for a
    foreign-key column that names no row, and P2025 for a nested
    [connect] or [set] that names a tag that is not there (the row is
    written before its tags are linked, so P2003 comes first). *)
Module Schema.

(** Modelled from the spec: the column types are declared in the schema,
    which is missing.  Whole-number columns ([viewCount], the keys) are
    the ORM's [Int], a 32-bit signed integer; storing a value outside its
    range throws P2020. *)
Definition maxInt : Z := 2147483647.

(** Modelled from the spec: the foreign keys are declared in the schema,
    which is missing.  An optional reference into a table names a row of
    it; [null] refers to nothing. *)
Definition refersTo {A} (table : gmap Z A) (ref : option Z) : bool :=
  match ref with
  | Some k => bool_decide (is_Some (table !! k))
  | None => true
  end.

(** Modelled from the spec: the same for a table of which only the keys
    are kept. *)
Definition memberOf (keys : gset Z) (ref : option Z) : bool :=
  match ref with
  | Some k => bool_decide (k ∈ keys)
  | None => true
  end.

(** Modelled from the spec: the relation between articles and tags is
    declared in the schema, which is missing.  Every id of a [connect] or
    [set] list names a row. *)
Definition allIn (keys : gset Z) (ids : list Z) : bool :=
  forallb (fun k => bool_decide (k ∈ keys)) ids.

End Schema.

(** ** src/middleware/auth.ts ([authenticate], [optionalAuthenticate]) *)

Module Request.
Record t := mk { authorization : option string; user : option AuthUser.t }.
Definition attach (req : t) (u : AuthUser.t) : t := mk (authorization req) (Some u).
End Request.

(** What the middleware hands to [next]. *)
Inductive NextCall :=
| NextOk
| NextError (t : Thrown).

Module Auth.

Definition selectUser (u : User.t) : AuthUser.t :=
  AuthUser.mk (User.id u) (User.email u) (User.name u) (User.role u)
    (User.avatarUrl u) (User.bio u) (User.isActive u)
    (User.createdAt u) (User.updatedAt u).

(** [authHeader && authHeader.startsWith('Bearer ')] *)
Definition hasBearer (authHeader : option string) : bool :=
  match authHeader with
  | Some h => negb (String.eqb h "") && String.prefix "Bearer " h
  | None => false
  end.

(** [authHeader.substring(7)] *)
Definition tokenOf (h : string) : string :=
  String.substring 7 (String.length h - 7) h.

Section Middleware.

(** [verifyToken] checks signature and expiry with the signing library and
    throws on failure ([None]). *)
Variable verifyToken : string -> option JwtPayload.t.

(** The body of the outer [try] of [authenticate]. *)
Definition authenticateBody (db : Db.t) (req : Request.t) : Result Request.t :=
  if negb (hasBearer (Request.authorization req))
  then throwApi 401 "No token provided. Please login."
  else
    let token := tokenOf (default "" (Request.authorization req)) in
    match verifyToken token with
    | None => throwApi 401 "Invalid or expired token. Please login again."
    | Some decoded =>
        match Db.users db !! JwtPayload.userId decoded with
        | None => throwApi 401 "User not found. Please login again."
        | Some user =>
            if negb (User.isActive user)
            then throwApi 403 "Your account has been deactivated."
            else Ok (Request.attach req (Auth.selectUser user))
        end
    end.

Definition authenticate (db : Db.t) (req : Request.t) : Request.t * NextCall :=
  match authenticateBody db req with
  | Ok req' => (req', NextOk)
  | Err t => (req, NextError t)
  end.

Definition optionalAuthenticate (db : Db.t) (req : Request.t) : Request.t * NextCall :=
  let req' :=
    if hasBearer (Request.authorization req)
    then
      let token := tokenOf (default "" (Request.authorization req)) in
      match verifyToken token with
      | None => req
      | Some decoded =>
          match Db.users db !! JwtPayload.userId decoded with
          | Some user =>
              if User.isActive user
              then Request.attach req (Auth.selectUser user)
              else req
          | None => req
          end
      end
    else req in
  (req', NextOk).

End Middleware.
End Auth.

(** ** src/services/commentService.ts (class [CommentService]) *)

Module CreateCommentRequest.
Record t := mk {
  articleId : Z; content : string; parentId : option Z;
  authorName : option string; authorEmail : option string }.
End CreateCommentRequest.

(** The shape [getArticleComments] returns: top-level comments, each with
    its replies, each of those with its replies. *)
Module Reply.
Record t := mk { comment : Comment.t; replies : list Comment.t }.
End Reply.

Module Thread.
Record t := mk { comment : Comment.t; replies : list Reply.t }.
End Thread.

Module CommentService.

Definition setStatus (s : CommentStatus.t) (c : Comment.t) : Comment.t :=
  Comment.mk (Comment.id c) (Comment.articleId c) (Comment.userId c)
    (Comment.parentId c) (Comment.content c) (Comment.authorName c)
    (Comment.authorEmail c) s (Comment.createdAt c).

Definition setContent (content : string) (c : Comment.t) : Comment.t :=
  Comment.mk (Comment.id c) (Comment.articleId c) (Comment.userId c)
    (Comment.parentId c) content (Comment.authorName c)
    (Comment.authorEmail c) (Comment.status c) (Comment.createdAt c).

(** [prisma.comment.update({ where: { id }, data })]: throws P2025 when no
    row has this id. *)
Definition updateRow (id : Z) (f : Comment.t -> Comment.t) (db : Db.t)
  : Result Comment.t * Db.t :=
  match Db.comments db !! id with
  | None => (Err (ThrowPrisma "P2025"), db)
  | Some c =>
      (Ok (f c), Db.withComments db (<[id := f c]> (Db.comments db)) (Db.nextCommentId db))
  end.

(** The parent checks of [createComment]: [Some t] when they throw [t]. *)
Definition checkParent (data : CreateCommentRequest.t) (db : Db.t) : option Thrown :=
  if truthy_num (CreateCommentRequest.parentId data)
  then
    match CreateCommentRequest.parentId data ≫= (fun p => Db.comments db !! p) with
    | None => Some (ThrowApi (mkApiError 404 "Parent comment not found"))
    | Some parentComment =>
        if negb (Comment.articleId parentComment =? CreateCommentRequest.articleId data)
        then Some (ThrowApi (mkApiError 400 "Parent comment belongs to different article"))
        else None
    end
  else None.

Definition createComment (data : CreateCommentRequest.t) (userId : option Z)
  (now : Z) (db : Db.t) : Result Comment.t * Db.t :=
  match Db.articles db !! CreateCommentRequest.articleId data with
  | None => (throwApi 404 "Article not found", db)
  | Some _ =>
      match checkParent data db with
      | Some t => (Err t, db)
      | None =>
          if negb (truthy_num userId)
             && (negb (truthy_str (CreateCommentRequest.authorName data))
                 || negb (truthy_str (CreateCommentRequest.authorEmail data)))
          then (throwApi 400 "Guest comments require name and email", db)
          else if negb (Schema.refersTo (Db.users db) userId)
                  || negb (Schema.refersTo (Db.comments db) (CreateCommentRequest.parentId data))
          then (Err (ThrowPrisma "P2003"), db)
          else
            let id := Db.nextCommentId db in
            let comment :=
              Comment.mk id (CreateCommentRequest.articleId data) userId
                (CreateCommentRequest.parentId data)
                (CreateCommentRequest.content data)
                (CreateCommentRequest.authorName data)
                (CreateCommentRequest.authorEmail data)
                CommentStatus.PENDING now in
            (Ok comment, Db.withComments db (<[id := comment]> (Db.comments db)) (id + 1))
      end
  end.

(** [orderBy: { createdAt: 'asc' }] and [orderBy: { createdAt: 'desc' }]. *)
Definition byCreatedAsc (c1 c2 : Comment.t) : Prop := Comment.createdAt c1 ≤ Comment.createdAt c2.
Definition byCreatedDesc (c1 c2 : Comment.t) : Prop := Comment.createdAt c2 ≤ Comment.createdAt c1.

#[global] Instance byCreatedAsc_dec c1 c2 : Decision (byCreatedAsc c1 c2).
Proof. unfold byCreatedAsc. apply _. Defined.
#[global] Instance byCreatedDesc_dec c1 c2 : Decision (byCreatedDesc c1 c2).
Proof. unfold byCreatedDesc. apply _. Defined.

(** The [where] clause of the top-level query. *)
Definition isTopLevelOf (articleId : Z) (c : Comment.t) : bool :=
  (Comment.articleId c =? articleId)
  && bool_decide (Comment.status c = CommentStatus.APPROVED)
  && bool_decide (Comment.parentId c = None).

(** The [replies] relation of a comment restricted by
    [where: { status: APPROVED }]. *)
Definition isApprovedReplyTo (parent : Comment.t) (c : Comment.t) : bool :=
  bool_decide (Comment.parentId c = Some (Comment.id parent))
  && bool_decide (Comment.status c = CommentStatus.APPROVED).

Definition approvedReplies (db : Db.t) (parent : Comment.t) : list Comment.t :=
  merge_sort byCreatedAsc (List.filter (isApprovedReplyTo parent) (Db.commentRows db)).

Definition topLevel (articleId : Z) (db : Db.t) : list Comment.t :=
  merge_sort byCreatedDesc (List.filter (isTopLevelOf articleId) (Db.commentRows db)).

(** One [findMany] with two nested [include: { replies }]: the innermost
    replies come without a [replies] field of their own. *)
Definition getArticleComments (articleId : Z) (db : Db.t) : list Thread.t :=
  (fun c =>
     Thread.mk c ((fun r => Reply.mk r (approvedReplies db r)) <$> approvedReplies db c))
  <$> topLevel articleId db.

Definition updateComment (id : Z) (content : string) (userId : Z) (userRole : string)
  (db : Db.t) : Result Comment.t * Db.t :=
  match Db.comments db !! id with
  | None => (throwApi 404 "Comment not found", db)
  | Some comment =>
      if negb (bool_decide (Comment.userId comment = Some userId))
         && negb (String.eqb userRole "ADMIN")
      then (throwApi 403 "You can only edit your own comments", db)
      else updateRow id (setContent content) db
  end.

Definition approveComment (id : Z) (db : Db.t) : Result Comment.t * Db.t :=
  updateRow id (setStatus CommentStatus.APPROVED) db.

Definition rejectComment (id : Z) (db : Db.t) : Result Comment.t * Db.t :=
  updateRow id (setStatus CommentStatus.REJECTED) db.

Definition markAsSpam (id : Z) (db : Db.t) : Result Comment.t * Db.t :=
  updateRow id (setStatus CommentStatus.SPAM) db.

(** [_count: { select: { replies: true } }] *)
Definition countReplies (db : Db.t) (c : Comment.t) : nat :=
  length (List.filter (fun r => bool_decide (Comment.parentId r = Some (Comment.id c)))
            (Db.commentRows db)).

Definition deleteComment (id : Z) (userId : Z) (userRole : string) (db : Db.t)
  : Result string * Db.t :=
  match Db.comments db !! id with
  | None => (throwApi 404 "Comment not found", db)
  | Some comment =>
      if negb (bool_decide (Comment.userId comment = Some userId))
         && negb (String.eqb userRole "ADMIN")
      then (throwApi 403 "You can only delete your own comments", db)
      else if (0 <? countReplies db comment)%nat
      then (throwApi 400
              ("Cannot delete comment with " +:+ show_nat (countReplies db comment)
               +:+ " replies. Delete replies first."), db)
      else (Ok "Comment deleted successfully",
            Db.withComments db (delete id (Db.comments db)) (Db.nextCommentId db))
  end.

End CommentService.

(** ** src/services/articleService.ts (class [ArticleService]) *)

Module CreateArticleRequest.
Record t := mk {
  title : string; content : string; excerpt : option string;
  featuredImage : option string; categoryId : Z; tagIds : option (list Z);
  status : option ArticleStatus.t }.
End CreateArticleRequest.

Module UpdateArticleRequest.
Record t := mk {
  title : option string; content : option string; excerpt : option string;
  featuredImage : option string; categoryId : option Z; tagIds : option (list Z);
  status : option ArticleStatus.t }.
End UpdateArticleRequest.

Module ArticleService.

(** [prisma.article.findUnique({ where: { slug } })] *)
Definition findBySlug (db : Db.t) (slug : string) : option Article.t :=
  List.find (fun a => String.eqb (Article.slug a) slug) (Db.articleRows db).

(** [prisma.article.update({ where: { id }, data })]: throws P2025 when no
    row has this id. *)
Definition updateRow (id : Z) (f : Article.t -> Article.t) (db : Db.t)
  : Result Article.t * Db.t :=
  match Db.articles db !! id with
  | None => (Err (ThrowPrisma "P2025"), db)
  | Some a =>
      (Ok (f a), Db.withArticles db (<[id := f a]> (Db.articles db)) (Db.nextArticleId db))
  end.

Definition setPublished (now : Z) (a : Article.t) : Article.t :=
  Article.mk (Article.id a) (Article.title a) (Article.slug a) (Article.content a)
    (Article.excerpt a) (Article.featuredImage a) (Article.authorId a)
    (Article.categoryId a) ArticleStatus.PUBLISHED (Article.viewCount a)
    (Some now) (Article.tagIds a) (Article.createdAt a).

Definition setArchived (a : Article.t) : Article.t :=
  Article.mk (Article.id a) (Article.title a) (Article.slug a) (Article.content a)
    (Article.excerpt a) (Article.featuredImage a) (Article.authorId a)
    (Article.categoryId a) ArticleStatus.ARCHIVED (Article.viewCount a)
    (Article.publishedAt a) (Article.tagIds a) (Article.createdAt a).

(** The [data] object of the update in [updateArticle]: an [undefined]
    field leaves the column as it is. *)
Definition applyUpdate (data : UpdateArticleRequest.t) (slug : string) (now : Z)
  (existingArticle : Article.t) : Article.t :=
  Article.mk (Article.id existingArticle)
    (default (Article.title existingArticle) (UpdateArticleRequest.title data))
    slug
    (default (Article.content existingArticle) (UpdateArticleRequest.content data))
    (match UpdateArticleRequest.excerpt data with
     | Some e => Some e | None => Article.excerpt existingArticle end)
    (match UpdateArticleRequest.featuredImage data with
     | Some f => Some f | None => Article.featuredImage existingArticle end)
    (Article.authorId existingArticle)
    (match UpdateArticleRequest.categoryId data with
     | Some c => Some c | None => Article.categoryId existingArticle end)
    (default (Article.status existingArticle) (UpdateArticleRequest.status data))
    (Article.viewCount existingArticle)
    (if bool_decide (UpdateArticleRequest.status data = Some ArticleStatus.PUBLISHED)
        && negb (bool_decide (is_Some (Article.publishedAt existingArticle)))
     then Some now
     else Article.publishedAt existingArticle)
    (default (Article.tagIds existingArticle) (UpdateArticleRequest.tagIds data))
    (Article.createdAt existingArticle).

Section WithSlugify.
Variable generateSlug : string -> string.

(** The existence checks handed to [generateUniqueSlug]. *)
Definition slugTaken (slug : string) (db : Db.t) : bool * Db.t :=
  (bool_decide (is_Some (findBySlug db slug)), db).

Definition slugTakenByOther (id : Z) (slug : string) (db : Db.t) : bool * Db.t :=
  (match findBySlug db slug with
   | Some existing => negb (Article.id existing =? id)
   | None => false
   end, db).

(** [None] when the slug loop has not returned within [fuel] checks. *)
Definition createArticle (fuel : nat) (data : CreateArticleRequest.t) (authorId : Z)
  (now : Z) (db : Db.t) : option (Result Article.t * Db.t) :=
  match Slugify.generateUniqueSlug generateSlug slugTaken fuel
          (CreateArticleRequest.title data) db with
  | None => None
  | Some (slug, db) =>
      if negb (CreateArticleRequest.categoryId data =? 0)
         && negb (bool_decide (CreateArticleRequest.categoryId data ∈ Db.categories db))
      then Some (throwApi 404 "Category not found", db)
      else if negb (bool_decide (is_Some (Db.users db !! authorId)))
              || negb (bool_decide (CreateArticleRequest.categoryId data ∈ Db.categories db))
      then Some (Err (ThrowPrisma "P2003"), db)
      else if negb (Schema.allIn (Db.tags db) (default [] (CreateArticleRequest.tagIds data)))
      then Some (Err (ThrowPrisma "P2025"), db)
      else
        let id := Db.nextArticleId db in
        let article :=
          Article.mk id (CreateArticleRequest.title data) slug
            (CreateArticleRequest.content data)
            (CreateArticleRequest.excerpt data)
            (CreateArticleRequest.featuredImage data)
            authorId
            (Some (CreateArticleRequest.categoryId data))
            (default ArticleStatus.DRAFT (CreateArticleRequest.status data))
            0
            (if bool_decide (CreateArticleRequest.status data = Some ArticleStatus.PUBLISHED)
             then Some now else None)
            (default [] (CreateArticleRequest.tagIds data))
            now in
        Some (Ok article, Db.withArticles db (<[id := article]> (Db.articles db)) (id + 1))
  end.

Definition updateArticle (fuel : nat) (id : Z) (data : UpdateArticleRequest.t)
  (userId : Z) (userRole : string) (now : Z) (db : Db.t)
  : option (Result Article.t * Db.t) :=
  match Db.articles db !! id with
  | None => Some (throwApi 404 "Article not found", db)
  | Some existingArticle =>
      if negb (Article.authorId existingArticle =? userId)
         && negb (String.eqb userRole "ADMIN")
      then Some (throwApi 403 "You can only edit your own articles", db)
      else
        let newSlug :=
          if truthy_str (UpdateArticleRequest.title data)
             && negb (bool_decide (UpdateArticleRequest.title data
                                   = Some (Article.title existingArticle)))
          then Slugify.generateUniqueSlug generateSlug (slugTakenByOther id) fuel
                 (default "" (UpdateArticleRequest.title data)) db
          else Some (Article.slug existingArticle, db) in
        match newSlug with
        | None => None
        | Some (slug, db) =>
            if negb (Schema.memberOf (Db.categories db) (UpdateArticleRequest.categoryId data))
            then Some (Err (ThrowPrisma "P2003"), db)
            else if negb (Schema.allIn (Db.tags db)
                            (default [] (UpdateArticleRequest.tagIds data)))
            then Some (Err (ThrowPrisma "P2025"), db)
            else Some (updateRow id (fun _ => applyUpdate data slug now existingArticle) db)
        end
  end.

End WithSlugify.

Definition publishArticle (id : Z) (now : Z) (db : Db.t) : Result Article.t * Db.t :=
  updateRow id (setPublished now) db.

Definition archiveArticle (id : Z) (db : Db.t) : Result Article.t * Db.t :=
  updateRow id setArchived db.

End ArticleService.

(** ** The service layer as a transition system *)

Module System.

(** One call of a state-changing service method, with its arguments. *)
Inductive Op :=
| CreateArticle (fuel : nat) (data : CreateArticleRequest.t) (authorId now : Z)
| UpdateArticle (fuel : nat) (id : Z) (data : UpdateArticleRequest.t)
    (userId : Z) (userRole : string) (now : Z)
| PublishArticle (id now : Z)
| ArchiveArticle (id : Z)
| CreateComment (data : CreateCommentRequest.t) (userId : option Z) (now : Z)
| UpdateComment (id : Z) (content : string) (userId : Z) (userRole : string)
| ApproveComment (id : Z)
| RejectComment (id : Z)
| MarkAsSpam (id : Z)
| DeleteComment (id userId : Z) (userRole : string).

Section Run.
Variable generateSlug : string -> string.

(** The database after the call; a call that throws leaves it as it was,
    and [None] is a call that has not returned. *)
Definition run (op : Op) (db : Db.t) : option Db.t :=
  match op with
  | CreateArticle fuel data authorId now =>
      snd <$> ArticleService.createArticle generateSlug fuel data authorId now db
  | UpdateArticle fuel id data userId userRole now =>
      snd <$> ArticleService.updateArticle generateSlug fuel id data userId userRole now db
  | PublishArticle id now => Some (snd (ArticleService.publishArticle id now db))
  | ArchiveArticle id => Some (snd (ArticleService.archiveArticle id db))
  | CreateComment data userId now => Some (snd (CommentService.createComment data userId now db))
  | UpdateComment id content userId userRole =>
      Some (snd (CommentService.updateComment id content userId userRole db))
  | ApproveComment id => Some (snd (CommentService.approveComment id db))
  | RejectComment id => Some (snd (CommentService.rejectComment id db))
  | MarkAsSpam id => Some (snd (CommentService.markAsSpam id db))
  | DeleteComment id userId userRole =>
      Some (snd (CommentService.deleteComment id userId userRole db))
  end.

(** Running a list of calls from the head of a history; a call that
    does not return is skipped. *)
Fixpoint runAll (ops : list Op) (h : list Db.t) : list Db.t :=
  match ops, h with
  | [], _ => h
  | _, [] => []
  | op :: rest, db :: _ =>
      match run op db with
      | Some db' => runAll rest (db' :: h)
      | None => runAll rest h
      end
  end.

(** A history lists the databases an execution went through, the most
    recent first; it starts with no article and no comment. *)
Inductive history : list Db.t -> Prop :=
| history_start us cats tgs : history [Db.initial us cats tgs]
| history_step op db db' past :
    history (db :: past) -> run op db = Some db' -> history (db' :: db :: past).

End Run.
End System.

(** ** Vocabulary of the properties *)

Module Outcome.

(** The middleware left the request as it was and passed an [ApiError]
    with this status to [next]. *)
Definition rejected (status : Z) (out : Request.t * NextCall) (req : Request.t) : Prop :=
  exists msg, out = (req, NextError (ThrowApi (mkApiError status msg))).

(** The service threw an [ApiError] with this status and wrote nothing. *)
Definition failed {A} (status : Z) (out : Result A * Db.t) (db : Db.t) : Prop :=
  exists msg, out = (throwApi status msg, db).

(** The header is absent, or present without the [Bearer ] prefix. *)
Definition noBearer (req : Request.t) : Prop :=
  Request.authorization req = None
  \/ exists h, Request.authorization req = Some h /\ String.prefix "Bearer " h = false.

End Outcome.

Module Change.

(** What one call can do to the [comment] table. *)
Inductive comments (db db' : Db.t) : Prop :=
| comments_same :
    Db.comments db' = Db.comments db ->
    Db.nextCommentId db' = Db.nextCommentId db ->
    comments db db'
| comments_moderated id c s :
    Db.comments db !! id = Some c ->
    s <> CommentStatus.PENDING ->
    Db.comments db' = <[id := CommentService.setStatus s c]> (Db.comments db) ->
    Db.nextCommentId db' = Db.nextCommentId db ->
    comments db db'
| comments_edited id c content :
    Db.comments db !! id = Some c ->
    Db.comments db' = <[id := CommentService.setContent content c]> (Db.comments db) ->
    Db.nextCommentId db' = Db.nextCommentId db ->
    comments db db'
| comments_deleted id :
    Db.comments db' = delete id (Db.comments db) ->
    Db.nextCommentId db' = Db.nextCommentId db ->
    comments db db'
| comments_created c :
    Comment.id c = Db.nextCommentId db ->
    Comment.status c = CommentStatus.PENDING ->
    Db.comments db' = <[Db.nextCommentId db := c]> (Db.comments db) ->
    Db.nextCommentId db' = Db.nextCommentId db + 1 ->
    comments db db'.

(** How a row of the [article] table may change in place: either it ends
    up PUBLISHED with a publication time, or its publication time is kept
    and its status is kept or becomes one other than PUBLISHED. *)
Definition article (a a' : Article.t) : Prop :=
  Article.id a' = Article.id a
  /\ ((Article.status a' = ArticleStatus.PUBLISHED /\ is_Some (Article.publishedAt a'))
      \/ (Article.publishedAt a' = Article.publishedAt a
          /\ (Article.status a' = Article.status a
              \/ Article.status a' <> ArticleStatus.PUBLISHED))).

(** What one call can do to the [article] table. *)
Inductive articles (db db' : Db.t) : Prop :=
| articles_same :
    Db.articles db' = Db.articles db ->
    Db.nextArticleId db' = Db.nextArticleId db ->
    articles db db'
| articles_updated id a a' :
    Db.articles db !! id = Some a ->
    article a a' ->
    Db.articles db' = <[id := a']> (Db.articles db) ->
    Db.nextArticleId db' = Db.nextArticleId db ->
    articles db db'
| articles_created a :
    Article.id a = Db.nextArticleId db ->
    (is_Some (Article.publishedAt a) <-> Article.status a = ArticleStatus.PUBLISHED) ->
    Db.articles db' = <[Db.nextArticleId db := a]> (Db.articles db) ->
    Db.nextArticleId db' = Db.nextArticleId db + 1 ->
    articles db db'.

End Change.

Module Wf.

(** Primary keys are positive, below the next value of the sequence, and
    equal to the [id] column of their row. *)
Definition comments (db : Db.t) : Prop :=
  1 <= Db.nextCommentId db
  /\ forall id c, Db.comments db !! id = Some c ->
       1 <= id < Db.nextCommentId db /\ Comment.id c = id.

Definition articles (db : Db.t) : Prop :=
  1 <= Db.nextArticleId db
  /\ forall id a, Db.articles db !! id = Some a ->
       1 <= id < Db.nextArticleId db /\ Article.id a = id.




End Wf.

Module Visible.

(** Every comment a listing contains, at any of its three levels. *)
Definition listed (result : list Thread.t) : list Comment.t :=
  t ← result;
  Thread.comment t :: (r ← Thread.replies t; Reply.comment r :: Reply.replies r).

(** [at_depth db articleId n c]: [c] is an APPROVED comment [n] replies
    below a top-level comment of the article, and every comment on the
    way up is APPROVED too. *)
Inductive at_depth (db : Db.t) (articleId : Z) : nat -> Comment.t -> Prop :=
| at_top c :
    c ∈ Db.commentRows db ->
    Comment.articleId c = articleId ->
    Comment.parentId c = None ->
    Comment.status c = CommentStatus.APPROVED ->
    at_depth db articleId 0 c
| at_reply n parent c :
    at_depth db articleId n parent ->
    c ∈ Db.commentRows db ->
    Comment.parentId c = Some (Comment.id parent) ->
    Comment.status c = CommentStatus.APPROVED ->
    at_depth db articleId (S n) c.

End Visible.

(** ** Sample data *)

Module Sample.

Definition alice : User.t :=
  User.mk 1 "alice@example.com" "hash-a" "Alice" "AUTHOR" None None true 100 100.

Definition bob : User.t :=
  User.mk 2 "bob@example.com" "hash-b" "Bob" "EDITOR" None None false 100 100.

Definition users : gmap Z User.t := <[1 := alice]> (<[2 := bob]> ∅).

Definition db0 : Db.t := Db.initial users {[ 7 ]} {[ 3 ]}.

(** A token codec accepting three tokens: for Alice, for Bob, and for a
    user id that is not in the table. *)
Definition verifier (token : string) : option JwtPayload.t :=
  if String.eqb token "tok-alice" then Some (JwtPayload.mk 1 "alice@example.com" "AUTHOR")
  else if String.eqb token "tok-bob" then Some (JwtPayload.mk 2 "bob@example.com" "EDITOR")
  else if String.eqb token "tok-gone" then Some (JwtPayload.mk 9 "gone@example.com" "AUTHOR")
  else None.

Definition bearing (h : string) : Request.t := Request.mk (Some h) None.

(** A stand-in for the slug library. *)
Definition slugger (text : string) : string := text.

(** One article by Alice and a chain of four comments on it, each a reply
    to the one before, all approved. *)
Definition threadOps : list System.Op :=
  [ System.CreateArticle 5 (CreateArticleRequest.mk "hello" "body" None None 7 None None) 1 10;
    System.CreateComment (CreateCommentRequest.mk 1 "first" None None None) (Some 1) 11;
    System.CreateComment (CreateCommentRequest.mk 1 "second" (Some 1) None None) (Some 1) 12;
    System.CreateComment (CreateCommentRequest.mk 1 "third" (Some 2) None None) (Some 1) 13;
    System.CreateComment (CreateCommentRequest.mk 1 "fourth" (Some 3) None None) (Some 1) 14;
    System.ApproveComment 1; System.ApproveComment 2;
    System.ApproveComment 3; System.ApproveComment 4 ].

Definition threadHistory : list Db.t := System.runAll slugger threadOps [db0].

Definition threadDb : Db.t := default db0 (head threadHistory).

Definition comment (id : Z) (parent : option Z) (content : string) (at_ : Z) : Comment.t :=
  Comment.mk id 1 (Some 1) parent content None None CommentStatus.APPROVED at_.


(** An article created as a draft, published at time 20, then archived. *)
Definition articleOps : list System.Op :=
  [ System.CreateArticle 5 (CreateArticleRequest.mk "hello" "body" None None 7 None None) 1 10;
    System.PublishArticle 1 20;
    System.ArchiveArticle 1 ].

Definition articleHistory : list Db.t := System.runAll slugger articleOps [db0].

Definition article (status : ArticleStatus.t) (publishedAt : option Z) : Article.t :=
  Article.mk 1 "hello" "hello" "body" None None 1 (Some 7) status 0 publishedAt [] 10.

(** The same article while it is PUBLISHED. *)
Definition publishedDb : Db.t := default db0 (articleHistory !! 1%nat).
Definition publishedPast : list Db.t := drop 2 articleHistory.


(** A request that only sets the status to PUBLISHED. *)
Definition republish : UpdateArticleRequest.t :=
  UpdateArticleRequest.mk None None None None None None (Some ArticleStatus.PUBLISHED).

(** A guest comment without a name or an e-mail address, and a reply to
    comment 1 (which is on article 1) filed under article 2. *)
Definition anonymous (articleId : Z) : CreateCommentRequest.t :=
  CreateCommentRequest.mk articleId "hi" None None None.

Definition misfiled : CreateCommentRequest.t :=
  CreateCommentRequest.mk 2 "hi" (Some 1) (Some "Guest") (Some "g@example.com").

(** A thread database with a second article. *)
Definition twoArticlesHistory : list Db.t :=
  System.runAll slugger
    [ System.CreateArticle 5
        (CreateArticleRequest.mk "world" "body" None None 7 None None) 1 15 ]
    threadHistory.

Definition twoArticlesDb : Db.t := default db0 (head twoArticlesHistory).

End Sample.

(* ===================================================================== *)
(** * Part I, continued: the rest of the cited files, what they call and
      what calls them *)
(* ===================================================================== *)

(** ** src/utils/pagination.ts ([getPaginationMeta]) and paged queries *)

Module PaginationMeta.
Record t := mk { page : Z; limit : Z; total : Z; totalPages : Z }.
End PaginationMeta.

Module Paging.

(** [Math.ceil(a / b)] on integers, for a divisor other than 0 (with a
    zero divisor JavaScript answers Infinity or NaN, which no integer
    stands for). *)
Definition ceilDiv (a b : Z) : Z := - ((- a) / b).

Definition getPaginationMeta (page limit total : Z) : PaginationMeta.t :=
  PaginationMeta.mk page limit total (ceilDiv total limit).

(** [findMany({ skip, take })] on the rows a query has selected and
    ordered, for the non-negative [skip] and [take] that [getPagination]
    hands out. *)
Definition window {A} (skip take_ : Z) (rows : list A) : list A :=
  take (Z.to_nat take_) (drop (Z.to_nat skip) rows).

End Paging.

(** ** src/services/commentService.ts, the remaining queries *)

Module CommentFilters.
Record t := mk { status : option CommentStatus.t; articleId : option Z }.
End CommentFilters.

Module PaginationQuery.
Record t := mk {
  page : option Z; limit : option Z; sort : option string; order : option string }.
End PaginationQuery.

(** A comment with its [_count: { replies }]. *)
Module CountedComment.
Record t := mk { comment : Comment.t; replies : nat }.
End CountedComment.

Module CommentPage.
Record t := mk { comments : list CountedComment.t; pagination : PaginationMeta.t }.
End CommentPage.

Module CommentStats.
Record t := mk { total : nat; pending : nat; approved : nat; rejected : nat; spam : nat }.
End CommentStats.

Module CommentQueries.

(** The [where] object [getAllComments] builds: a filter is only applied
    when its value is truthy. *)
Definition matches (filters : CommentFilters.t) (c : Comment.t) : bool :=
  match CommentFilters.status filters with
  | Some s => bool_decide (Comment.status c = s)
  | None => true
  end
  && (if truthy_num (CommentFilters.articleId filters)
      then Comment.articleId c =? default 0 (CommentFilters.articleId filters)
      else true).

(** All rows the [where] object selects, newest first.  The query orders
    by [createdAt] alone and leaves the order of rows created at the same
    time to the database; here such rows come in the order of a stable
    sort of the table's enumeration, and what depends on their order is
    stated for tables without them ([distinctTimes]). *)
Definition selected (filters : CommentFilters.t) (db : Db.t) : list Comment.t :=
  merge_sort CommentService.byCreatedDesc (List.filter (matches filters) (Db.commentRows db)).

(** No two stored comments were created at the same time. *)
Definition distinctTimes (db : Db.t) : Prop :=
  NoDup (Comment.createdAt <$> Db.commentRows db).

Definition counted (db : Db.t) (c : Comment.t) : CountedComment.t :=
  CountedComment.mk c (CommentService.countReplies db c).

Definition getAllComments (filters : CommentFilters.t) (query : PaginationQuery.t)
  (db : Db.t) : CommentPage.t :=
  let r := Pagination.getPagination
             (PaginationParams.mk (PaginationQuery.page query) (PaginationQuery.limit query)) in
  let comments :=
    Paging.window (PaginationResult.skip r) (PaginationResult.take r) (selected filters db) in
  let total := Z.of_nat (length (List.filter (matches filters) (Db.commentRows db))) in
  CommentPage.mk (counted db <$> comments)
    (Paging.getPaginationMeta (PaginationResult.page r) (PaginationResult.limit r) total).

(** [prisma.comment.count({ where: { status } })] *)
Definition countStatus (s : CommentStatus.t) (db : Db.t) : nat :=
  length (List.filter (fun c => bool_decide (Comment.status c = s)) (Db.commentRows db)).

Definition getCommentStats (db : Db.t) : CommentStats.t :=
  CommentStats.mk (length (Db.commentRows db))
    (countStatus CommentStatus.PENDING db) (countStatus CommentStatus.APPROVED db)
    (countStatus CommentStatus.REJECTED db) (countStatus CommentStatus.SPAM db).

(** The [n]-th page (counted from 1) of a listing with this [limit]. *)
Definition pageOf (filters : CommentFilters.t) (limit : option Z) (db : Db.t) (n : nat)
  : list CountedComment.t :=
  CommentPage.comments
    (getAllComments filters (PaginationQuery.mk (Some (Z.of_nat n)) limit None None) db).

End CommentQueries.

(** ** Vocabulary: reply threads *)

Module Threads.

(** Every reply has its parent: a stored comment whose [parentId] is a
    real key (0 counts as no parent in [createComment]) points at a
    stored comment of the same article. *)
Definition anchored (db : Db.t) : Prop :=
  forall id c p,
    Db.comments db !! id = Some c ->
    Comment.parentId c = Some p ->
    p <> 0 ->
    exists parent, Db.comments db !! p = Some parent
                   /\ Comment.articleId parent = Comment.articleId c.

(** What one call can do to the [comment] table, with what matters for
    the threads. *)
Inductive change (db db' : Db.t) : Prop :=
| change_none :
    Db.comments db' = Db.comments db ->
    change db db'
| change_row id c c' :
    Db.comments db !! id = Some c ->
    Comment.articleId c' = Comment.articleId c ->
    Comment.parentId c' = Comment.parentId c ->
    Db.comments db' = <[id := c']> (Db.comments db) ->
    change db db'
| change_removed id c :
    Db.comments db !! id = Some c ->
    CommentService.countReplies db c = 0%nat ->
    Db.comments db' = delete id (Db.comments db) ->
    change db db'
| change_added c :
    (forall p, Comment.parentId c = Some p -> p <> 0 ->
       exists parent, Db.comments db !! p = Some parent
                      /\ Comment.articleId parent = Comment.articleId c) ->
    Db.comments db' = <[Db.nextCommentId db := c]> (Db.comments db) ->
    change db db'.

End Threads.

(** ** src/middleware/errorHandler.ts ([errorHandler]) *)

(** What reaches the error handler: the class of the error decides the
    first branches, its [name] the later ones. *)
Module Raised.
Inductive kind :=
| Api (statusCode : Z)
| PrismaKnown (code : string) (target : option string)
| PrismaValidation
| Other.

Record t := mk { class : kind; name : string; message : string; stack : string }.
End Raised.

(** The JSON body of an error response; [stack] and [details] are only
    there in development. *)
Module ErrorResponse.
Record t := mk {
  status : Z; success : bool; error : string;
  stack : option string; details : option string }.
End ErrorResponse.

Module ErrorHandler.

(** [err] is how a throw [t] of a service arrives at the handler. *)
Definition carries (t : Thrown) (err : Raised.t) : Prop :=
  match t with
  | ThrowApi e => Raised.class err = Raised.Api (statusCode e)
                  /\ Raised.message err = message e
  | ThrowPrisma code => exists target, Raised.class err = Raised.PrismaKnown code target
  end.

(** The status and message the branches settle on. *)
Definition classify (err : Raised.t) : Z * string :=
  match Raised.class err with
  | Raised.Api statusCode => (statusCode, Raised.message err)
  | Raised.PrismaKnown code target =>
      if String.eqb code "P2002"
      then (409, "Duplicate entry: "
                 +:+ (if truthy_str target then default "" target else "field")
                 +:+ " already exists")
      else if String.eqb code "P2025" then (404, "Record not found")
      else if String.eqb code "P2003" then (400, "Invalid reference to related record")
      else if String.eqb code "P2014" then (400, "Related record is required")
      else (400, "Database error occurred")
  | Raised.PrismaValidation => (400, "Invalid data provided")
  | Raised.Other =>
      if String.eqb (Raised.name err) "JsonWebTokenError" then (401, "Invalid token")
      else if String.eqb (Raised.name err) "TokenExpiredError" then (401, "Token expired")
      else if String.eqb (Raised.name err) "MulterError"
      then (400, "File upload error: " +:+ Raised.message err)
      else (500, "Internal Server Error")
  end.

Definition isApi (err : Raised.t) : bool :=
  match Raised.class err with Raised.Api _ => true | _ => false end.

(** [nodeEnv] is [process.env.NODE_ENV].  The two [console.error] calls
    write to the log and not to the response; they are left out. *)
Definition errorHandler (nodeEnv : option string) (err : Raised.t) : ErrorResponse.t :=
  let '(statusCode, message) := classify err in
  let development := bool_decide (nodeEnv = Some "development") in
  ErrorResponse.mk statusCode false message
    (if development then Some (Raised.stack err) else None)
    (if development
     then (if isApi err then None else Some (Raised.message err))
     else None).

End ErrorHandler.

(** ** src/middleware/roleCheck.ts *)

Module RoleCheck.

Definition requireRole (allowedRoles : list string) (req : Request.t) : Request.t * NextCall :=
  match Request.user req with
  | None => (req, NextError (ThrowApi (mkApiError 401 "Authentication required")))
  | Some user =>
      if negb (existsb (String.eqb (AuthUser.role user)) allowedRoles)
      then (req, NextError (ThrowApi (mkApiError 403
                  ("Access denied. Required role: " +:+ String.concat " or " allowedRoles))))
      else (req, NextOk)
  end.

Definition requireAdmin := requireRole ["ADMIN"].
Definition requireEditor := requireRole ["ADMIN"; "EDITOR"].
Definition requireAuthor := requireRole ["ADMIN"; "EDITOR"; "AUTHOR"].

Definition requireOwnerOrAdmin (getUserId : Request.t -> Z) (req : Request.t)
  : Request.t * NextCall :=
  match Request.user req with
  | None => (req, NextError (ThrowApi (mkApiError 401 "Authentication required")))
  | Some user =>
      let resourceUserId := getUserId req in
      let isOwner := AuthUser.id user =? resourceUserId in
      let isAdmin := String.eqb (AuthUser.role user) "ADMIN" in
      if negb isOwner && negb isAdmin
      then (req, NextError (ThrowApi (mkApiError 403 "You can only modify your own resources")))
      else (req, NextOk)
  end.

End RoleCheck.

(** ** Routes: middleware in a row *)

Module Route.

(** [router.verb(path, m1, m2, ...)]: the next middleware runs on the
    request the previous one leaves, unless that one passed an error to
    [next]. *)
Definition andThen (m1 m2 : Request.t -> Request.t * NextCall) (req : Request.t)
  : Request.t * NextCall :=
  match m1 req with
  | (req1, NextOk) => m2 req1
  | (req1, NextError t) => (req1, NextError t)
  end.

(** [authenticate, requireRole(...)], the guard in front of the writing
    article, category, tag and user routes. *)
Definition guarded (verifyToken : string -> option JwtPayload.t) (db : Db.t)
  (allowedRoles : list string) : Request.t -> Request.t * NextCall :=
  andThen (Auth.authenticate verifyToken db) (RoleCheck.requireRole allowedRoles).

End Route.

(** ** src/services/userService.ts, the calls that write one column *)

Module UserService.

Definition withUsers (db : Db.t) (us : gmap Z User.t) : Db.t :=
  Db.mk us (Db.categories db) (Db.tags db) (Db.articles db) (Db.comments db)
    (Db.nextArticleId db) (Db.nextCommentId db).

(** Modelled from the spec: the declaration of the [user] table is not
    among the sources.  Its [updatedAt] column is kept by the ORM, which
    sets it to the time of the update whenever it updates the row; so
    every update below writes the column it names and [updatedAt]. *)
Definition setActive (b : bool) (now : Z) (u : User.t) : User.t :=
  User.mk (User.id u) (User.email u) (User.password u) (User.name u) (User.role u)
    (User.avatarUrl u) (User.bio u) b (User.createdAt u) now.

(** Modelled from the spec: as for [setActive], the update writes
    [updatedAt] with the column it names. *)
Definition setRole (role : string) (now : Z) (u : User.t) : User.t :=
  User.mk (User.id u) (User.email u) (User.password u) (User.name u) role
    (User.avatarUrl u) (User.bio u) (User.isActive u) (User.createdAt u) now.

(** [prisma.user.update({ where: { id }, data })]: throws P2025 when no
    row has this id. *)
Definition updateRow (id : Z) (f : User.t -> User.t) (db : Db.t) : Result User.t * Db.t :=
  match Db.users db !! id with
  | None => (Err (ThrowPrisma "P2025"), db)
  | Some u => (Ok (f u), withUsers db (<[id := f u]> (Db.users db)))
  end.

Definition changeUserRole (id : Z) (role : string) (now : Z) (db : Db.t)
  : Result AuthUser.t * Db.t :=
  match updateRow id (setRole role now) db with
  | (Ok u, db') => (Ok (Auth.selectUser u), db')
  | (Err t, db') => (Err t, db')
  end.

Definition deactivateUser (id : Z) (now : Z) (db : Db.t) : Result string * Db.t :=
  match updateRow id (setActive false now) db with
  | (Ok _, db') => (Ok "User deactivated successfully", db')
  | (Err t, db') => (Err t, db')
  end.

Definition activateUser (id : Z) (now : Z) (db : Db.t) : Result string * Db.t :=
  match updateRow id (setActive true now) db with
  | (Ok _, db') => (Ok "User activated successfully", db')
  | (Err t, db') => (Err t, db')
  end.

(** [prisma.user.findUnique({ where: { email } })] *)
Definition getUserByEmail (email : string) (db : Db.t) : option User.t :=
  List.find (fun u => String.eqb (User.email u) email) ((map_to_list (Db.users db)).*2).

(** [getUserById]: the selected columns, or a 404. *)
Definition getUserById (id : Z) (db : Db.t) : Result AuthUser.t :=
  match Db.users db !! id with
  | None => throwApi 404 "User not found"
  | Some u => Ok (Auth.selectUser u)
  end.

End UserService.

(** ** src/controllers/authController.ts ([login], [refreshToken]) *)

Module LoginData.
Record t := mk { user : AuthUser.t; accessToken : string; refreshToken : string }.
End LoginData.

Module TokenPair.
Record t := mk { accessToken : string; refreshToken : string }.
End TokenPair.

Module AuthController.
Section Tokens.

(** The signing library and the password hashing library. *)
Variable generateToken : JwtPayload.t -> string.
Variable generateRefreshToken : JwtPayload.t -> string.
Variable verifyRefreshToken : string -> option JwtPayload.t.
Variable verifyPassword : string -> string -> bool.

Definition claimsOf (u : AuthUser.t) : JwtPayload.t :=
  JwtPayload.mk (AuthUser.id u) (AuthUser.email u) (AuthUser.role u).

Definition login (email password : string) (db : Db.t) : Result LoginData.t :=
  match UserService.getUserByEmail email db with
  | None => throwApi 401 "Invalid email or password"
  | Some user =>
      if negb (User.isActive user)
      then throwApi 403 "Your account has been deactivated"
      else if negb (verifyPassword password (User.password user))
      then throwApi 401 "Invalid email or password"
      else
        let userWithoutPassword := Auth.selectUser user in
        Ok (LoginData.mk userWithoutPassword
              (generateToken (claimsOf userWithoutPassword))
              (generateRefreshToken (claimsOf userWithoutPassword)))
  end.

(** The body of the [try] in [refreshToken]; [None] when anything in it
    throws (the verification, or [getUserById] with its 404). *)
Definition refreshAttempt (token : string) (db : Db.t) : option TokenPair.t :=
  match verifyRefreshToken token with
  | None => None
  | Some payload =>
      match UserService.getUserById (JwtPayload.userId payload) db with
      | Err _ => None
      | Ok user =>
          Some (TokenPair.mk (generateToken (claimsOf user))
                  (generateRefreshToken (claimsOf user)))
      end
  end.

(** Whatever is thrown inside the [try] comes out as the same 401. *)
Definition refreshToken (refreshTokenFromBody : option string) (db : Db.t)
  : Result TokenPair.t :=
  if negb (truthy_str refreshTokenFromBody)
  then throwApi 400 "Refresh token is required"
  else
    match refreshAttempt (default "" refreshTokenFromBody) db with
    | Some tokens => Ok tokens
    | None => throwApi 401 "Invalid or expired refresh token"
    end.

End Tokens.
End AuthController.

(** ** What a call throws *)

Module Calls.

Definition errorOf {A} (r : Result A) : option Thrown :=
  match r with Ok _ => None | Err t => Some t end.

(** The error a call of the transition system ends with, if any; [None]
    is a call that has not returned. *)
Definition thrown (generateSlug : string -> string) (op : System.Op) (db : Db.t)
  : option (option Thrown) :=
  match op with
  | System.CreateArticle fuel data authorId now =>
      (fun x => errorOf (fst x))
      <$> ArticleService.createArticle generateSlug fuel data authorId now db
  | System.UpdateArticle fuel id data userId userRole now =>
      (fun x => errorOf (fst x))
      <$> ArticleService.updateArticle generateSlug fuel id data userId userRole now db
  | System.PublishArticle id now => Some (errorOf (fst (ArticleService.publishArticle id now db)))
  | System.ArchiveArticle id => Some (errorOf (fst (ArticleService.archiveArticle id db)))
  | System.CreateComment data userId now =>
      Some (errorOf (fst (CommentService.createComment data userId now db)))
  | System.UpdateComment id content userId userRole =>
      Some (errorOf (fst (CommentService.updateComment id content userId userRole db)))
  | System.ApproveComment id => Some (errorOf (fst (CommentService.approveComment id db)))
  | System.RejectComment id => Some (errorOf (fst (CommentService.rejectComment id db)))
  | System.MarkAsSpam id => Some (errorOf (fst (CommentService.markAsSpam id db)))
  | System.DeleteComment id userId userRole =>
      Some (errorOf (fst (CommentService.deleteComment id userId userRole db)))
  end.

End Calls.

(** ** Vocabulary: whose token a request bears *)

Module Bearing.

(** The request bears a token that verifies as user [id]. *)
Definition tokenOf (verifyToken : string -> option JwtPayload.t) (id : Z) (req : Request.t)
  : Prop :=
  exists h decoded,
    Request.authorization req = Some h
    /\ String.prefix "Bearer " h = true
    /\ verifyToken (Auth.tokenOf h) = Some decoded
    /\ JwtPayload.userId decoded = id.

(** Primary keys of the [user] table equal the [id] column. *)
Definition keyed (db : Db.t) : Prop :=
  forall k u, Db.users db !! k = Some u -> User.id u = k.

End Bearing.

(** ** Reading one article (ArticleService and its controller) *)

Module ArticleReads.

(** [data: { viewCount: { increment: 1 } }] *)
Definition incrementViews (a : Article.t) : Article.t :=
  Article.mk (Article.id a) (Article.title a) (Article.slug a) (Article.content a)
    (Article.excerpt a) (Article.featuredImage a) (Article.authorId a)
    (Article.categoryId a) (Article.status a) (Article.viewCount a + 1)
    (Article.publishedAt a) (Article.tagIds a) (Article.createdAt a).

(** The row that was read is returned, not the one the update wrote.
    [viewCount] is an [Int] column: an increment that would take it past
    [Schema.maxInt] is refused by the database (P2020). *)
Definition getArticleBySlug (slug : string) (incrementView : bool) (db : Db.t)
  : Result Article.t * Db.t :=
  match ArticleService.findBySlug db slug with
  | None => (throwApi 404 "Article not found", db)
  | Some article =>
      if incrementView && bool_decide (Article.status article = ArticleStatus.PUBLISHED)
      then
        if Schema.maxInt <? Article.viewCount article + 1
        then (Err (ThrowPrisma "P2020"), db)
        else
          match ArticleService.updateRow (Article.id article) incrementViews db with
          | (Err t, db') => (Err t, db')
          | (Ok _, db') => (Ok article, db')
          end
      else (Ok article, db)
  end.

Definition getArticleById (id : Z) (db : Db.t) : Result Article.t :=
  match Db.articles db !! id with
  | None => throwApi 404 "Article not found"
  | Some article => Ok article
  end.

End ArticleReads.

Module ArticleController.

(** [GET /api/articles/:slug], behind [optionalAuthenticate]. *)
Definition getArticleBySlug (req : Request.t) (slug : string) (db : Db.t)
  : Result Article.t * Db.t :=
  if String.eqb slug ""
  then (throwApi 400 "Slug is required", db)
  else
    let incrementView := negb (bool_decide (is_Some (Request.user req))) in
    match ArticleReads.getArticleBySlug slug incrementView db with
    | (Err t, db') => (Err t, db')
    | (Ok article, db') =>
        if negb (bool_decide (is_Some (Request.user req)))
           && negb (bool_decide (Article.status article = ArticleStatus.PUBLISHED))
        then (throwApi 404 "Article not found", db')
        else (Ok article, db')
    end.

End ArticleController.

(** ** Vocabulary for the slug column *)

Module Slugs.

(** No two rows of the [article] table have the same slug. *)
Definition unique (db : Db.t) : Prop :=
  forall i j a b,
    Db.articles db !! i = Some a -> Db.articles db !! j = Some b ->
    Article.slug a = Article.slug b -> i = j.

(** Some article has this slug. *)
Definition used (db : Db.t) (slug : string) : Prop :=
  exists k a, Db.articles db !! k = Some a /\ Article.slug a = slug.

End Slugs.

(** ** src/services/userService.ts: passwords *)

Module Passwords.
Section Bcrypt.

(** [bcrypt.hash(password, 10)] draws a salt, which is an argument here;
    [bcrypt.compare] is [verifyPassword]. *)
Variable hash : string -> string -> string.
Variable compare : string -> string -> bool.

(** Modelled from the spec: [updatedAt] is declared in the schema,
    which is missing, and is kept by the ORM.  The update writes the hash
    and, as every update of a [user] row, the time of the update. *)
Definition setPassword (hashed : string) (now : Z) (u : User.t) : User.t :=
  User.mk (User.id u) (User.email u) hashed (User.name u) (User.role u)
    (User.avatarUrl u) (User.bio u) (User.isActive u) (User.createdAt u) now.

Definition changePassword (salt : string) (id : Z) (oldPassword newPassword : string)
  (now : Z) (db : Db.t) : Result string * Db.t :=
  match Db.users db !! id with
  | None => (throwApi 404 "User not found", db)
  | Some user =>
      if negb (compare oldPassword (User.password user))
      then (throwApi 401 "Current password is incorrect", db)
      else
        match UserService.updateRow id (setPassword (hash salt newPassword) now) db with
        | (Ok _, db') => (Ok "Password changed successfully", db')
        | (Err t, db') => (Err t, db')
        end
  end.

End Bcrypt.

(** No other row of the [user] table has the e-mail of row [id]. *)
Definition ownEmail (id : Z) (db : Db.t) : Prop :=
  forall u k v,
    Db.users db !! id = Some u -> Db.users db !! k = Some v ->
    User.email v = User.email u -> k = id.

End Passwords.

(** A signer and a password check to go with [Sample.verifier]. *)
Module Credentials.

Definition signer (payload : JwtPayload.t) : string :=
  if JwtPayload.userId payload =? 1 then "tok-alice"
  else if JwtPayload.userId payload =? 2 then "tok-bob"
  else "tok-gone".

Definition checker (password hash : string) : bool :=
  String.eqb hash (String.append "hash-" password).

(** Salts are ignored. *)
Definition hasher (salt password : string) : string :=
  String.append "hash-" password.

End Credentials.
(* ===================================================================== *)
(** * Part II: properties *)
(* ===================================================================== *)

(** ** Pagination *)

Section DoubleProps.

Lemma maxSafe_value : Double.maxSafe = 9007199254740992.
Proof. reflexivity. Qed.

Lemma round_exact (z : Z) : Z.abs z <= Double.maxSafe -> Double.round z = z.
Proof.
  rewrite maxSafe_value. intros Hz. unfold Double.round.
  destruct (Z.leb_spec (Z.log2 (Z.abs z) + 1) 53) as [_ | Hbits]; [done |].
  assert (Hpos : 0 < Z.abs z).
  { destruct (Z.abs z) eqn:Habs; [cbn in Hbits; lia | lia | lia]. }
  pose proof (Z.log2_spec (Z.abs z) Hpos) as [Hlo _].
  assert (Hpow : 2 ^ 53 <= 2 ^ Z.log2 (Z.abs z)) by (apply Z.pow_le_mono_r; lia).
  change (2 ^ 53) with 9007199254740992 in Hpow.
  assert (z = 9007199254740992 \/ z = - 9007199254740992) as [-> | ->] by lia;
    reflexivity.
Qed.

(** Rounding does not take a number from above 2^53 to below it. *)
Lemma round_above (z : Z) :
  Double.maxSafe <= z ->
  Double.maxSafe <= Double.round z.
Proof.
  rewrite maxSafe_value. intros Hz. unfold Double.round.
  destruct (Z.leb_spec (Z.log2 (Z.abs z) + 1) 53) as [_ | Hbits]; [done |].
  rewrite Z.abs_eq in * by lia. rewrite Z.sgn_pos by lia. rewrite Z.mul_1_l.
  pose proof (Z.log2_spec z ltac:(lia)) as [Hlo _].
  set (e := Z.log2 z + 1 - 53) in *.
  assert (He : 1 <= e) by (subst e; lia).
  set (ulp := 2 ^ e).
  assert (Hulp : 0 < ulp) by (subst ulp; apply Z.pow_pos_nonneg; lia).
  assert (Hq : 2 ^ 52 <= z / ulp).
  { apply Z.div_le_lower_bound; [done |]. subst ulp.
    rewrite <- Z.pow_add_r by lia. replace (e + 52) with (Z.log2 z) by (subst e; lia). done. }
  assert (Hu2 : 2 <= ulp).
  { subst ulp. change 2 with (2 ^ 1) at 1. apply Z.pow_le_mono_r; lia. }
  change (2 ^ 52) with 4503599627370496 in Hq.
  set (q := z / ulp) in *. clearbody q ulp.
  repeat (match goal with |- context [if ?c then _ else _] => destruct c end); nia.
Qed.

Lemma round_nonneg (z : Z) : 0 <= z -> 0 <= Double.round z.
Proof.
  intros Hz. destruct (Z.le_gt_cases z Double.maxSafe) as [Hle | Hgt].
  - rewrite round_exact; [done |]. by rewrite Z.abs_eq.
  - pose proof (round_above z ltac:(lia)). rewrite maxSafe_value in *. lia.
Qed.

(** The two operations of the hundred-quadrillionth page, checked against
    the Standard Library's model of IEEE 754 binary64 arithmetic. *)
Lemma round_matches_binary64 :
  SpecFloat.SFsub 53 1024 (Double.binary64 (10 ^ 17)) (Double.binary64 1)
  = Double.binary64 (Double.sub (10 ^ 17) 1)
  /\ SpecFloat.SFmul 53 1024 (Double.binary64 (10 ^ 17)) (Double.binary64 100)
     = Double.binary64 (Double.mul (10 ^ 17) 100)
  /\ Double.binary64 (10 ^ 17 - 1) = Double.binary64 (Double.round (10 ^ 17 - 1)).
Proof. vm_compute. done. Qed.

End DoubleProps.

(** C8 (amended). For every page and limit (absent, zero and negative
    included), [getPagination] returns a page clamped to at least 1 (the
    given page when it is at least 1, else 1), a limit clamped to the
    interval [1, 100] (10 when absent) and [take = limit].  [skip] is
    [(page - 1) * limit] on the clamped values as double arithmetic
    computes it: the exact product whenever that is at most 2^53, so for
    every page up to 2^46, and beyond that (short of overflow) the
    product of the rounded [page - 1] and [limit], rounded. *)
Theorem getPagination_clamped (params : PaginationParams.t) :
  let r := Pagination.getPagination params in
  PaginationResult.page r = Z.max 1 (default 1 (PaginationParams.page params))
  /\ PaginationResult.limit r
     = Z.min 100 (Z.max 1 (default 10 (PaginationParams.limit params)))
  /\ 1 <= PaginationResult.page r
  /\ 1 <= PaginationResult.limit r <= 100
  /\ ((PaginationResult.page r - 1) * PaginationResult.limit r <= Double.maxSafe ->
      PaginationResult.skip r = (PaginationResult.page r - 1) * PaginationResult.limit r)
  /\ (PaginationResult.page r <= 2 ^ 46 ->
      PaginationResult.skip r = (PaginationResult.page r - 1) * PaginationResult.limit r)
  /\ (PaginationResult.page r < 2 ^ 1000 ->
      PaginationResult.skip r
      = Double.round (Double.round (PaginationResult.page r - 1) * PaginationResult.limit r))
  /\ PaginationResult.take r = PaginationResult.limit r
  /\ 0 <= PaginationResult.skip r.
Proof.
  intros r.
  assert (Hpage : PaginationResult.page r = Z.max 1 (default 1 (PaginationParams.page params))).
  { destruct params as [[p|] l]; cbn; [destruct (Z.eqb_spec p 0) |]; lia. }
  assert (Hlimit : PaginationResult.limit r
                   = Z.min 100 (Z.max 1 (default 10 (PaginationParams.limit params)))).
  { by destruct params as [p [l|]]. }
  assert (Hskip : PaginationResult.skip r
                  = Double.round (Double.round (PaginationResult.page r - 1)
                                  * PaginationResult.limit r)) by done.
  assert (Hp1 : 1 <= PaginationResult.page r) by lia.
  assert (Hl1 : 1 <= PaginationResult.limit r <= 100) by lia.
  assert (Hexact : (PaginationResult.page r - 1) * PaginationResult.limit r <= Double.maxSafe ->
                   PaginationResult.skip r
                   = (PaginationResult.page r - 1) * PaginationResult.limit r).
  { intros Hsafe. rewrite Hskip, (round_exact (PaginationResult.page r - 1)).
    - apply round_exact. rewrite Z.abs_eq by nia. done.
    - rewrite Z.abs_eq by lia. nia. }
  do 5 (split; [done |]). split; [| split; [done |]; split; [done |]].
  - intros Hsmall. apply Hexact. rewrite maxSafe_value.
    change (2 ^ 46) with 70368744177664 in Hsmall. nia.
  - rewrite Hskip. apply round_nonneg.
    pose proof (round_nonneg (PaginationResult.page r - 1) ltac:(lia)). nia.
Qed.

(** Page 3 of ten rows, page 0, and a limit of 200. *)
Lemma getPagination_clamped_witness :
  PaginationResult.skip (Pagination.getPagination (PaginationParams.mk (Some 3) (Some 10))) = 20
  /\ PaginationResult.page (Pagination.getPagination (PaginationParams.mk (Some 0) None)) = 1
  /\ PaginationResult.limit (Pagination.getPagination (PaginationParams.mk None (Some 200)))
     = 100.
Proof.
  destruct (getPagination_clamped (PaginationParams.mk (Some 3) (Some 10)))
    as (_ & _ & _ & _ & _ & Hskip & _).
  destruct (getPagination_clamped (PaginationParams.mk (Some 0) None)) as (Hpage & _).
  destruct (getPagination_clamped (PaginationParams.mk None (Some 200))) as (_ & Hlimit & _).
  split_and!; [by rewrite Hskip | exact Hpage | exact Hlimit].
Defined.

(** The hundred-quadrillionth page of a hundred rows: [page - 1] is not a
    double and rounds back to [page], so [skip] is [page * limit]; the
    binary64 arithmetic of the Standard Library gives the same. *)
Lemma getPagination_skip_counterexample :
  let r := Pagination.getPagination (PaginationParams.mk (Some (10 ^ 17)) (Some 100)) in
  PaginationResult.page r = 10 ^ 17
  /\ PaginationResult.limit r = 100
  /\ PaginationResult.skip r = 10 ^ 19
  /\ PaginationResult.skip r <> (PaginationResult.page r - 1) * PaginationResult.limit r
  /\ SpecFloat.SFmul 53 1024
       (SpecFloat.SFsub 53 1024 (Double.binary64 (PaginationResult.page r))
          (Double.binary64 1))
       (Double.binary64 (PaginationResult.limit r))
     = Double.binary64 (PaginationResult.skip r).
Proof. vm_compute. split_and!; done. Qed.

(** ** Unique slugs *)

Section UniqueSlugProps.
Local Open Scope nat_scope.

Variable generateSlug : string -> string.

(** A boolean sequence that is false somewhere has a first such place. *)
Lemma first_false (Q : nat -> bool) (n : nat) :
  Q n = false ->
  exists m, m <= n /\ Q m = false /\ forall j, j < m -> Q j = true.
Proof.
  revert Q. induction n as [|n IH]; intros Q Hn.
  - exists 0. repeat split; [lia | done | intros j Hj; lia].
  - destruct (Q 0) eqn:H0.
    + destruct (IH (fun k => Q (S k)) Hn) as (m & Hle & Hm & Hlt).
      exists (S m). repeat split; [lia | done |].
      intros [|j] Hj; [done | apply Hlt; lia].
    + exists 0. repeat split; [lia | done | intros j Hj; lia].
Qed.

Section Pure.
Variable P : string -> bool.

Local Abbreviation cand := (Slugify.candidate generateSlug).
Local Abbreviation loop := (Slugify.uniqueSlugLoop generateSlug (Slugify.purely P)).

(** One iteration of the loop. *)
Lemma uniqueSlugLoop_step (fuel : nat) (text slug : string) (counter : nat) :
  loop (S fuel) text slug counter tt
  = if P slug
    then loop fuel text (Slugify.suffixed generateSlug text counter) (S counter) tt
    else Some (slug, tt).
Proof. reflexivity. Qed.

(** Entered on the [k]-th candidate, the loop walks up the sequence and
    returns the first candidate from [k] on that is free. *)
Lemma uniqueSlugLoop_walk (text : string) (m : nat) :
  forall k fuel,
    (forall j, k <= j < k + m -> P (cand text j) = true) ->
    P (cand text (k + m)) = false ->
    m < fuel ->
    loop fuel text (cand text k) (S k) tt = Some (cand text (k + m), tt).
Proof.
  induction m as [|m IH]; intros k fuel Htaken Hfree Hfuel.
  - destruct fuel as [|fuel]; [lia |].
    rewrite Nat.add_0_r in *. by rewrite uniqueSlugLoop_step, Hfree.
  - destruct fuel as [|fuel]; [lia |].
    rewrite uniqueSlugLoop_step, Htaken by lia.
    change (Slugify.suffixed generateSlug text (S k)) with (cand text (S k)).
    rewrite (IH (S k) fuel).
    + do 3 f_equal. lia.
    + intros j Hj. apply Htaken. lia.
    + replace (S k + m) with (k + S m) by lia. done.
    + lia.
Qed.

(** Whatever the loop returns was reported free by the check that ended it. *)
Lemma uniqueSlugLoop_free (text : string) :
  forall fuel slug counter result,
    loop fuel text slug counter tt = Some (result, tt) -> P result = false.
Proof.
  induction fuel as [|fuel IH]; intros slug counter result; [done |].
  rewrite uniqueSlugLoop_step. destruct (P slug) eqn:HP.
  - apply IH.
  - intros [= <-]. done.
Qed.

End Pure.

(** With a scripted check the slug is never looked at: the result only
    depends on the script. *)
Lemma generateUniqueSlug_script_3 (text : string) (fuel : nat) :
  4 <= fuel ->
  Slugify.generateUniqueSlug generateSlug Slugify.scripted fuel text
    [true; true; true; false]
  = Some (generateSlug text +:+ "-3", []).
Proof.
  intros Hfuel. do 4 (destruct fuel as [|fuel]; [lia |]). reflexivity.
Qed.

(** C1. For every text and every predicate [existsCheck] that reports some
    candidate of the sequence [slugify(text)], [slugify(text)-1],
    [slugify(text)-2], ... free, [generateUniqueSlug] returns (given room
    for enough iterations) the first candidate of that sequence that
    [existsCheck] reports free, each counter being appended to the
    original slug; a predicate answering true, true, true, false yields
    the base slug with suffix [-3]; and a returned slug is never one the
    predicate reports taken. *)
Theorem generateUniqueSlug_first_free (existsCheck : string -> bool) (text : string) (n : nat) :
  existsCheck (Slugify.candidate generateSlug text n) = false ->
  (exists m,
      m <= n
      /\ existsCheck (Slugify.candidate generateSlug text m) = false
      /\ (forall j, j < m -> existsCheck (Slugify.candidate generateSlug text j) = true)
      /\ Slugify.candidate generateSlug text m
         = match m with
           | O => generateSlug text
           | S _ => generateSlug text +:+ "-" +:+ show_nat m
           end
      /\ forall fuel, m < fuel ->
           Slugify.generateUniqueSlug generateSlug (Slugify.purely existsCheck) fuel text tt
           = Some (Slugify.candidate generateSlug text m, tt))
  /\ (forall fuel, 4 <= fuel ->
        Slugify.generateUniqueSlug generateSlug Slugify.scripted fuel text
          [true; true; true; false]
        = Some (generateSlug text +:+ "-3", []))
  /\ (forall fuel slug,
        Slugify.generateUniqueSlug generateSlug (Slugify.purely existsCheck) fuel text tt
        = Some (slug, tt) ->
        existsCheck slug = false).
Proof.
  intros Hfree. split; [| split].
  - destruct (first_false (fun k => existsCheck (Slugify.candidate generateSlug text k)) n Hfree)
      as (m & Hle & Hm & Hlt).
    exists m. split_and!; [done | done | done | by destruct m |].
    intros fuel Hfuel. unfold Slugify.generateUniqueSlug.
    apply (uniqueSlugLoop_walk existsCheck text m 0 fuel); [| done | done].
    intros j Hj. apply Hlt. lia.
  - intros fuel Hfuel. by apply generateUniqueSlug_script_3.
  - intros fuel slug. unfold Slugify.generateUniqueSlug. apply uniqueSlugLoop_free.
Qed.

End UniqueSlugProps.

(** The theorem at work: lower-casing stands in for the slug library, and
    the slugs [hello] and [hello-1] are taken. *)
Lemma generateUniqueSlug_first_free_witness :
  let taken := fun s : string => String.eqb s "hello" || String.eqb s "hello-1" in
  taken (Slugify.candidate (fun s => s) "hello" 2) = false
  /\ Slugify.generateUniqueSlug (fun s => s) (Slugify.purely taken) 5 "hello" tt
     = Some ("hello-2", tt).
Proof.
  intros taken. split; [reflexivity |].
  destruct (generateUniqueSlug_first_free (fun s => s) taken "hello" 2 eq_refl)
    as [(m & Hle & Hm & Hlt & _ & Hrun) _].
  destruct m as [|[|[|m]]]; [discriminate Hm | discriminate Hm | | lia].
  apply (Hrun 5%nat). lia.
Defined.

(** ** Authentication *)

Section AuthProps.
Variable verifyToken : string -> option JwtPayload.t.

Lemma hasBearer_prefix (h : string) :
  Auth.hasBearer (Some h) = String.prefix "Bearer " h.
Proof. by destruct h. Qed.

Lemma hasBearer_noBearer (req : Request.t) :
  Outcome.noBearer req <-> Auth.hasBearer (Request.authorization req) = false.
Proof.
  unfold Outcome.noBearer. destruct (Request.authorization req) as [h|].
  - rewrite hasBearer_prefix. split.
    + intros [? | (h' & [= <-] & Hp)]; done.
    + intros Hp. right. by exists h.
  - split; [done | by left].
Qed.

(** C2. [authenticate] rejects with 401 when the Authorization header is
    missing or does not start with [Bearer ], when the token fails
    verification, and when no user has the decoded [userId]; it rejects
    with 403 when the user exists but is not active; and for a verified
    token naming an existing active user it attaches that user (the
    row's id, email, name, role, avatarUrl, bio, isActive, createdAt and
    updatedAt, not its password) to the request and calls [next] with no
    error. *)
Theorem authenticate_outcomes (db : Db.t) (req : Request.t) :
  (Outcome.noBearer req -> Outcome.rejected 401 (Auth.authenticate verifyToken db req) req)
  /\ (forall h,
        Request.authorization req = Some h ->
        String.prefix "Bearer " h = true ->
        (verifyToken (Auth.tokenOf h) = None ->
         Outcome.rejected 401 (Auth.authenticate verifyToken db req) req)
        /\ (forall decoded,
              verifyToken (Auth.tokenOf h) = Some decoded ->
              (Db.users db !! JwtPayload.userId decoded = None ->
               Outcome.rejected 401 (Auth.authenticate verifyToken db req) req)
              /\ (forall user,
                    Db.users db !! JwtPayload.userId decoded = Some user ->
                    (User.isActive user = false ->
                     Outcome.rejected 403 (Auth.authenticate verifyToken db req) req)
                    /\ (User.isActive user = true ->
                        Auth.authenticate verifyToken db req
                        = (Request.mk (Some h)
                             (Some (AuthUser.mk (User.id user) (User.email user)
                                      (User.name user) (User.role user)
                                      (User.avatarUrl user) (User.bio user)
                                      (User.isActive user) (User.createdAt user)
                                      (User.updatedAt user))), NextOk))))).
Proof.
  unfold Outcome.rejected, Auth.authenticate, Auth.authenticateBody. split.
  - intros Hno%hasBearer_noBearer. rewrite Hno. cbn. eauto.
  - intros h Hh Hp. rewrite Hh, hasBearer_prefix, Hp. cbn [negb].
    change (default "" (Some h)) with h.
    split; [intros ->; cbn; eauto |].
    intros decoded ->. split; [intros ->; cbn; eauto |].
    intros user ->. split; intros Hactive; rewrite Hactive; cbn; [eauto |].
    unfold Request.attach, Auth.selectUser. by rewrite Hh, Hactive.
Qed.

(** C7. [optionalAuthenticate] never passes an error to [next]: when the
    header is missing or malformed, the token fails verification, the
    user is not found or is inactive, the request goes on unchanged (no
    user attached); for a verified token naming an existing active user
    the same user is attached as on the required path: the row's id,
    email, name, role, avatarUrl, bio, isActive, createdAt and
    updatedAt. *)
Theorem optionalAuthenticate_never_fails (db : Db.t) (req : Request.t) :
  snd (Auth.optionalAuthenticate verifyToken db req) = NextOk
  /\ (Outcome.noBearer req -> Auth.optionalAuthenticate verifyToken db req = (req, NextOk))
  /\ (forall h,
        Request.authorization req = Some h ->
        String.prefix "Bearer " h = true ->
        (verifyToken (Auth.tokenOf h) = None ->
         Auth.optionalAuthenticate verifyToken db req = (req, NextOk))
        /\ (forall decoded,
              verifyToken (Auth.tokenOf h) = Some decoded ->
              (Db.users db !! JwtPayload.userId decoded = None ->
               Auth.optionalAuthenticate verifyToken db req = (req, NextOk))
              /\ (forall user,
                    Db.users db !! JwtPayload.userId decoded = Some user ->
                    (User.isActive user = false ->
                     Auth.optionalAuthenticate verifyToken db req = (req, NextOk))
                    /\ (User.isActive user = true ->
                        Auth.optionalAuthenticate verifyToken db req
                        = (Request.mk (Some h)
                             (Some (AuthUser.mk (User.id user) (User.email user)
                                      (User.name user) (User.role user)
                                      (User.avatarUrl user) (User.bio user)
                                      (User.isActive user) (User.createdAt user)
                                      (User.updatedAt user))), NextOk)))))
  /\ (forall req',
        Auth.authenticate verifyToken db req = (req', NextOk) ->
        Auth.optionalAuthenticate verifyToken db req = (req', NextOk))
  /\ (forall req' t,
        Auth.authenticate verifyToken db req = (req', NextError t) ->
        Auth.optionalAuthenticate verifyToken db req = (req, NextOk)).
Proof.
  split_and!.
  - done.
  - intros Hno%hasBearer_noBearer. unfold Auth.optionalAuthenticate. by rewrite Hno.
  - intros h Hh Hp. unfold Auth.optionalAuthenticate.
    rewrite Hh, hasBearer_prefix, Hp. change (default "" (Some h)) with h.
    split; [by intros -> |].
    intros decoded ->. split; [by intros -> |].
    intros user ->. split; intros Hactive; rewrite Hactive; [done |].
    unfold Request.attach, Auth.selectUser. by rewrite Hh, Hactive.
  - intros req'.
    unfold Auth.authenticate, Auth.authenticateBody, Auth.optionalAuthenticate.
    destruct (Auth.hasBearer (Request.authorization req)); cbn [negb]; [| done].
    destruct (verifyToken _) as [decoded|]; [| done].
    destruct (Db.users db !! _) as [user|]; [| done].
    destruct (User.isActive user); cbn [negb]; [| done].
    by intros [= <-].
  - intros req' t.
    unfold Auth.authenticate, Auth.authenticateBody, Auth.optionalAuthenticate.
    destruct (Auth.hasBearer (Request.authorization req)); cbn [negb]; [| done].
    destruct (verifyToken _) as [decoded|]; [| done].
    destruct (Db.users db !! _) as [user|]; [| done].
    destruct (User.isActive user); cbn [negb]; done.
Qed.

End AuthProps.

(** The six situations of the required path on sample data. *)
Lemma authenticate_outcomes_witness :
  Outcome.rejected 401
    (Auth.authenticate Sample.verifier Sample.db0 (Request.mk None None)) (Request.mk None None)
  /\ Outcome.rejected 401
       (Auth.authenticate Sample.verifier Sample.db0 (Sample.bearing "Basic abc"))
       (Sample.bearing "Basic abc")
  /\ Outcome.rejected 401
       (Auth.authenticate Sample.verifier Sample.db0 (Sample.bearing "Bearer expired"))
       (Sample.bearing "Bearer expired")
  /\ Outcome.rejected 401
       (Auth.authenticate Sample.verifier Sample.db0 (Sample.bearing "Bearer tok-gone"))
       (Sample.bearing "Bearer tok-gone")
  /\ Outcome.rejected 403
       (Auth.authenticate Sample.verifier Sample.db0 (Sample.bearing "Bearer tok-bob"))
       (Sample.bearing "Bearer tok-bob")
  /\ Auth.authenticate Sample.verifier Sample.db0 (Sample.bearing "Bearer tok-alice")
     = (Request.mk (Some "Bearer tok-alice")
          (Some (AuthUser.mk 1 "alice@example.com" "Alice" "AUTHOR" None None true 100 100)),
        NextOk).
Proof.
  split_and!.
  - apply (authenticate_outcomes Sample.verifier Sample.db0 (Request.mk None None)).
    left. reflexivity.
  - apply (authenticate_outcomes Sample.verifier Sample.db0 (Sample.bearing "Basic abc")).
    right. exists "Basic abc". split; reflexivity.
  - apply (authenticate_outcomes Sample.verifier Sample.db0 (Sample.bearing "Bearer expired"))
      with (h := "Bearer expired"); reflexivity.
  - apply (authenticate_outcomes Sample.verifier Sample.db0 (Sample.bearing "Bearer tok-gone"))
      with (h := "Bearer tok-gone") (decoded := JwtPayload.mk 9 "gone@example.com" "AUTHOR");
      reflexivity.
  - apply (authenticate_outcomes Sample.verifier Sample.db0 (Sample.bearing "Bearer tok-bob"))
      with (h := "Bearer tok-bob") (decoded := JwtPayload.mk 2 "bob@example.com" "EDITOR")
           (user := Sample.bob); reflexivity.
  - apply (authenticate_outcomes Sample.verifier Sample.db0 (Sample.bearing "Bearer tok-alice"))
      with (h := "Bearer tok-alice") (decoded := JwtPayload.mk 1 "alice@example.com" "AUTHOR")
           (user := Sample.alice); reflexivity.
Defined.

(** The same six situations on the optional path. *)
Lemma optionalAuthenticate_never_fails_witness :
  Auth.optionalAuthenticate Sample.verifier Sample.db0 (Request.mk None None)
  = (Request.mk None None, NextOk)
  /\ Auth.optionalAuthenticate Sample.verifier Sample.db0 (Sample.bearing "Basic abc")
     = (Sample.bearing "Basic abc", NextOk)
  /\ Auth.optionalAuthenticate Sample.verifier Sample.db0 (Sample.bearing "Bearer expired")
     = (Sample.bearing "Bearer expired", NextOk)
  /\ Auth.optionalAuthenticate Sample.verifier Sample.db0 (Sample.bearing "Bearer tok-gone")
     = (Sample.bearing "Bearer tok-gone", NextOk)
  /\ Auth.optionalAuthenticate Sample.verifier Sample.db0 (Sample.bearing "Bearer tok-bob")
     = (Sample.bearing "Bearer tok-bob", NextOk)
  /\ Auth.optionalAuthenticate Sample.verifier Sample.db0 (Sample.bearing "Bearer tok-alice")
     = (Request.mk (Some "Bearer tok-alice")
          (Some (AuthUser.mk 1 "alice@example.com" "Alice" "AUTHOR" None None true 100 100)),
        NextOk).
Proof.
  split_and!.
  - destruct (optionalAuthenticate_never_fails Sample.verifier Sample.db0
                (Request.mk None None)) as (_ & H & _).
    apply H. left. reflexivity.
  - destruct (optionalAuthenticate_never_fails Sample.verifier Sample.db0
                (Sample.bearing "Basic abc")) as (_ & H & _).
    apply H. right. exists "Basic abc". split; reflexivity.
  - destruct (optionalAuthenticate_never_fails Sample.verifier Sample.db0
                (Sample.bearing "Bearer expired")) as (_ & _ & H & _).
    apply (H "Bearer expired"); reflexivity.
  - destruct (optionalAuthenticate_never_fails Sample.verifier Sample.db0
                (Sample.bearing "Bearer tok-gone")) as (_ & _ & H & _).
    destruct (H "Bearer tok-gone" eq_refl eq_refl) as [_ Hd].
    destruct (Hd (JwtPayload.mk 9 "gone@example.com" "AUTHOR") eq_refl) as [Hnone _].
    apply Hnone. reflexivity.
  - destruct (optionalAuthenticate_never_fails Sample.verifier Sample.db0
                (Sample.bearing "Bearer tok-bob")) as (_ & _ & H & _).
    destruct (H "Bearer tok-bob" eq_refl eq_refl) as [_ Hd].
    destruct (Hd (JwtPayload.mk 2 "bob@example.com" "EDITOR") eq_refl) as [_ Hu].
    destruct (Hu Sample.bob eq_refl) as [Hoff _].
    apply Hoff. reflexivity.
  - destruct (optionalAuthenticate_never_fails Sample.verifier Sample.db0
                (Sample.bearing "Bearer tok-alice")) as (_ & _ & H & _).
    destruct (H "Bearer tok-alice" eq_refl eq_refl) as [_ Hd].
    destruct (Hd (JwtPayload.mk 1 "alice@example.com" "AUTHOR") eq_refl) as [_ Hu].
    destruct (Hu Sample.alice eq_refl) as [_ Hon].
    apply Hon. reflexivity.
Defined.

(** ** Comments: deletion *)

Section DeleteProps.

Lemma deleteComment_unfold (id userId : Z) (userRole : string) (db : Db.t) (comment : Comment.t) :
  Db.comments db !! id = Some comment ->
  CommentService.deleteComment id userId userRole db
  = if negb (bool_decide (Comment.userId comment = Some userId))
       && negb (String.eqb userRole "ADMIN")
    then (throwApi 403 "You can only delete your own comments", db)
    else if (0 <? CommentService.countReplies db comment)%nat
    then (throwApi 400
            ("Cannot delete comment with "
             +:+ show_nat (CommentService.countReplies db comment)
             +:+ " replies. Delete replies first."), db)
    else (Ok "Comment deleted successfully",
          Db.withComments db (delete id (Db.comments db)) (Db.nextCommentId db)).
Proof. intros H. unfold CommentService.deleteComment. by rewrite H. Qed.

Lemma permitted_guard (comment : Comment.t) (userId : Z) (userRole : string) :
  Comment.userId comment = Some userId \/ userRole = "ADMIN" ->
  negb (bool_decide (Comment.userId comment = Some userId))
  && negb (String.eqb userRole "ADMIN") = false.
Proof.
  intros [Hown | ->].
  - by rewrite bool_decide_eq_true_2.
  - by rewrite andb_false_r.
Qed.

(** C4. A comment with one or more replies is not deleted, whoever asks:
    the call throws and the table is unchanged; for the requesters who may
    delete at all (the owner, or any user of role ADMIN) the rejection is
    a 400.  A deletion that succeeds found zero replies, and with zero
    replies the owner or an admin does delete the comment. *)
Theorem deleteComment_blocked_by_replies
  (db : Db.t) (id userId : Z) (userRole : string) (comment : Comment.t) :
  Db.comments db !! id = Some comment ->
  ((0 < CommentService.countReplies db comment)%nat ->
   (exists t, CommentService.deleteComment id userId userRole db = (Err t, db))
   /\ (Comment.userId comment = Some userId \/ userRole = "ADMIN" ->
       Outcome.failed 400 (CommentService.deleteComment id userId userRole db) db))
  /\ (forall r db',
        CommentService.deleteComment id userId userRole db = (Ok r, db') ->
        CommentService.countReplies db comment = 0%nat
        /\ Db.comments db' = delete id (Db.comments db))
  /\ (CommentService.countReplies db comment = 0%nat ->
      Comment.userId comment = Some userId \/ userRole = "ADMIN" ->
      exists r db',
        CommentService.deleteComment id userId userRole db = (Ok r, db')
        /\ Db.comments db' !! id = None).
Proof.
  intros Hc. rewrite (deleteComment_unfold _ _ _ _ _ Hc). split_and!.
  - intros Hn. apply Nat.ltb_lt in Hn as Hn'. split.
    + destruct (_ && _); [unfold throwApi; eauto |].
      rewrite Hn'. unfold throwApi; eauto.
    + intros Hperm. rewrite (permitted_guard _ _ _ Hperm), Hn'.
      unfold Outcome.failed. eauto.
  - intros r db'. destruct (_ && _); [done |].
    destruct (0 <? _)%nat eqn:Hn; [done |].
    intros [= <- <-]. apply Nat.ltb_ge in Hn. split; [lia | done].
  - intros Hz Hperm. rewrite (permitted_guard _ _ _ Hperm), Hz. cbn.
    eexists _, _. split; [done |]. cbn. apply lookup_delete_eq.
Qed.

End DeleteProps.

(** On the sample thread: Alice owns comment 1, which has a reply. *)
Lemma deleteComment_blocked_by_replies_witness :
  Outcome.failed 400 (CommentService.deleteComment 1 1 "AUTHOR" Sample.threadDb) Sample.threadDb
  /\ Outcome.failed 400 (CommentService.deleteComment 1 2 "ADMIN" Sample.threadDb) Sample.threadDb
  /\ exists r db',
       CommentService.deleteComment 4 1 "AUTHOR" Sample.threadDb = (Ok r, db')
       /\ Db.comments db' !! 4 = None.
Proof.
  split_and!.
  - destruct (deleteComment_blocked_by_replies Sample.threadDb 1 1 "AUTHOR"
                (Sample.comment 1 None "first" 11) eq_refl) as (H & _).
    apply H; [vm_compute; lia | left; reflexivity].
  - destruct (deleteComment_blocked_by_replies Sample.threadDb 1 2 "ADMIN"
                (Sample.comment 1 None "first" 11) eq_refl) as (H & _).
    apply H; [vm_compute; lia | right; reflexivity].
  - destruct (deleteComment_blocked_by_replies Sample.threadDb 4 1 "AUTHOR"
                (Sample.comment 4 (Some 3) "fourth" 14) eq_refl) as (_ & _ & H).
    apply H; [reflexivity | left; reflexivity].
Defined.

(** ** Comments: the public listing *)

Section ListingProps.

Lemma elem_of_List_filter {A} (f : A -> bool) (l : list A) (x : A) :
  x ∈ List.filter f l <-> f x = true /\ x ∈ l.
Proof. rewrite !list_elem_of_In, filter_In. tauto. Qed.

Lemma elem_of_topLevel (articleId : Z) (db : Db.t) (c : Comment.t) :
  c ∈ CommentService.topLevel articleId db
  <-> c ∈ Db.commentRows db
      /\ Comment.articleId c = articleId
      /\ Comment.parentId c = None
      /\ Comment.status c = CommentStatus.APPROVED.
Proof.
  unfold CommentService.topLevel. rewrite merge_sort_Permutation, elem_of_List_filter.
  unfold CommentService.isTopLevelOf.
  rewrite !andb_true_iff, !bool_decide_eq_true, Z.eqb_eq. tauto.
Qed.

Lemma elem_of_approvedReplies (db : Db.t) (parent c : Comment.t) :
  c ∈ CommentService.approvedReplies db parent
  <-> c ∈ Db.commentRows db
      /\ Comment.parentId c = Some (Comment.id parent)
      /\ Comment.status c = CommentStatus.APPROVED.
Proof.
  unfold CommentService.approvedReplies. rewrite merge_sort_Permutation, elem_of_List_filter.
  unfold CommentService.isApprovedReplyTo.
  rewrite !andb_true_iff, !bool_decide_eq_true. tauto.
Qed.

(** What the listing contains, level by level. *)
Lemma elem_of_listed (articleId : Z) (db : Db.t) (c : Comment.t) :
  c ∈ Visible.listed (CommentService.getArticleComments articleId db)
  <-> c ∈ CommentService.topLevel articleId db
      \/ (exists p, p ∈ CommentService.topLevel articleId db
                    /\ c ∈ CommentService.approvedReplies db p)
      \/ (exists p q, p ∈ CommentService.topLevel articleId db
                      /\ q ∈ CommentService.approvedReplies db p
                      /\ c ∈ CommentService.approvedReplies db q).
Proof.
  unfold Visible.listed, CommentService.getArticleComments.
  rewrite list_elem_of_bind. split.
  - intros (t & Hc & Ht). apply list_elem_of_fmap in Ht as (p & -> & Hp).
    cbn in Hc. apply elem_of_cons in Hc as [-> | Hc]; [by left |].
    apply list_elem_of_bind in Hc as (r & Hc & Hr).
    apply list_elem_of_fmap in Hr as (q & -> & Hq).
    cbn in Hc. apply elem_of_cons in Hc as [-> | Hc]; right; [left | right]; eauto.
  - intros [Hp | [(p & Hp & Hc) | (p & q & Hp & Hq & Hc)]].
    + eexists. split; [| apply list_elem_of_fmap; eauto]. cbn. apply elem_of_cons. by left.
    + eexists. split; [| apply list_elem_of_fmap; eauto]. cbn. apply elem_of_cons. right.
      apply list_elem_of_bind. eexists. split; [| apply list_elem_of_fmap; eauto].
      cbn. apply elem_of_cons. by left.
    + eexists. split; [| apply list_elem_of_fmap; eauto]. cbn. apply elem_of_cons. right.
      apply list_elem_of_bind. eexists. split; [| apply list_elem_of_fmap; eauto].
      cbn. apply elem_of_cons. by right.
Qed.

Lemma at_depth_0 (db : Db.t) (articleId : Z) (c : Comment.t) :
  Visible.at_depth db articleId 0 c <-> c ∈ CommentService.topLevel articleId db.
Proof.
  rewrite elem_of_topLevel. split.
  - inversion 1; subst. done.
  - intros (? & ? & ? & ?). by constructor.
Qed.

Lemma at_depth_S (db : Db.t) (articleId : Z) (n : nat) (c : Comment.t) :
  Visible.at_depth db articleId (S n) c
  <-> exists p, Visible.at_depth db articleId n p /\ c ∈ CommentService.approvedReplies db p.
Proof.
  split.
  - inversion 1; subst. eexists. split; [done |]. by apply elem_of_approvedReplies.
  - intros (p & Hp & (? & ? & ?)%elem_of_approvedReplies). by econstructor.
Qed.

(** C3 (amended). The public listing contains only APPROVED comments at
    each of its levels, and it goes exactly two replies deep: a comment is
    listed if and only if it is an APPROVED comment at depth 0, 1 or 2
    below a top-level comment of the article with all its ancestors
    APPROVED. *)
Theorem getArticleComments_approved_to_depth_2 (articleId : Z) (db : Db.t) (c : Comment.t) :
  (c ∈ Visible.listed (CommentService.getArticleComments articleId db) ->
   Comment.status c = CommentStatus.APPROVED)
  /\ (forall n, (n <= 2)%nat -> Visible.at_depth db articleId n c ->
        c ∈ Visible.listed (CommentService.getArticleComments articleId db))
  /\ (c ∈ Visible.listed (CommentService.getArticleComments articleId db) ->
      exists n, (n <= 2)%nat /\ Visible.at_depth db articleId n c).
Proof.
  split_and!.
  - intros [H | [(p & _ & H) | (p & q & _ & _ & H)]]%elem_of_listed.
    + by apply elem_of_topLevel in H as (_ & _ & _ & H).
    + by apply elem_of_approvedReplies in H as (_ & _ & H).
    + by apply elem_of_approvedReplies in H as (_ & _ & H).
  - intros n Hn Hd. apply elem_of_listed. destruct n as [|[|[|n]]]; [| | | lia].
    + left. by apply at_depth_0.
    + right; left. apply at_depth_S in Hd as (p & Hp%at_depth_0 & Hc). eauto.
    + right; right. apply at_depth_S in Hd as (q & Hq & Hc).
      apply at_depth_S in Hq as (p & Hp%at_depth_0 & Hq). eauto.
  - intros [H | [(p & Hp & H) | (p & q & Hp & Hq & H)]]%elem_of_listed.
    + exists 0%nat. split; [lia |]. by apply at_depth_0.
    + exists 1%nat. split; [lia |]. apply at_depth_S. exists p. by rewrite at_depth_0.
    + exists 2%nat. split; [lia |]. apply at_depth_S. exists q. split; [| done].
      apply at_depth_S. exists p. by rewrite at_depth_0.
Qed.

End ListingProps.

Lemma sample_thread_depths :
  Visible.at_depth Sample.threadDb 1 0 (Sample.comment 1 None "first" 11)
  /\ Visible.at_depth Sample.threadDb 1 1 (Sample.comment 2 (Some 1) "second" 12)
  /\ Visible.at_depth Sample.threadDb 1 2 (Sample.comment 3 (Some 2) "third" 13)
  /\ Visible.at_depth Sample.threadDb 1 3 (Sample.comment 4 (Some 3) "fourth" 14).
Proof.
  assert (Hrows : forall c, c ∈ [Sample.comment 3 (Some 2) "third" 13;
                                 Sample.comment 4 (Some 3) "fourth" 14;
                                 Sample.comment 2 (Some 1) "second" 12;
                                 Sample.comment 1 None "first" 11] ->
                         c ∈ Db.commentRows Sample.threadDb) by (intros c Hc; exact Hc).
  assert (H0 : Visible.at_depth Sample.threadDb 1 0 (Sample.comment 1 None "first" 11)).
  { constructor; [apply Hrows; set_solver | done..]. }
  assert (H1 : Visible.at_depth Sample.threadDb 1 1 (Sample.comment 2 (Some 1) "second" 12)).
  { econstructor; [exact H0 | apply Hrows; set_solver | done..]. }
  assert (H2 : Visible.at_depth Sample.threadDb 1 2 (Sample.comment 3 (Some 2) "third" 13)).
  { econstructor; [exact H1 | apply Hrows; set_solver | done..]. }
  split_and!; [done.. |].
  econstructor; [exact H2 | apply Hrows; set_solver | done..].
Qed.

(** The third-level reply of the sample thread is listed. *)
Lemma getArticleComments_approved_to_depth_2_witness :
  Sample.comment 3 (Some 2) "third" 13
  ∈ Visible.listed (CommentService.getArticleComments 1 Sample.threadDb).
Proof.
  destruct (getArticleComments_approved_to_depth_2 1 Sample.threadDb
              (Sample.comment 3 (Some 2) "third" 13)) as (_ & H & _).
  apply (H 2%nat); [lia |]. apply sample_thread_depths.
Defined.

(** C3 as stated fails: the fourth comment of the sample thread is
    APPROVED, and so is every comment above it, yet the listing stops one
    level short of it. *)
Lemma getArticleComments_depth_3_counterexample :
  Visible.at_depth Sample.threadDb 1 3 (Sample.comment 4 (Some 3) "fourth" 14)
  /\ Sample.comment 4 (Some 3) "fourth" 14
     ∉ Visible.listed (CommentService.getArticleComments 1 Sample.threadDb).
Proof.
  split; [apply sample_thread_depths |].
  intros H.
  assert (Hl : Visible.listed (CommentService.getArticleComments 1 Sample.threadDb)
               = [Sample.comment 1 None "first" 11; Sample.comment 2 (Some 1) "second" 12;
                  Sample.comment 3 (Some 2) "third" 13]) by (vm_compute; reflexivity).
  rewrite Hl in H.
  repeat (apply elem_of_cons in H as [H | H]; [discriminate H |]).
  by apply elem_of_nil in H.
Qed.

(** ** The transition system *)

Section SystemProps.
Variable generateSlug : string -> string.

Local Abbreviation run := (System.run generateSlug).
Local Abbreviation history := (System.history generateSlug).

(** A check that only reads the state hands it back unchanged. *)
Lemma uniqueSlugLoop_reads {St} (check : string -> St -> bool * St) (text : string) :
  (forall slug st, snd (check slug st) = st) ->
  forall fuel slug counter st result st',
    Slugify.uniqueSlugLoop generateSlug check fuel text slug counter st = Some (result, st') ->
    st' = st.
Proof.
  intros Hread. induction fuel as [|fuel IH]; intros slug counter st result st'; [done |].
  cbn. specialize (Hread slug st). destruct (check slug st) as [taken st1].
  cbn in Hread. subst st1. destruct taken.
  - apply IH.
  - by intros [= _ <-].
Qed.

Lemma updateRow_comments (id : Z) (s : CommentStatus.t) (db : Db.t) :
  s <> CommentStatus.PENDING ->
  Change.comments db (snd (CommentService.updateRow id (CommentService.setStatus s) db)).
Proof.
  intros Hs. unfold CommentService.updateRow.
  destruct (Db.comments db !! id) as [c|] eqn:Hc; cbn.
  - by eapply Change.comments_moderated.
  - by apply Change.comments_same.
Qed.

Lemma createArticle_inv fuel data authorId now db r db' :
  ArticleService.createArticle generateSlug fuel data authorId now db = Some (r, db') ->
  ((exists t, r = Err t) /\ db' = db)
  \/ exists slug,
       let a :=
         Article.mk (Db.nextArticleId db) (CreateArticleRequest.title data) slug
           (CreateArticleRequest.content data) (CreateArticleRequest.excerpt data)
           (CreateArticleRequest.featuredImage data) authorId
           (Some (CreateArticleRequest.categoryId data))
           (default ArticleStatus.DRAFT (CreateArticleRequest.status data)) 0
           (if bool_decide (CreateArticleRequest.status data = Some ArticleStatus.PUBLISHED)
            then Some now else None)
           (default [] (CreateArticleRequest.tagIds data)) now in
       r = Ok a
       /\ db' = Db.withArticles db (<[Db.nextArticleId db := a]> (Db.articles db))
                 (Db.nextArticleId db + 1).
Proof.
  unfold ArticleService.createArticle.
  destruct (Slugify.generateUniqueSlug _ _ _ _ _) as [[slug db1]|] eqn:Hslug; [| done].
  apply uniqueSlugLoop_reads in Hslug as ->; [| done].
  destruct (_ && _); [intros [= <- <-]; left; unfold throwApi; eauto |].
  destruct (_ || _); [intros [= <- <-]; left; eauto |].
  destruct (negb (Schema.allIn _ _)); [intros [= <- <-]; left; eauto |].
  intros [= <- <-]. right. by exists slug.
Qed.

Lemma updateArticle_inv fuel id data userId userRole now db r db' :
  ArticleService.updateArticle generateSlug fuel id data userId userRole now db = Some (r, db') ->
  ((exists t, r = Err t) /\ db' = db)
  \/ exists existingArticle slug,
       Db.articles db !! id = Some existingArticle
       /\ r = Ok (ArticleService.applyUpdate data slug now existingArticle)
       /\ db' = Db.withArticles db
                  (<[id := ArticleService.applyUpdate data slug now existingArticle]>
                     (Db.articles db))
                  (Db.nextArticleId db).
Proof.
  unfold ArticleService.updateArticle.
  destruct (Db.articles db !! id) as [existingArticle|] eqn:Ha;
    [| intros [= <- <-]; left; unfold throwApi; eauto].
  destruct (_ && _); [intros [= <- <-]; left; unfold throwApi; eauto |].
  destruct (if _ && _ then _ else _) as [[slug db1]|] eqn:Hslug; [| done].
  assert (db1 = db) as ->.
  { destruct (_ && _) in Hslug.
    - apply uniqueSlugLoop_reads in Hslug; done.
    - by injection Hslug as _ <-. }
  destruct (negb (Schema.memberOf _ _)); [intros [= <- <-]; left; eauto |].
  destruct (negb (Schema.allIn _ _)); [intros [= <- <-]; left; eauto |].
  unfold ArticleService.updateRow. rewrite Ha. intros [= <- <-].
  right. by exists existingArticle, slug.
Qed.

Lemma applyUpdate_change data slug now a :
  Change.article a (ArticleService.applyUpdate data slug now a).
Proof.
  split; [done |]. cbn.
  destruct (UpdateArticleRequest.status data) as [[| |]|]; cbn.
  - right. split; [done | by right].
  - left. split; [done |].
    destruct (Article.publishedAt a) eqn:Hp; repeat case_bool_decide; cbn; eauto; done.
  - right. split; [done | by right].
  - right. split; [done | by left].
Qed.

(** Every call changes the [article] table in one of three ways. *)
Lemma run_articles (op : System.Op) (db db' : Db.t) :
  run op db = Some db' -> Change.articles db db'.
Proof.
  destruct op; cbn.
  - destruct (ArticleService.createArticle _ _ _ _ _ _) as [[r db1]|] eqn:H; [| done].
    intros [= <-]. apply createArticle_inv in H as [[_ ->] | (slug & _ & ->)].
    + by apply Change.articles_same.
    + eapply Change.articles_created; [| | done | done]; [done |]. cbn.
      destruct (CreateArticleRequest.status data) as [[| |]|]; cbn;
        split; (done || by intros [? ?]) || eauto.
  - destruct (ArticleService.updateArticle _ _ _ _ _ _ _ _) as [[r db1]|] eqn:H; [| done].
    intros [= <-]. apply updateArticle_inv in H as [[_ ->] | (a & slug & Ha & _ & ->)].
    + by apply Change.articles_same.
    + eapply Change.articles_updated; [done | apply applyUpdate_change | done | done].
  - intros [= <-]. unfold ArticleService.publishArticle, ArticleService.updateRow.
    destruct (Db.articles db !! id) as [a|] eqn:Ha; cbn.
    + eapply Change.articles_updated; [done | | done | done].
      split; [done |]. left. cbn. eauto.
    + by apply Change.articles_same.
  - intros [= <-]. unfold ArticleService.archiveArticle, ArticleService.updateRow.
    destruct (Db.articles db !! id) as [a|] eqn:Ha; cbn.
    + eapply Change.articles_updated; [done | | done | done].
      split; [done |]. right. split; [done | by right].
    + by apply Change.articles_same.
  - intros [= <-]. unfold CommentService.createComment.
    destruct (Db.articles db !! _); [| by apply Change.articles_same].
    destruct (CommentService.checkParent _ _); [by apply Change.articles_same |].
    destruct (_ && _); [by apply Change.articles_same |].
    destruct (_ || _); by apply Change.articles_same.
  - intros [= <-]. unfold CommentService.updateComment, CommentService.updateRow.
    destruct (Db.comments db !! id) as [c|] eqn:Hc; [| by apply Change.articles_same].
    destruct (_ && _); by apply Change.articles_same.
  - intros [= <-]. unfold CommentService.approveComment, CommentService.updateRow.
    destruct (Db.comments db !! id); by apply Change.articles_same.
  - intros [= <-]. unfold CommentService.rejectComment, CommentService.updateRow.
    destruct (Db.comments db !! id); by apply Change.articles_same.
  - intros [= <-]. unfold CommentService.markAsSpam, CommentService.updateRow.
    destruct (Db.comments db !! id); by apply Change.articles_same.
  - intros [= <-]. unfold CommentService.deleteComment.
    destruct (Db.comments db !! id); [| by apply Change.articles_same].
    destruct (_ && _); [by apply Change.articles_same |].
    destruct (0 <? _)%nat; by apply Change.articles_same.
Qed.

(** Every call changes the [comment] table in one of five ways. *)
Lemma run_comments (op : System.Op) (db db' : Db.t) :
  run op db = Some db' -> Change.comments db db'.
Proof.
  destruct op; cbn.
  - destruct (ArticleService.createArticle _ _ _ _ _ _) as [[r db1]|] eqn:H; [| done].
    intros [= <-]. apply createArticle_inv in H as [[_ ->] | (slug & _ & ->)];
      by apply Change.comments_same.
  - destruct (ArticleService.updateArticle _ _ _ _ _ _ _ _) as [[r db1]|] eqn:H; [| done].
    intros [= <-]. apply updateArticle_inv in H as [[_ ->] | (a & slug & _ & _ & ->)];
      by apply Change.comments_same.
  - intros [= <-]. unfold ArticleService.publishArticle, ArticleService.updateRow.
    destruct (Db.articles db !! id); by apply Change.comments_same.
  - intros [= <-]. unfold ArticleService.archiveArticle, ArticleService.updateRow.
    destruct (Db.articles db !! id); by apply Change.comments_same.
  - intros [= <-]. unfold CommentService.createComment.
    destruct (Db.articles db !! _); [| by apply Change.comments_same].
    destruct (CommentService.checkParent _ _); [by apply Change.comments_same |].
    destruct (_ && _); [by apply Change.comments_same |].
    destruct (_ || _); [by apply Change.comments_same |].
    eapply Change.comments_created; cycle 2; [cbn; reflexivity | done..].
  - intros [= <-]. unfold CommentService.updateComment, CommentService.updateRow.
    destruct (Db.comments db !! id) as [c|] eqn:Hc; [| by apply Change.comments_same].
    destruct (_ && _); [by apply Change.comments_same |].
    by eapply Change.comments_edited.
  - intros [= <-]. by apply updateRow_comments.
  - intros [= <-]. by apply updateRow_comments.
  - intros [= <-]. by apply updateRow_comments.
  - intros [= <-]. unfold CommentService.deleteComment.
    destruct (Db.comments db !! id); [| by apply Change.comments_same].
    destruct (_ && _); [by apply Change.comments_same |].
    destruct (0 <? _)%nat; [by apply Change.comments_same |].
    by eapply Change.comments_deleted.
Qed.

Lemma change_comments_wf (db db' : Db.t) :
  Change.comments db db' -> Wf.comments db -> Wf.comments db'.
Proof.
  intros Hch [Hnext Hwf]. unfold Wf.comments.
  destruct Hch as [-> -> | id0 c0 s Hc0 _ -> -> | id0 c0 content Hc0 -> ->
                   | id0 -> -> | c0 Hid _ -> ->].
  - done.
  - split; [done |]. intros id c. rewrite lookup_insert. case_decide as Hid.
    + subst id0. intros [= <-]. by apply Hwf in Hc0.
    + apply Hwf.
  - split; [done |]. intros id c. rewrite lookup_insert. case_decide as Hid.
    + subst id0. intros [= <-]. by apply Hwf in Hc0.
    + apply Hwf.
  - split; [done |]. intros id c. rewrite lookup_delete. case_decide; [done | apply Hwf].
  - split; [lia |]. intros id c. rewrite lookup_insert. case_decide as Hid'.
    + subst id. intros [= <-]. split; [lia | done].
    + intros [? ?]%Hwf. split; [lia | done].
Qed.

Lemma change_articles_wf (db db' : Db.t) :
  Change.articles db db' -> Wf.articles db -> Wf.articles db'.
Proof.
  intros Hch [Hnext Hwf]. unfold Wf.articles.
  destruct Hch as [-> -> | id0 a0 a0' Ha0 [Hid _] -> -> | a0 Hid _ -> ->].
  - done.
  - split; [done |]. intros id a. rewrite lookup_insert. case_decide as Hid'.
    + subst id0. intros [= <-]. apply Hwf in Ha0 as [? ?]. split; [done | congruence].
    + apply Hwf.
  - split; [lia |]. intros id a. rewrite lookup_insert. case_decide as Hid'.
    + subst id. intros [= <-]. split; [lia | done].
    + intros [? ?]%Hwf. split; [lia | done].
Qed.


(** Databases of a history are well formed. *)
Lemma history_wf (db : Db.t) (past : list Db.t) :
  history (db :: past) -> Wf.comments db /\ Wf.articles db.
Proof.
  remember (db :: past) as h eqn:Hh. intros Hhist. revert db past Hh.
  induction Hhist as [us cats tgs | op db0 db1 past0 Hhist IH Hrun]; intros db past [= <- <-].
  - split; (split; [done |]); intros id x; cbn; by rewrite lookup_empty.
  - destruct (IH _ _ eq_refl) as [Hc Ha]. split.
    + eapply change_comments_wf; [by eapply run_comments | done].
    + eapply change_articles_wf; [by eapply run_articles | done].
Qed.

Lemma history_cons_inv (d db : Db.t) (past : list Db.t) :
  history (d :: db :: past) -> history (db :: past) /\ exists op, run op db = Some d.
Proof. inversion 1; subst; eauto. Qed.

(** The past of a history is a history. *)
Lemma history_suffix (later : list Db.t) (db : Db.t) (past : list Db.t) :
  history (later ++ db :: past) -> history (db :: past).
Proof.
  induction later as [|d later IH]; [done |].
  destruct later as [|d1 later]; cbn in *; intros [H _]%history_cons_inv; auto.
Qed.



Lemma history_runAll (ops : list System.Op) (h : list Db.t) :
  history h -> history (System.runAll generateSlug ops h).
Proof.
  revert h. induction ops as [|op ops IH]; intros h Hh; [done |].
  destruct h as [|db past]; [done |]. cbn.
  destruct (System.run generateSlug op db) as [db'|] eqn:Hrun; apply IH; [| done].
  by eapply System.history_step.
Qed.

(** ** Articles: publication time *)





(** C10. [publishArticle] overwrites the publication time with the
    current time whatever it was (so also on an article that is already
    PUBLISHED), while [updateArticle] with status PUBLISHED keeps a
    publication time that is already set: on an article published at [t],
    at any other time [now], the two calls leave different publication
    times.  The update goes through for the author or an ADMIN when the
    category and the tags it names exist. *)
Theorem publish_paths_disagree
  (fuel : nat) (db : Db.t) (id : Z) (a : Article.t) (t : Z)
  (data : UpdateArticleRequest.t) (userId : Z) (userRole : string) (now : Z) :
  Db.articles db !! id = Some a ->
  Article.publishedAt a = Some t ->
  UpdateArticleRequest.status data = Some ArticleStatus.PUBLISHED ->
  (exists a1 db1,
      ArticleService.publishArticle id now db = (Ok a1, db1)
      /\ Db.articles db1 !! id = Some a1
      /\ Article.status a1 = ArticleStatus.PUBLISHED
      /\ Article.publishedAt a1 = Some now)
  /\ (forall a2 db2,
        ArticleService.updateArticle generateSlug fuel id data userId userRole now db
        = Some (Ok a2, db2) ->
        Db.articles db2 !! id = Some a2
        /\ Article.status a2 = ArticleStatus.PUBLISHED
        /\ Article.publishedAt a2 = Some t)
  /\ (Article.authorId a = userId \/ userRole = "ADMIN" ->
      UpdateArticleRequest.title data = None ->
      Schema.memberOf (Db.categories db) (UpdateArticleRequest.categoryId data) = true ->
      Schema.allIn (Db.tags db) (default [] (UpdateArticleRequest.tagIds data)) = true ->
      exists a2 db2,
        ArticleService.updateArticle generateSlug fuel id data userId userRole now db
        = Some (Ok a2, db2))
  /\ (now <> t ->
      forall a1 db1 a2 db2,
        ArticleService.publishArticle id now db = (Ok a1, db1) ->
        ArticleService.updateArticle generateSlug fuel id data userId userRole now db
        = Some (Ok a2, db2) ->
        Article.publishedAt a1 <> Article.publishedAt a2).
Proof.
  intros Ha Hp Hs.
  assert (Hpub : ArticleService.publishArticle id now db
                 = (Ok (ArticleService.setPublished now a),
                    Db.withArticles db
                      (<[id := ArticleService.setPublished now a]> (Db.articles db))
                      (Db.nextArticleId db))).
  { unfold ArticleService.publishArticle, ArticleService.updateRow. by rewrite Ha. }
  assert (Hupd : forall a2 db2,
             ArticleService.updateArticle generateSlug fuel id data userId userRole now db
             = Some (Ok a2, db2) ->
             Db.articles db2 !! id = Some a2
             /\ Article.status a2 = ArticleStatus.PUBLISHED
             /\ Article.publishedAt a2 = Some t).
  { intros a2 db2 [[[e [=]] _] | (a' & slug & Ha' & [= ->] & ->)]%updateArticle_inv.
    rewrite Ha in Ha'. injection Ha' as <-. split_and!.
    - cbn. apply lookup_insert_eq.
    - cbn. by rewrite Hs.
    - cbn. rewrite Hs, Hp. repeat case_bool_decide; try done. exfalso. eauto. }
  split_and!.
  - eexists _, _. split; [exact Hpub |]. split_and!; [| done | done].
    cbn. apply lookup_insert_eq.
  - exact Hupd.
  - intros Hperm Htitle Hcat Htags. unfold ArticleService.updateArticle. rewrite Ha, Htitle.
    assert (negb (Article.authorId a =? userId) && negb (String.eqb userRole "ADMIN") = false)
      as ->.
    { destruct Hperm as [<- | ->]; [by rewrite Z.eqb_refl | by rewrite andb_false_r]. }
    cbn. rewrite Hcat, Htags. cbn. unfold ArticleService.updateRow. rewrite Ha. eauto.
  - intros Hne a1 db1 a2 db2. rewrite Hpub. intros [= <- _] (_ & _ & Hp2)%Hupd.
    rewrite Hp2. cbn. congruence.
Qed.

Lemma checkParent_cases (data : CreateCommentRequest.t) (db : Db.t) (t : Thrown) :
  CommentService.checkParent data db = Some t ->
  (exists p, CreateCommentRequest.parentId data = Some p
             /\ Db.comments db !! p = None
             /\ t = ThrowApi (mkApiError 404 "Parent comment not found"))
  \/ t = ThrowApi (mkApiError 400 "Parent comment belongs to different article").
Proof.
  unfold CommentService.checkParent.
  destruct (CreateCommentRequest.parentId data) as [p|]; [| done].
  destruct (truthy_num _); [| done]. cbn.
  destruct (Db.comments db !! p) as [parent|] eqn:Hp.
  - destruct (negb _); [| done]. intros [= <-]. by right.
  - intros [= <-]. left. eauto.
Qed.

(** C9 (amended). A guest call (no [userId]) that lacks [authorName] or
    [authorEmail], and a call whose [parentId] names a comment of another
    article, both fail and create no comment.  The status is 400 once the
    earlier existence checks pass: for the parent rule when the article
    exists, for the guest rule when the article exists and a supplied
    [parentId] names an existing comment.  When the article does not
    exist, or (for the guest rule) the article exists and the supplied
    [parentId] names no comment, the call fails with 404 instead. *)
Theorem createComment_rejections
  (data : CreateCommentRequest.t) (userId : option Z) (now : Z)
  (db : Db.t) (past : list Db.t) :
  history (db :: past) ->
  (userId = None ->
   truthy_str (CreateCommentRequest.authorName data) = false
   \/ truthy_str (CreateCommentRequest.authorEmail data) = false ->
   (exists t, CommentService.createComment data userId now db = (Err t, db))
   /\ (is_Some (Db.articles db !! CreateCommentRequest.articleId data) ->
       (forall p, CreateCommentRequest.parentId data = Some p ->
                  is_Some (Db.comments db !! p)) ->
       Outcome.failed 400 (CommentService.createComment data userId now db) db)
   /\ (Db.articles db !! CreateCommentRequest.articleId data = None ->
       CommentService.createComment data userId now db
       = (throwApi 404 "Article not found", db))
   /\ (is_Some (Db.articles db !! CreateCommentRequest.articleId data) ->
       forall p, CreateCommentRequest.parentId data = Some p -> p <> 0 ->
                 Db.comments db !! p = None ->
       CommentService.createComment data userId now db
       = (throwApi 404 "Parent comment not found", db)))
  /\ (forall p parent,
        CreateCommentRequest.parentId data = Some p ->
        Db.comments db !! p = Some parent ->
        Comment.articleId parent <> CreateCommentRequest.articleId data ->
        (exists t, CommentService.createComment data userId now db = (Err t, db))
        /\ (is_Some (Db.articles db !! CreateCommentRequest.articleId data) ->
            CommentService.createComment data userId now db
            = (throwApi 400 "Parent comment belongs to different article", db))
        /\ (Db.articles db !! CreateCommentRequest.articleId data = None ->
            CommentService.createComment data userId now db
            = (throwApi 404 "Article not found", db))).
Proof.
  intros Hhist. split.
  - intros -> Hguest.
    assert (Hg : negb (truthy_num None)
                 && (negb (truthy_str (CreateCommentRequest.authorName data))
                     || negb (truthy_str (CreateCommentRequest.authorEmail data))) = true).
    { destruct Hguest as [-> | ->]; [done | by rewrite orb_true_r]. }
    unfold CommentService.createComment. split_and!.
    + destruct (Db.articles db !! _); [| unfold throwApi; eauto].
      destruct (CommentService.checkParent _ _); [eauto |].
      rewrite Hg. unfold throwApi; eauto.
    + intros [art ->] Hparent. unfold Outcome.failed.
      destruct (CommentService.checkParent data db) as [t|] eqn:Hcp.
      * apply checkParent_cases in Hcp as [(p & Hp & Hnone & _) | ->].
        -- apply Hparent in Hp as [? ?]. congruence.
        -- unfold throwApi. eauto.
      * rewrite Hg. eauto.
    + by intros ->.
    + intros [art ->] p Hp Hp0 Hnone. unfold CommentService.checkParent.
      rewrite Hp. cbn. destruct (Z.eqb_spec p 0) as [? | _]; [done |]. cbn.
      by rewrite Hnone.
  - intros p parent Hp Hparent Hne.
    apply history_wf in Hhist as [[_ Hwf] _]. apply Hwf in Hparent as Hid.
    assert (Hcp : CommentService.checkParent data db
                  = Some (ThrowApi (mkApiError 400 "Parent comment belongs to different article"))).
    { unfold CommentService.checkParent. rewrite Hp. cbn.
      destruct (Z.eqb_spec p 0) as [-> | _]; [lia |]. cbn. rewrite Hparent.
      destruct (Z.eqb_spec (Comment.articleId parent) (CreateCommentRequest.articleId data));
        done. }
    unfold CommentService.createComment. rewrite Hcp. split_and!.
    + destruct (Db.articles db !! _); unfold throwApi; eauto.
    + by intros [art ->].
    + by intros ->.
Qed.

End SystemProps.

(** ** The properties on sample data *)

Lemma sample_thread_history : System.history Sample.slugger Sample.threadHistory.
Proof. apply history_runAll. apply System.history_start. Qed.

Lemma sample_article_history : System.history Sample.slugger Sample.articleHistory.
Proof. apply history_runAll. apply System.history_start. Qed.

Lemma sample_two_articles_history : System.history Sample.slugger Sample.twoArticlesHistory.
Proof. apply history_runAll. apply sample_thread_history. Qed.



(** Published at 20 and published again at 30: [publishArticle] says 30,
    [updateArticle] says 20. *)
Lemma publish_paths_disagree_witness :
  exists a1 db1 a2 db2,
    ArticleService.publishArticle 1 30 Sample.publishedDb = (Ok a1, db1)
    /\ ArticleService.updateArticle Sample.slugger 0 1 Sample.republish 1 "AUTHOR" 30
         Sample.publishedDb = Some (Ok a2, db2)
    /\ Article.publishedAt a1 = Some 30
    /\ Article.publishedAt a2 = Some 20.
Proof.
  destruct (publish_paths_disagree Sample.slugger 0 Sample.publishedDb 1
              (Sample.article ArticleStatus.PUBLISHED (Some 20)) 20
              Sample.republish 1 "AUTHOR" 30 eq_refl eq_refl eq_refl)
    as ((a1 & db1 & H1 & _ & _ & Hp1) & Hupd & Hex & _).
  destruct (Hex (or_introl eq_refl) eq_refl eq_refl eq_refl) as (a2 & db2 & H2).
  exists a1, db1, a2, db2. split_and!; [done | done | done |].
  by apply Hupd in H2 as (_ & _ & ?).
Defined.

(** On the sample thread: an anonymous comment on article 1, a reply
    under article 2 to a comment of article 1, and anonymous comments on
    an article and under a parent that are not there. *)
Lemma createComment_rejections_witness :
  Outcome.failed 400
    (CommentService.createComment (Sample.anonymous 1) None 50 Sample.twoArticlesDb)
    Sample.twoArticlesDb
  /\ Outcome.failed 400
       (CommentService.createComment Sample.misfiled (Some 1) 50 Sample.twoArticlesDb)
       Sample.twoArticlesDb
  /\ CommentService.createComment (Sample.anonymous 9) None 50 Sample.twoArticlesDb
     = (throwApi 404 "Article not found", Sample.twoArticlesDb)
  /\ CommentService.createComment (CreateCommentRequest.mk 1 "hi" (Some 99) None None)
       None 50 Sample.twoArticlesDb
     = (throwApi 404 "Parent comment not found", Sample.twoArticlesDb).
Proof.
  split_and!.
  - destruct (createComment_rejections Sample.slugger (Sample.anonymous 1) None 50
                Sample.twoArticlesDb (drop 1 Sample.twoArticlesHistory)
                sample_two_articles_history) as (H & _).
    destruct (H eq_refl (or_introl eq_refl)) as (_ & H400 & _).
    apply H400; [by eexists | discriminate].
  - destruct (createComment_rejections Sample.slugger Sample.misfiled (Some 1) 50
                Sample.twoArticlesDb (drop 1 Sample.twoArticlesHistory)
                sample_two_articles_history) as (_ & H).
    destruct (H 1 (Sample.comment 1 None "first" 11) eq_refl eq_refl) as (_ & H400 & _).
    + discriminate.
    + eexists. apply H400. by eexists.
  - destruct (createComment_rejections Sample.slugger (Sample.anonymous 9) None 50
                Sample.twoArticlesDb (drop 1 Sample.twoArticlesHistory)
                sample_two_articles_history) as (H & _).
    destruct (H eq_refl (or_introl eq_refl)) as (_ & _ & H404 & _).
    by apply H404.
  - destruct (createComment_rejections Sample.slugger
                (CreateCommentRequest.mk 1 "hi" (Some 99) None None) None 50
                Sample.twoArticlesDb (drop 1 Sample.twoArticlesHistory)
                sample_two_articles_history) as (H & _).
    destruct (H eq_refl (or_introl eq_refl)) as (_ & _ & _ & H404).
    apply (H404 ltac:(by eexists) 99); done.
Defined.

(** C9 as stated fails: with no article 1 in the database, an anonymous
    comment without name and e-mail is rejected with 404, not 400; and so
    is a reply filed under a missing article 2 to a comment of article 1. *)
Lemma createComment_404_counterexample :
  truthy_str (CreateCommentRequest.authorName (Sample.anonymous 1)) = false
  /\ CommentService.createComment (Sample.anonymous 1) None 50 Sample.db0
     = (throwApi 404 "Article not found", Sample.db0)
  /\ ~ Outcome.failed 400
        (CommentService.createComment (Sample.anonymous 1) None 50 Sample.db0) Sample.db0
  /\ Db.comments Sample.threadDb !! 1 = Some (Sample.comment 1 None "first" 11)
  /\ Comment.articleId (Sample.comment 1 None "first" 11)
     <> CreateCommentRequest.articleId Sample.misfiled
  /\ CommentService.createComment Sample.misfiled (Some 1) 50 Sample.threadDb
     = (throwApi 404 "Article not found", Sample.threadDb)
  /\ ~ Outcome.failed 400
        (CommentService.createComment Sample.misfiled (Some 1) 50 Sample.threadDb)
        Sample.threadDb.
Proof.
  assert (H1 : CommentService.createComment (Sample.anonymous 1) None 50 Sample.db0
               = (throwApi 404 "Article not found", Sample.db0)) by reflexivity.
  assert (H2 : CommentService.createComment Sample.misfiled (Some 1) 50 Sample.threadDb
               = (throwApi 404 "Article not found", Sample.threadDb)) by reflexivity.
  split_and!; [reflexivity | exact H1 | | reflexivity | discriminate | exact H2 |].
  - intros [msg H]. rewrite H1 in H. discriminate H.
  - intros [msg H]. rewrite H2 in H. discriminate H.
Qed.

(* ===================================================================== *)
(** * Part II, continued: properties of the remaining code *)
(* ===================================================================== *)

(** ** Page arithmetic *)

Section PagingProps.

Lemma ceilDiv_bounds (a b : Z) :
  0 < b -> (Paging.ceilDiv a b - 1) * b < a <= Paging.ceilDiv a b * b.
Proof.
  intros Hb. unfold Paging.ceilDiv.
  pose proof (Z.div_mod (- a) b ltac:(lia)) as Hdm.
  pose proof (Z.mod_pos_bound (- a) b Hb) as Hmod.
  nia.
Qed.

Lemma getPagination_limit_range (params : PaginationParams.t) :
  1 <= PaginationResult.limit (Pagination.getPagination params) <= 100.
Proof.
  unfold Pagination.getPagination, Pagination.nullish. cbn [PaginationResult.limit].
  destruct (PaginationParams.limit params); lia.
Qed.

(** X1. For every page request and every non-negative row count
    [total], the [totalPages] that [getPaginationMeta] computes from the
    clamped limit of [getPagination] is the least number of pages that
    holds [total] rows: it is 0 exactly when there are no rows, and one
    page fewer would not be enough. *)
Theorem getPaginationMeta_least_cover (params : PaginationParams.t) (total : Z) :
  0 <= total ->
  let r := Pagination.getPagination params in
  let m := Paging.getPaginationMeta (PaginationResult.page r) (PaginationResult.limit r) total in
  (PaginationMeta.totalPages m - 1) * PaginationResult.limit r < total
  /\ total <= PaginationMeta.totalPages m * PaginationResult.limit r
  /\ 0 <= PaginationMeta.totalPages m
  /\ (PaginationMeta.totalPages m = 0 <-> total = 0)
  /\ PaginationMeta.total m = total
  /\ PaginationMeta.page m = PaginationResult.page r
  /\ PaginationMeta.limit m = PaginationResult.limit r.
Proof.
  intros Htotal r m.
  pose proof (getPagination_limit_range params) as Hl. fold r in Hl.
  pose proof (ceilDiv_bounds total (PaginationResult.limit r) ltac:(lia)) as Hc.
  subst m. unfold Paging.getPaginationMeta.
  cbn [PaginationMeta.totalPages PaginationMeta.total PaginationMeta.page PaginationMeta.limit].
  set (L := PaginationResult.limit r) in *.
  set (q := Paging.ceilDiv total L) in *. clearbody q L.
  split_and!; try done; try lia; try nia.
Qed.

Lemma getPaginationMeta_least_cover_witness :
  let r := Pagination.getPagination (PaginationParams.mk None (Some 10)) in
  let m := Paging.getPaginationMeta (PaginationResult.page r) (PaginationResult.limit r) 95 in
  PaginationMeta.totalPages m = 10
  /\ (PaginationMeta.totalPages m - 1) * PaginationResult.limit r < 95
  /\ 95 <= PaginationMeta.totalPages m * PaginationResult.limit r.
Proof.
  intros r m.
  destruct (getPaginationMeta_least_cover (PaginationParams.mk None (Some 10)) 95 ltac:(lia))
    as (Hlo & Hhi & _).
  split; [reflexivity | split; [exact Hlo | exact Hhi]].
Defined.

(** Cutting a list into [n] windows of [limit] rows and gluing them
    together gives the list back, when [n] windows are enough. *)
Lemma windows_cover {A} (limit : nat) (n : nat) :
  forall l : list A,
    (length l <= n * limit)%nat ->
    mjoin ((fun k => take limit (drop (k * limit) l)) <$> seq 0 n) = l.
Proof.
  induction n as [|n IH]; intros l Hlen.
  - destruct l; [done | cbn in Hlen; lia].
  - cbn [seq]. rewrite <- fmap_S_seq, fmap_cons, <- list_fmap_compose. cbn.
    trans (take limit l ++ drop limit l); [| apply take_drop]. f_equal.
    etrans; [| apply (IH (drop limit l)); rewrite length_drop; lia].
    f_equal. apply list_fmap_ext. intros _ k _. cbn.
    rewrite drop_drop. done.
Qed.

End PagingProps.

(** ** Comments: the moderator's listing and the statistics *)

Section CommentQueryProps.

Lemma byCreatedDesc_trans : Transitive CommentService.byCreatedDesc.
Proof. intros x y z. unfold CommentService.byCreatedDesc. lia. Qed.

Lemma byCreatedDesc_total : Total CommentService.byCreatedDesc.
Proof. intros x y. unfold CommentService.byCreatedDesc. lia. Qed.

Lemma selected_elem (filters : CommentFilters.t) (db : Db.t) (c : Comment.t) :
  c ∈ CommentQueries.selected filters db
  <-> c ∈ Db.commentRows db /\ CommentQueries.matches filters c = true.
Proof.
  unfold CommentQueries.selected. rewrite merge_sort_Permutation, elem_of_List_filter. tauto.
Qed.

Lemma selected_length (filters : CommentFilters.t) (db : Db.t) :
  length (CommentQueries.selected filters db)
  = length (List.filter (CommentQueries.matches filters) (Db.commentRows db)).
Proof. unfold CommentQueries.selected. by rewrite merge_sort_Permutation. Qed.

Lemma matches_spec (filters : CommentFilters.t) (c : Comment.t) :
  CommentQueries.matches filters c = true
  <-> (forall s, CommentFilters.status filters = Some s -> Comment.status c = s)
      /\ (forall a, CommentFilters.articleId filters = Some a -> a <> 0 ->
                    Comment.articleId c = a).
Proof.
  unfold CommentQueries.matches. rewrite andb_true_iff.
  assert (Hs : match CommentFilters.status filters with
               | Some s => bool_decide (Comment.status c = s)
               | None => true
               end = true
               <-> forall s, CommentFilters.status filters = Some s -> Comment.status c = s).
  { destruct (CommentFilters.status filters) as [s|].
    - rewrite bool_decide_eq_true. split; [by intros -> s' [= <-] | eauto].
    - split; [by intros _ s' | done]. }
  rewrite Hs. apply and_iff_compat_l.
  destruct (CommentFilters.articleId filters) as [a|]; cbn.
  - destruct (Z.eqb_spec a 0) as [-> | Ha]; cbn.
    + split; [by intros _ a' [= <-] | done].
    + rewrite Z.eqb_eq. split; [by intros -> a' [= <-] | eauto].
  - split; [by intros _ a' | done].
Qed.

Lemma window_sublist {A} (skip take_ : Z) (l : list A) :
  Paging.window skip take_ l `sublist_of` l.
Proof.
  unfold Paging.window. etrans; [apply sublist_take | apply sublist_drop].
Qed.

Lemma window_sorted {A} (R : relation A) (skip take_ : Z) (l : list A) :
  StronglySorted R l -> StronglySorted R (Paging.window skip take_ l).
Proof.
  intros Hl. unfold Paging.window.
  rewrite <- (take_drop (Z.to_nat skip) l) in Hl.
  apply StronglySorted_app_1_r in Hl.
  rewrite <- (take_drop (Z.to_nat take_) (drop (Z.to_nat skip) l)) in Hl.
  by apply StronglySorted_app_1_l in Hl.
Qed.

(** X2. Whatever page and limit are asked for, a page of
    [getAllComments] holds at most [limit] rows with [limit] between 1 and
    100; every row on it is a stored comment that satisfies the filters
    that were given (a status filter, and an article filter other than
    0) and comes with its number of replies; the rows are ordered newest
    first; and an article filter of 0 filters nothing. *)
Theorem getAllComments_page
  (filters : CommentFilters.t) (query : PaginationQuery.t) (db : Db.t) :
  let p := CommentQueries.getAllComments filters query db in
  1 <= PaginationMeta.limit (CommentPage.pagination p) <= 100
  /\ Z.of_nat (length (CommentPage.comments p)) <= PaginationMeta.limit (CommentPage.pagination p)
  /\ Forall (fun x =>
               CountedComment.comment x ∈ Db.commentRows db
               /\ (forall s, CommentFilters.status filters = Some s ->
                             Comment.status (CountedComment.comment x) = s)
               /\ (forall a, CommentFilters.articleId filters = Some a -> a <> 0 ->
                             Comment.articleId (CountedComment.comment x) = a)
               /\ CountedComment.replies x
                  = CommentService.countReplies db (CountedComment.comment x))
       (CommentPage.comments p)
  /\ StronglySorted CommentService.byCreatedDesc
       (CountedComment.comment <$> CommentPage.comments p)
  /\ CommentQueries.getAllComments
       (CommentFilters.mk (CommentFilters.status filters) (Some 0)) query db
     = CommentQueries.getAllComments
         (CommentFilters.mk (CommentFilters.status filters) None) query db.
Proof.
  intros p. subst p. unfold CommentQueries.getAllComments.
  cbn [CommentPage.pagination CommentPage.comments PaginationMeta.limit
       Paging.getPaginationMeta].
  set (r := Pagination.getPagination _).
  pose proof (getPagination_limit_range
                (PaginationParams.mk (PaginationQuery.page query) (PaginationQuery.limit query)))
    as Hl. fold r in Hl.
  split_and!; [lia | lia | | | | done].
  - rewrite length_fmap. unfold Paging.window. rewrite length_take.
    change (PaginationResult.take r) with (PaginationResult.limit r). lia.
  - apply Forall_forall. intros x (c & -> & Hc)%list_elem_of_fmap.
    apply (fun H => elem_of_sublist _ _ _ H (window_sublist _ _ _)) in Hc.
    apply selected_elem in Hc as [Hrow Hm]. apply matches_spec in Hm as [Hs Ha].
    cbn. split_and!; done.
  - rewrite <- list_fmap_compose.
    rewrite (list_fmap_ext _ id _ (fun _ _ _ => eq_refl)), list_fmap_id.
    apply window_sorted.
    apply (@StronglySorted_merge_sort _ _ _ byCreatedDesc_trans byCreatedDesc_total).
Qed.

(** The clamped page and limit of the [n+1]-st page, and its [skip] as
    long as the product is small. *)
Lemma getPagination_nth (limit : option Z) (n : nat) :
  let r := Pagination.getPagination (PaginationParams.mk (Some (Z.of_nat (S n))) limit) in
  PaginationResult.limit r
  = PaginationResult.limit (Pagination.getPagination (PaginationParams.mk None limit))
  /\ (Z.of_nat n * PaginationResult.limit r <= Double.maxSafe ->
      PaginationResult.skip r = Z.of_nat n * PaginationResult.limit r).
Proof.
  intros r. split; [done |]. subst r.
  pose proof (getPagination_limit_range
                (PaginationParams.mk (Some (Z.of_nat (S n))) limit)) as Hl.
  unfold Pagination.getPagination in *.
  cbn [PaginationResult.limit PaginationResult.skip PaginationParams.page
       PaginationParams.limit Pagination.or_default] in *.
  set (lim := Z.min 100 _) in *. clearbody lim.
  assert (Hp : Z.max 1 (if Z.of_nat (S n) =? 0 then 1 else Z.of_nat (S n)) - 1 = Z.of_nat n).
  { destruct (Z.eqb_spec (Z.of_nat (S n)) 0); lia. }
  intros Hsafe. unfold Double.mul, Double.sub. rewrite Hp.
  rewrite (round_exact (Z.of_nat n)) by (rewrite Z.abs_eq by lia; nia).
  apply round_exact. rewrite Z.abs_eq by nia. done.
Qed.

Lemma pageOf_window (filters : CommentFilters.t) (limit : option Z) (db : Db.t) (n : nat) :
  let L := Z.to_nat (PaginationResult.limit
                       (Pagination.getPagination (PaginationParams.mk None limit))) in
  Z.of_nat (n * L) <= Double.maxSafe ->
  CommentQueries.pageOf filters limit db (S n)
  = CommentQueries.counted db
    <$> take L (drop (n * L) (CommentQueries.selected filters db)).
Proof.
  intros L Hsafe. unfold CommentQueries.pageOf, CommentQueries.getAllComments, Paging.window.
  cbn [CommentPage.comments PaginationQuery.page PaginationQuery.limit].
  destruct (getPagination_nth limit n) as [Hlim Hskip].
  pose proof (getPagination_limit_range (PaginationParams.mk None limit)) as Hl.
  change (PaginationResult.take ?r) with (PaginationResult.limit r).
  rewrite Hskip, Hlim; [| rewrite Hlim; subst L; lia].
  f_equal. subst L. do 2 f_equal. lia.
Qed.

(** A list sorted by a total order is the only sorted arrangement of its
    elements when no two of them are equivalent. *)
Lemma sorted_unique_on {A} (R : relation A) (l1 l2 : list A) :
  (forall x y, x ∈ l1 -> y ∈ l1 -> R x y -> R y x -> x = y) ->
  StronglySorted R l1 -> StronglySorted R l2 -> l1 ≡ₚ l2 -> l1 = l2.
Proof.
  revert l2. induction l1 as [|x l1 IH]; intros l2 Hanti Hs1 Hs2 Hperm.
  - by apply Permutation_nil_l in Hperm.
  - destruct l2 as [|y l2]; [by apply Permutation_nil_r in Hperm |].
    apply StronglySorted_inv in Hs1 as [Hs1 Hx]. apply StronglySorted_inv in Hs2 as [Hs2 Hy].
    assert (x = y) as <-.
    { assert (Hxin : x ∈ y :: l2) by (rewrite <- Hperm; left).
      assert (Hyin : y ∈ x :: l1) by (rewrite Hperm; left).
      apply elem_of_cons in Hxin as [? | Hxin]; [done |].
      apply elem_of_cons in Hyin as [? | Hyin]; [done |].
      rewrite Forall_forall in Hx, Hy.
      apply Hanti; [left | by right | by apply Hx | by apply Hy]. }
    f_equal. apply IH; [| done | done | by apply Permutation_cons_inv in Hperm].
    intros a b Ha Hb. apply Hanti; by right.
Qed.

Lemma NoDup_fmap_inj_on {A B} (f : A -> B) (l : list A) (x y : A) :
  NoDup (f <$> l) -> x ∈ l -> y ∈ l -> f x = f y -> x = y.
Proof.
  induction l as [|a l IH]; [by intros _ ?%elem_of_nil |].
  rewrite fmap_cons, NoDup_cons. intros [Ha Hl].
  intros [-> | Hx]%elem_of_cons [-> | Hy]%elem_of_cons Heq; [done | | | by apply IH].
  - destruct Ha. rewrite Heq. by apply list_elem_of_fmap_2.
  - destruct Ha. rewrite <- Heq. by apply list_elem_of_fmap_2.
Qed.

(** X3. On a table whose comments were created at different times and
    which holds no more rows than there are keys: the rows a filter
    selects have one order newest first, so every answer the database may
    give is the one computed here; for a fixed filter and limit, pages 1
    to [totalPages] glued together are exactly the selected comments in
    that order, a page beyond [totalPages] (whose offset is still an
    [Int]) is empty, and page 0 is page 1. *)
Theorem getAllComments_pages_partition
  (filters : CommentFilters.t) (limit : option Z) (db : Db.t) :
  CommentQueries.distinctTimes db ->
  Z.of_nat (size (Db.comments db)) <= Schema.maxInt ->
  let meta :=
    CommentPage.pagination
      (CommentQueries.getAllComments filters (PaginationQuery.mk (Some 1) limit None None) db) in
  let N := Z.to_nat (PaginationMeta.totalPages meta) in
  (forall rows,
      rows ≡ₚ List.filter (CommentQueries.matches filters) (Db.commentRows db) ->
      StronglySorted CommentService.byCreatedDesc rows ->
      rows = CommentQueries.selected filters db)
  /\ mjoin (CommentQueries.pageOf filters limit db <$> seq 1 N)
     = CommentQueries.counted db <$> CommentQueries.selected filters db
  /\ (forall n, (N < n)%nat ->
        Z.of_nat n * PaginationMeta.limit meta <= Schema.maxInt ->
        CommentQueries.pageOf filters limit db n = [])
  /\ CommentQueries.pageOf filters limit db 0 = CommentQueries.pageOf filters limit db 1.
Proof.
  intros Hdistinct Hsize meta N.
  set (L := Z.to_nat (PaginationResult.limit
                        (Pagination.getPagination (PaginationParams.mk None limit)))).
  pose proof (getPagination_limit_range (PaginationParams.mk None limit)) as Hl.
  assert (Hmeta : PaginationMeta.limit meta = Z.of_nat L).
  { subst meta L. unfold CommentQueries.getAllComments, Paging.getPaginationMeta.
    cbn [CommentPage.pagination PaginationMeta.limit PaginationQuery.page PaginationQuery.limit].
    change (PaginationResult.limit (Pagination.getPagination (PaginationParams.mk (Some 1) limit)))
      with (PaginationResult.limit (Pagination.getPagination (PaginationParams.mk None limit))).
    lia. }
  assert (Htotal : Z.of_nat (length (CommentQueries.selected filters db)) <= Schema.maxInt).
  { rewrite selected_length. etrans; [| exact Hsize]. apply inj_le.
    etrans; [apply List.filter_length_le |].
    unfold Db.commentRows. by rewrite length_fmap, length_map_to_list. }
  assert (Hbounds : (length (CommentQueries.selected filters db) <= N * L)%nat
                    /\ ((N - 1) * L <= length (CommentQueries.selected filters db))%nat).
  { rewrite selected_length. subst N meta L.
    unfold CommentQueries.getAllComments.
    cbn [CommentPage.pagination PaginationMeta.totalPages Paging.getPaginationMeta
         PaginationQuery.page PaginationQuery.limit].
    change (PaginationResult.limit (Pagination.getPagination (PaginationParams.mk (Some 1) limit)))
      with (PaginationResult.limit (Pagination.getPagination (PaginationParams.mk None limit))).
    set (lim := PaginationResult.limit _) in *.
    set (total := length _).
    pose proof (ceilDiv_bounds (Z.of_nat total) lim ltac:(lia)) as Hc. nia. }
  destruct Hbounds as [Hcover Hlast].
  assert (Hsafe : Schema.maxInt <= Double.maxSafe) by done.
  split_and!.
  - intros rows Hperm Hsorted. apply (sorted_unique_on CommentService.byCreatedDesc).
    + intros x y Hx Hy Hxy Hyx. unfold CommentService.byCreatedDesc in *.
      rewrite Hperm in Hx, Hy.
      apply elem_of_List_filter in Hx as [_ Hx]. apply elem_of_List_filter in Hy as [_ Hy].
      apply (NoDup_fmap_inj_on Comment.createdAt (Db.commentRows db)); [done.. | lia].
    + done.
    + apply (@StronglySorted_merge_sort _ _ _ byCreatedDesc_trans byCreatedDesc_total).
    + unfold CommentQueries.selected. by rewrite merge_sort_Permutation.
  - rewrite <- fmap_S_seq, <- list_fmap_compose.
    rewrite (list_fmap_ext _ (fun k => take L (drop (k * L)
               (CommentQueries.counted db <$> CommentQueries.selected filters db))) _).
    + apply windows_cover. by rewrite length_fmap.
    + intros i k Hk. apply lookup_seq in Hk as [-> Hi]. unfold compose.
      rewrite pageOf_window; [by rewrite fmap_take, fmap_drop |].
      fold L. nia.
  - intros [|n] Hn Hoffset; [lia |]. rewrite pageOf_window; fold L.
    + rewrite drop_ge; [by rewrite take_nil |]. nia.
    + rewrite Hmeta in Hoffset. nia.
  - done.
Qed.

Lemma getAllComments_pages_partition_witness :
  mjoin (CommentQueries.pageOf (CommentFilters.mk None None) (Some 3) Sample.threadDb
           <$> seq 1 2)
  = CommentQueries.counted Sample.threadDb
    <$> [Sample.comment 4 (Some 3) "fourth" 14; Sample.comment 3 (Some 2) "third" 13;
         Sample.comment 2 (Some 1) "second" 12; Sample.comment 1 None "first" 11].
Proof.
  assert (Hdistinct : CommentQueries.distinctTimes Sample.threadDb).
  { apply (bool_decide_unpack _). by vm_compute. }
  assert (Hsize : Z.of_nat (size (Db.comments Sample.threadDb)) <= Schema.maxInt)
    by (vm_compute; discriminate).
  destruct (getAllComments_pages_partition (CommentFilters.mk None None) (Some 3)
              Sample.threadDb Hdistinct Hsize) as (_ & Hpages & _).
  exact Hpages.
Defined.

Lemma count_by_status (l : list Comment.t) :
  length l
  = (length (List.filter (fun c => bool_decide (Comment.status c = CommentStatus.PENDING)) l)
     + length (List.filter (fun c => bool_decide (Comment.status c = CommentStatus.APPROVED)) l)
     + length (List.filter (fun c => bool_decide (Comment.status c = CommentStatus.REJECTED)) l)
     + length (List.filter (fun c => bool_decide (Comment.status c = CommentStatus.SPAM)) l))%nat.
Proof.
  induction l as [|c l IH]; [done |]. cbn.
  repeat case_bool_decide; cbn; try lia; destruct (Comment.status c); congruence.
Qed.

(** X4. The figures of [getCommentStats] add up: the total is the sum of
    the pending, approved, rejected and spam counts, and each figure
    counts stored comments only. *)
Theorem getCommentStats_adds_up (db : Db.t) :
  let s := CommentQueries.getCommentStats db in
  CommentStats.total s
  = (CommentStats.pending s + CommentStats.approved s
     + CommentStats.rejected s + CommentStats.spam s)%nat
  /\ CommentStats.total s = size (Db.comments db).
Proof.
  cbn. split; [apply count_by_status |].
  unfold Db.commentRows. by rewrite length_fmap, length_map_to_list.
Qed.

End CommentQueryProps.

(** ** Comments: who may edit, and what an edit touches *)

Section CommentWriteProps.

Lemma commentRows_elem (db : Db.t) (c : Comment.t) :
  c ∈ Db.commentRows db <-> exists id, Db.comments db !! id = Some c.
Proof.
  unfold Db.commentRows. rewrite list_elem_of_fmap. split.
  - intros ([id c'] & -> & H%elem_of_map_to_list). eauto.
  - intros (id & H). exists (id, c). split; [done |]. by apply elem_of_map_to_list.
Qed.

Lemma refused_guard (comment : Comment.t) (userId : Z) (userRole : string) :
  ~ (Comment.userId comment = Some userId \/ userRole = "ADMIN") ->
  negb (bool_decide (Comment.userId comment = Some userId))
  && negb (String.eqb userRole "ADMIN") = true.
Proof.
  intros Hno. rewrite bool_decide_eq_false_2 by tauto.
  destruct (String.eqb_spec userRole "ADMIN"); [tauto | done].
Qed.

(** X5. [updateComment] goes through exactly for the comment's own user
    and for any ADMIN (so a guest comment, which has no user, can only be
    edited by an ADMIN); everybody else gets a 403 from [updateComment]
    and from [deleteComment] alike, with nothing written.  An edit that
    goes through replaces the content of that one comment and leaves its
    status, its other columns and every other row as they were. *)
Theorem updateComment_permission_and_frame
  (db : Db.t) (id : Z) (c : Comment.t) (content : string) (userId : Z) (userRole : string) :
  Db.comments db !! id = Some c ->
  ((Comment.userId c = Some userId \/ userRole = "ADMIN") ->
   CommentService.updateComment id content userId userRole db
   = (Ok (CommentService.setContent content c),
      Db.withComments db (<[id := CommentService.setContent content c]> (Db.comments db))
        (Db.nextCommentId db)))
  /\ (~ (Comment.userId c = Some userId \/ userRole = "ADMIN") ->
      Outcome.failed 403 (CommentService.updateComment id content userId userRole db) db
      /\ Outcome.failed 403 (CommentService.deleteComment id userId userRole db) db)
  /\ (Comment.userId c = None -> userRole <> "ADMIN" ->
      Outcome.failed 403 (CommentService.updateComment id content userId userRole db) db)
  /\ (forall c' db',
        CommentService.updateComment id content userId userRole db = (Ok c', db') ->
        Comment.content c' = content
        /\ Comment.status c' = Comment.status c
        /\ Comment.id c' = Comment.id c
        /\ Comment.articleId c' = Comment.articleId c
        /\ Comment.userId c' = Comment.userId c
        /\ Comment.parentId c' = Comment.parentId c
        /\ Comment.createdAt c' = Comment.createdAt c
        /\ Db.comments db' !! id = Some c'
        /\ (forall other, other <> id -> Db.comments db' !! other = Db.comments db !! other)
        /\ Db.articles db' = Db.articles db
        /\ Db.users db' = Db.users db).
Proof.
  intros Hc.
  assert (Hyes : Comment.userId c = Some userId \/ userRole = "ADMIN" ->
                 CommentService.updateComment id content userId userRole db
                 = (Ok (CommentService.setContent content c),
                    Db.withComments db
                      (<[id := CommentService.setContent content c]> (Db.comments db))
                      (Db.nextCommentId db))).
  { intros Hperm. unfold CommentService.updateComment, CommentService.updateRow.
    by rewrite Hc, (permitted_guard _ _ _ Hperm). }
  assert (Hno : ~ (Comment.userId c = Some userId \/ userRole = "ADMIN") ->
                Outcome.failed 403
                  (CommentService.updateComment id content userId userRole db) db).
  { intros Hperm. unfold CommentService.updateComment, Outcome.failed.
    rewrite Hc, (refused_guard _ _ _ Hperm). eauto. }
  split_and!.
  - exact Hyes.
  - intros Hperm. split; [by apply Hno |].
    unfold CommentService.deleteComment, Outcome.failed.
    rewrite Hc, (refused_guard _ _ _ Hperm). eauto.
  - intros Hguest Hrole. apply Hno. intros [Hu | Hr]; [congruence | done].
  - intros c' db' Hrun.
    destruct (decide (Comment.userId c = Some userId \/ userRole = "ADMIN")) as [Hperm | Hperm].
    + rewrite (Hyes Hperm) in Hrun. injection Hrun as <- <-. cbn.
      split_and!; try done; [apply lookup_insert_eq |].
      intros other Hother. by apply lookup_insert_ne.
    + destruct (Hno Hperm) as [msg Hfail]. rewrite Hfail in Hrun. discriminate Hrun.
Qed.

(** A guest comment of the sample thread, and who may edit it. *)
Lemma updateComment_permission_and_frame_witness :
  let db := Db.withComments Sample.threadDb
              (<[9 := Comment.mk 9 1 None None "guest" (Some "G") (Some "g@example.com")
                        CommentStatus.PENDING 40]> (Db.comments Sample.threadDb)) 10 in
  Outcome.failed 403 (CommentService.updateComment 9 "edited" 1 "EDITOR" db) db
  /\ exists c' db', CommentService.updateComment 9 "edited" 2 "ADMIN" db = (Ok c', db')
                    /\ Comment.content c' = "edited".
Proof.
  intros db.
  destruct (updateComment_permission_and_frame db 9
              (Comment.mk 9 1 None None "guest" (Some "G") (Some "g@example.com")
                 CommentStatus.PENDING 40) "edited" 1 "EDITOR" eq_refl) as (_ & _ & Hguest & _).
  destruct (updateComment_permission_and_frame db 9
              (Comment.mk 9 1 None None "guest" (Some "G") (Some "g@example.com")
                 CommentStatus.PENDING 40) "edited" 2 "ADMIN" eq_refl) as (Hadmin & _).
  split; [apply Hguest; [reflexivity | discriminate] |].
  eexists _, _. split; [apply Hadmin; right; reflexivity | reflexivity].
Defined.

(** X6. A top-level comment that [createComment] has just stored is not
    in the public listing of its article; once [approveComment] is called
    on it, it is; and if it is rejected or marked as spam instead, it
    stays out. *)
Theorem comment_listed_once_approved
  (data : CreateCommentRequest.t) (userId : option Z) (now : Z)
  (db db1 : Db.t) (c : Comment.t) :
  CommentService.createComment data userId now db = (Ok c, db1) ->
  CreateCommentRequest.parentId data = None ->
  (c ∉ Visible.listed
         (CommentService.getArticleComments (CreateCommentRequest.articleId data) db1))
  /\ (exists db2,
        CommentService.approveComment (Comment.id c) db1
        = (Ok (CommentService.setStatus CommentStatus.APPROVED c), db2)
        /\ CommentService.setStatus CommentStatus.APPROVED c
           ∈ Visible.listed
               (CommentService.getArticleComments (CreateCommentRequest.articleId data) db2))
  /\ (forall c' db2,
        CommentService.rejectComment (Comment.id c) db1 = (Ok c', db2)
        \/ CommentService.markAsSpam (Comment.id c) db1 = (Ok c', db2) ->
        c' ∉ Visible.listed
               (CommentService.getArticleComments (CreateCommentRequest.articleId data) db2)).
Proof.
  unfold CommentService.createComment.
  destruct (Db.articles db !! _); [| done].
  destruct (CommentService.checkParent _ _); [done |].
  destruct (_ && _); [done |].
  destruct (_ || _); [done |].
  intros [= <- <-] Hparent.
  assert (Hunlisted : forall articleId d x,
             Comment.status x <> CommentStatus.APPROVED ->
             x ∉ Visible.listed (CommentService.getArticleComments articleId d)).
  { intros articleId d x Hs [H | [(p & _ & H) | (p & q & _ & _ & H)]]%elem_of_listed.
    - by apply elem_of_topLevel in H as (_ & _ & _ & H).
    - by apply elem_of_approvedReplies in H as (_ & _ & H).
    - by apply elem_of_approvedReplies in H as (_ & _ & H). }
  split_and!.
  - by apply Hunlisted.
  - unfold CommentService.approveComment, CommentService.updateRow. cbn.
    rewrite lookup_insert_eq. eexists. split; [done |].
    apply elem_of_listed. left. apply elem_of_topLevel. cbn.
    split_and!; try done. apply commentRows_elem. exists (Db.nextCommentId db). cbn.
    apply lookup_insert_eq.
  - unfold CommentService.rejectComment, CommentService.markAsSpam, CommentService.updateRow.
    cbn. rewrite lookup_insert_eq.
    intros c' db2 [[= <- _] | [= <- _]]; by apply Hunlisted.
Qed.

(** A guest comment on the article of the sample thread. *)
Lemma comment_listed_once_approved_witness :
  exists c db1 db2,
    CommentService.createComment
      (CreateCommentRequest.mk 1 "x" None (Some "G") (Some "g@x.com")) None 60 Sample.threadDb
    = (Ok c, db1)
    /\ Comment.status c = CommentStatus.PENDING
    /\ (c ∉ Visible.listed (CommentService.getArticleComments 1 db1))
    /\ CommentService.approveComment (Comment.id c) db1
       = (Ok (CommentService.setStatus CommentStatus.APPROVED c), db2)
    /\ CommentService.setStatus CommentStatus.APPROVED c
       ∈ Visible.listed (CommentService.getArticleComments 1 db2).
Proof.
  eexists _, _.
  destruct (comment_listed_once_approved
              (CreateCommentRequest.mk 1 "x" None (Some "G") (Some "g@x.com")) None 60
              Sample.threadDb _ _ eq_refl eq_refl) as (Hout & (db2 & Happ & Hin) & _).
  exists db2. split_and!; [reflexivity | reflexivity | exact Hout | exact Happ | exact Hin].
Defined.

End CommentWriteProps.

(** ** Comments: replies keep their parents *)

Section ThreadProps.
Variable generateSlug : string -> string.

Lemma checkParent_passed (data : CreateCommentRequest.t) (db : Db.t) (p : Z) :
  CommentService.checkParent data db = None ->
  CreateCommentRequest.parentId data = Some p ->
  p <> 0 ->
  exists parent, Db.comments db !! p = Some parent
                 /\ Comment.articleId parent = CreateCommentRequest.articleId data.
Proof.
  unfold CommentService.checkParent. intros Hcp Hp Hp0. rewrite Hp in Hcp. cbn in Hcp.
  destruct (Z.eqb_spec p 0); [done |]. cbn in Hcp.
  destruct (Db.comments db !! p) as [parent|]; [| done].
  exists parent. split; [done |].
  destruct (Z.eqb_spec (Comment.articleId parent) (CreateCommentRequest.articleId data)); done.
Qed.

Lemma run_threads (op : System.Op) (db db' : Db.t) :
  System.run generateSlug op db = Some db' -> Threads.change db db'.
Proof.
  destruct op; cbn.
  - destruct (ArticleService.createArticle _ _ _ _ _ _) as [[r db1]|] eqn:H; [| done].
    intros [= <-]. apply createArticle_inv in H as [[_ ->] | (slug & _ & ->)];
      by apply Threads.change_none.
  - destruct (ArticleService.updateArticle _ _ _ _ _ _ _ _) as [[r db1]|] eqn:H; [| done].
    intros [= <-]. apply updateArticle_inv in H as [[_ ->] | (a & slug & _ & _ & ->)];
      by apply Threads.change_none.
  - intros [= <-]. unfold ArticleService.publishArticle, ArticleService.updateRow.
    destruct (Db.articles db !! id); by apply Threads.change_none.
  - intros [= <-]. unfold ArticleService.archiveArticle, ArticleService.updateRow.
    destruct (Db.articles db !! id); by apply Threads.change_none.
  - intros [= <-]. unfold CommentService.createComment.
    destruct (Db.articles db !! _); [| by apply Threads.change_none].
    destruct (CommentService.checkParent _ _) eqn:Hcp; [by apply Threads.change_none |].
    destruct (_ && _); [by apply Threads.change_none |].
    destruct (_ || _); [by apply Threads.change_none |].
    eapply Threads.change_added; [| cbn; reflexivity]. cbn.
    intros p Hp Hp0. by apply (checkParent_passed data db p).
  - intros [= <-]. unfold CommentService.updateComment, CommentService.updateRow.
    destruct (Db.comments db !! id) as [c|] eqn:Hc; [| by apply Threads.change_none].
    destruct (_ && _); [by apply Threads.change_none |].
    by apply (Threads.change_row _ _ id c (CommentService.setContent content c)).
  - intros [= <-]. unfold CommentService.approveComment, CommentService.updateRow.
    destruct (Db.comments db !! id) as [c|] eqn:Hc; [| by apply Threads.change_none].
    by apply (Threads.change_row _ _ id c (CommentService.setStatus CommentStatus.APPROVED c)).
  - intros [= <-]. unfold CommentService.rejectComment, CommentService.updateRow.
    destruct (Db.comments db !! id) as [c|] eqn:Hc; [| by apply Threads.change_none].
    by apply (Threads.change_row _ _ id c (CommentService.setStatus CommentStatus.REJECTED c)).
  - intros [= <-]. unfold CommentService.markAsSpam, CommentService.updateRow.
    destruct (Db.comments db !! id) as [c|] eqn:Hc; [| by apply Threads.change_none].
    by apply (Threads.change_row _ _ id c (CommentService.setStatus CommentStatus.SPAM c)).
  - intros [= <-]. unfold CommentService.deleteComment.
    destruct (Db.comments db !! id) as [c|] eqn:Hc; [| by apply Threads.change_none].
    destruct (_ && _); [by apply Threads.change_none |].
    destruct (0 <? _)%nat eqn:Hn; [by apply Threads.change_none |].
    apply Nat.ltb_ge in Hn. eapply Threads.change_removed; [done | lia | done].
Qed.

Lemma countReplies_0 (db : Db.t) (c r : Comment.t) (id : Z) :
  CommentService.countReplies db c = 0%nat ->
  Db.comments db !! id = Some r ->
  Comment.parentId r <> Some (Comment.id c).
Proof.
  unfold CommentService.countReplies. intros Hz Hr Hp.
  assert (Hin : r ∈ List.filter
                  (fun r => bool_decide (Comment.parentId r = Some (Comment.id c)))
                  (Db.commentRows db)).
  { apply elem_of_List_filter. split; [by apply bool_decide_eq_true | ].
    apply commentRows_elem. eauto. }
  destruct (List.filter _ _); [by apply elem_of_nil in Hin | done].
Qed.

Lemma anchored_step (db db' : Db.t) :
  Wf.comments db -> Threads.change db db' -> Threads.anchored db -> Threads.anchored db'.
Proof.
  intros [_ Hwf] Hch Hanch id c p.
  destruct Hch as [-> | id0 c0 c0' Hc0 Hart Hpar -> | id0 c0 Hc0 Hcount -> | c0 Hnew ->].
  - apply Hanch.
  - rewrite lookup_insert. case_decide as Hid.
    + subst id0. intros [= <-] Hp Hp0. rewrite Hpar in Hp.
      destruct (Hanch _ _ _ Hc0 Hp Hp0) as (parent & Hparent & Hsame).
      rewrite lookup_insert. case_decide as Hpid.
      * subst p. exists c0'. split; [done |]. congruence.
      * exists parent. split; [done |]. congruence.
    + intros Hc Hp Hp0. destruct (Hanch _ _ _ Hc Hp Hp0) as (parent & Hparent & Hsame).
      rewrite lookup_insert. case_decide as Hpid.
      * subst p. exists c0'. split; [done |]. congruence.
      * by exists parent.
  - rewrite lookup_delete. case_decide as Hid; [done |].
    intros Hc Hp Hp0. destruct (Hanch _ _ _ Hc Hp Hp0) as (parent & Hparent & Hsame).
    rewrite lookup_delete. case_decide as Hpid.
    + subst p. exfalso. apply (countReplies_0 _ _ _ _ Hcount Hc).
      apply Hwf in Hc0 as [_ ->]. done.
    + by exists parent.
  - assert (Hfresh : forall k x, Db.comments db !! k = Some x -> k <> Db.nextCommentId db).
    { intros k x Hk%Hwf. lia. }
    rewrite lookup_insert. case_decide as Hid.
    + intros [= <-] Hp Hp0. destruct (Hnew _ Hp Hp0) as (parent & Hparent & Hsame).
      exists parent. split; [| done]. rewrite lookup_insert_ne; [done |].
      intros Heq. by apply (Hfresh _ _ Hparent).
    + intros Hc Hp Hp0. destruct (Hanch _ _ _ Hc Hp Hp0) as (parent & Hparent & Hsame).
      exists parent. split; [| done]. rewrite lookup_insert_ne; [done |].
      intros Heq. by apply (Hfresh _ _ Hparent).
Qed.

(** X7. No call ever leaves a reply without its parent: in every
    database of every history, a comment whose [parentId] is a key other
    than 0 has a stored parent, and that parent belongs to the same
    article.  ([createComment] checks it on the way in, [deleteComment]
    refuses to remove a comment that still has replies, and the other
    calls keep [parentId] and [articleId].) *)
Theorem replies_keep_their_parent (db : Db.t) (past : list Db.t) :
  System.history generateSlug (db :: past) -> Threads.anchored db.
Proof.
  remember (db :: past) as h eqn:Hh. intros Hhist. revert db past Hh.
  induction Hhist as [us cats tgs | op db0 db1 past0 Hhist IH Hrun]; intros db past [= <- <-].
  - intros id c p. cbn. by rewrite lookup_empty.
  - eapply anchored_step; [| by eapply run_threads | by eapply IH].
    by apply (history_wf generateSlug db0 past0).
Qed.

End ThreadProps.

(** In the sample thread the fourth comment hangs off the third. *)
Lemma replies_keep_their_parent_witness :
  exists parent, Db.comments Sample.threadDb !! 3 = Some parent
                 /\ Comment.articleId parent = 1.
Proof.
  apply (replies_keep_their_parent Sample.slugger Sample.threadDb (drop 1 Sample.threadHistory)
           sample_thread_history 4 (Sample.comment 4 (Some 3) "fourth" 14) 3);
    [reflexivity | reflexivity | discriminate].
Defined.

(** ** The error handler *)

Section ErrorHandlerProps.

Lemma classify_status (err : Raised.t) :
  let s := fst (ErrorHandler.classify err) in
  (exists statusCode, Raised.class err = Raised.Api statusCode /\ s = statusCode)
  \/ (Raised.class err <> Raised.Other /\ (s = 400 \/ s = 404 \/ s = 409))
  \/ (Raised.class err = Raised.Other /\ (s = 400 \/ s = 401 \/ s = 500)).
Proof.
  unfold ErrorHandler.classify. destruct (Raised.class err) as [sc | code target | |]; cbn.
  - left. eauto.
  - right; left. split; [done |]. repeat (destruct (String.eqb code _); cbn; [tauto |]). tauto.
  - right; left. split; [done | tauto].
  - right; right. split; [done |].
    repeat (destruct (String.eqb (Raised.name err) _); cbn; [tauto |]). tauto.
Qed.

(** X8. The error handler passes an [ApiError] through with its own
    status and message; every other error is answered with 400, 401, 404,
    409 or 500, and 500 only when the error is of no class and no name
    the handler knows.  Outside development the response carries neither
    stack nor details, and for errors other than [ApiError] and upload
    errors it does not depend on the error's message and stack at all. *)
Theorem errorHandler_response (nodeEnv : option string) (err : Raised.t) :
  let r := ErrorHandler.errorHandler nodeEnv err in
  ErrorResponse.success r = false
  /\ (forall statusCode, Raised.class err = Raised.Api statusCode ->
        ErrorResponse.status r = statusCode /\ ErrorResponse.error r = Raised.message err)
  /\ (ErrorHandler.isApi err = false ->
      ErrorResponse.status r ∈ [400; 401; 404; 409; 500])
  /\ (ErrorResponse.status r = 500 -> ErrorHandler.isApi err = false ->
      Raised.class err = Raised.Other
      /\ Raised.name err <> "JsonWebTokenError"
      /\ Raised.name err <> "TokenExpiredError"
      /\ Raised.name err <> "MulterError"
      /\ ErrorResponse.error r = "Internal Server Error")
  /\ (nodeEnv <> Some "development" ->
      ErrorResponse.stack r = None /\ ErrorResponse.details r = None)
  /\ (nodeEnv <> Some "development" ->
      ErrorHandler.isApi err = false ->
      Raised.name err <> "MulterError" ->
      forall message' stack',
        ErrorHandler.errorHandler nodeEnv
          (Raised.mk (Raised.class err) (Raised.name err) message' stack')
        = r).
Proof.
  intros r. subst r. unfold ErrorHandler.errorHandler.
  destruct (ErrorHandler.classify err) as [s m] eqn:Hcl.
  pose proof (classify_status err) as Hst. rewrite Hcl in Hst. cbn in Hst.
  cbn [ErrorResponse.success ErrorResponse.status ErrorResponse.error
       ErrorResponse.stack ErrorResponse.details].
  split_and!.
  - done.
  - intros sc Hsc. unfold ErrorHandler.classify in Hcl. rewrite Hsc in Hcl.
    by injection Hcl as <- <-.
  - intros Hapi. unfold ErrorHandler.isApi in Hapi.
    destruct Hst as [(sc & Hc & _) | [[_ H] | [_ H]]].
    + by rewrite Hc in Hapi.
    + destruct H as [-> | [-> | ->]]; set_solver.
    + destruct H as [-> | [-> | ->]]; set_solver.
  - intros -> Hapi. unfold ErrorHandler.classify, ErrorHandler.isApi in *.
    destruct (Raised.class err) as [sc | code target | |]; [done | | done |].
    + exfalso. revert Hcl.
      repeat (destruct (String.eqb code _); [by intros [= ?] |]). by intros [= ?].
    + destruct (String.eqb_spec (Raised.name err) "JsonWebTokenError"); [done |].
      destruct (String.eqb_spec (Raised.name err) "TokenExpiredError"); [done |].
      destruct (String.eqb_spec (Raised.name err) "MulterError"); [done |].
      by simplify_eq.
  - intros Hdev. by rewrite bool_decide_eq_false_2.
  - intros Hdev Hapi Hname message' stack'.
    rewrite bool_decide_eq_false_2 by done.
    unfold ErrorHandler.classify, ErrorHandler.isApi in *. cbn.
    destruct (Raised.class err) as [sc | code target | |]; [done | | |].
    + by rewrite Hcl.
    + by simplify_eq.
    + revert Hcl. destruct (String.eqb_spec (Raised.name err) "MulterError"); [done |].
      repeat (destruct (String.eqb (Raised.name err) _)); by intros [= <- <-].
Qed.

(** A crash with an internal message, in production. *)
Lemma errorHandler_response_witness :
  ErrorHandler.errorHandler (Some "production")
    (Raised.mk Raised.Other "TypeError" "cannot read properties of undefined" "at f (x.ts:1)")
  = ErrorResponse.mk 500 false "Internal Server Error" None None.
Proof.
  destruct (errorHandler_response (Some "production")
              (Raised.mk Raised.Other "TypeError" "" "")) as (_ & _ & _ & _ & _ & H).
  rewrite (H ltac:(discriminate) eq_refl ltac:(discriminate)). reflexivity.
Defined.

End ErrorHandlerProps.

(** ** Failing calls *)

Section FailingCallProps.
Variable generateSlug : string -> string.

Lemma updateRow_comment_err id f db t :
  Calls.errorOf (fst (CommentService.updateRow id f db)) = Some t ->
  t = ThrowPrisma "P2025" /\ snd (CommentService.updateRow id f db) = db.
Proof.
  unfold CommentService.updateRow. destruct (Db.comments db !! id); cbn; [done |].
  by intros [= <-].
Qed.

Lemma updateRow_article_err id f db t :
  Calls.errorOf (fst (ArticleService.updateRow id f db)) = Some t ->
  t = ThrowPrisma "P2025" /\ snd (ArticleService.updateRow id f db) = db.
Proof.
  unfold ArticleService.updateRow. destruct (Db.articles db !! id); cbn; [done |].
  by intros [= <-].
Qed.

(** Every error the calls throw, and that a throwing call writes nothing. *)
Lemma thrown_cases (op : System.Op) (db : Db.t) (t : Thrown) :
  Calls.thrown generateSlug op db = Some (Some t) ->
  System.run generateSlug op db = Some db
  /\ (t = ThrowPrisma "P2025"
      \/ t = ThrowPrisma "P2003"
      \/ exists status msg, t = ThrowApi (mkApiError status msg)
                            /\ (status = 400 \/ status = 403 \/ status = 404)).
Proof.
  destruct op; cbn;
    unfold ArticleService.publishArticle, ArticleService.archiveArticle,
      CommentService.approveComment, CommentService.rejectComment, CommentService.markAsSpam.
  - destruct (ArticleService.createArticle _ _ _ _ _ _) as [[r db1]|] eqn:H; [| done].
    cbn. intros [= Hr].
    apply createArticle_inv in H as Hinv. destruct Hinv as [[_ ->] | (slug & -> & _)]; [| done].
    split; [done |]. revert H. unfold ArticleService.createArticle.
    destruct (Slugify.generateUniqueSlug _ _ _ _ _) as [[slug db1]|]; [| done].
    destruct (_ && _);
      [intros Heq; simplify_eq; cbn in Hr; simplify_eq; right; right; eauto 10 |].
    destruct (_ || _); [intros Heq; simplify_eq; cbn in Hr; simplify_eq; auto |].
    destruct (negb (Schema.allIn _ _)); intros Heq; simplify_eq; cbn in Hr; simplify_eq.
    auto.
  - destruct (ArticleService.updateArticle _ _ _ _ _ _ _ _) as [[r db1]|] eqn:H; [| done].
    cbn. intros [= Hr].
    apply updateArticle_inv in H as Hinv.
    destruct Hinv as [[_ ->] | (a & slug & _ & -> & _)]; [| done].
    split; [done |]. revert H. unfold ArticleService.updateArticle.
    destruct (Db.articles db !! id) as [a|] eqn:Ha.
    + destruct (_ && _).
      * intros Heq. simplify_eq. cbn in Hr. simplify_eq. right. right. eauto 10.
      * destruct (if _ && _ then _ else _) as [[slug db1]|]; [| done].
        destruct (negb (Schema.memberOf _ _));
          [intros Heq; simplify_eq; cbn in Hr; simplify_eq; auto |].
        destruct (negb (Schema.allIn _ _));
          [intros Heq; simplify_eq; cbn in Hr; simplify_eq; auto |].
        unfold ArticleService.updateRow.
        destruct (Db.articles db1 !! id); intros Heq; simplify_eq; cbn in Hr; simplify_eq.
        by left.
    + intros Heq. simplify_eq. cbn in Hr. simplify_eq. right. right. eauto 10.
  - intros [= H]. apply updateRow_article_err in H as [-> ->]. eauto.
  - intros [= H]. apply updateRow_article_err in H as [-> ->]. eauto.
  - intros [= H]. revert H. unfold CommentService.createComment.
    destruct (Db.articles db !! _); [| intros [= <-]; split; [done |]; right; right; eauto 10].
    destruct (CommentService.checkParent data db) as [t'|] eqn:Hcp.
    + intros [= <-]. split; [done |].
      apply checkParent_cases in Hcp as [(p & _ & _ & ->) | ->]; right; right; eauto 10.
    + destruct (_ && _); [intros [= <-]; split; [done |]; right; right; eauto 10 |].
      destruct (_ || _); [| done]. intros [= <-]. auto.
  - intros [= H]. revert H. unfold CommentService.updateComment.
    destruct (Db.comments db !! id) as [c|] eqn:Hc;
      [| intros [= <-]; split; [done |]; right; right; eauto 10].
    destruct (_ && _); [intros [= <-]; split; [done |]; right; right; eauto 10 |].
    intros H. apply updateRow_comment_err in H as [-> ->]. eauto.
  - intros [= H]. apply updateRow_comment_err in H as [-> ->]. eauto.
  - intros [= H]. apply updateRow_comment_err in H as [-> ->]. eauto.
  - intros [= H]. apply updateRow_comment_err in H as [-> ->]. eauto.
  - intros [= H]. revert H. unfold CommentService.deleteComment.
    destruct (Db.comments db !! id) as [c|] eqn:Hc;
      [| intros [= <-]; split; [done |]; right; right; eauto 10].
    destruct (_ && _); [intros [= <-]; split; [done |]; right; right; eauto 10 |].
    destruct (0 <? _)%nat; [| done]. intros [= <-]. split; [done |]. right. right. eauto 10.
Qed.

(** X9. A call that throws writes nothing, and the error handler
    answers it with 400, 403 or 404, never with 500: what is thrown is
    one of the services' own 400, 403 and 404 errors, P2025 (a moderation,
    publish or archive call on an id that is not there, or a tag that is
    not there), answered 404 "Record not found", or P2003 (a reference
    the database refuses), answered 400.  The references the services do
    not check themselves do end in these errors: a comment for a user
    that is not stored or with parent 0, an article for an author that is
    not stored or with category 0, an article written with a tag, and an
    article updated with a category, that is not there. *)
Theorem failing_call_is_clean :
  (forall op db t nodeEnv err,
      Calls.thrown generateSlug op db = Some (Some t) ->
      ErrorHandler.carries t err ->
      System.run generateSlug op db = Some db
      /\ ErrorResponse.status (ErrorHandler.errorHandler nodeEnv err) ∈ [400; 403; 404]
      /\ (t = ThrowPrisma "P2025" ->
          ErrorResponse.status (ErrorHandler.errorHandler nodeEnv err) = 404
          /\ ErrorResponse.error (ErrorHandler.errorHandler nodeEnv err) = "Record not found")
      /\ (t = ThrowPrisma "P2003" ->
          ErrorResponse.status (ErrorHandler.errorHandler nodeEnv err) = 400
          /\ ErrorResponse.error (ErrorHandler.errorHandler nodeEnv err)
             = "Invalid reference to related record"))
  /\ (forall data u now db,
        is_Some (Db.articles db !! CreateCommentRequest.articleId data) ->
        u <> 0 ->
        (CreateCommentRequest.parentId data = None /\ Db.users db !! u = None)
        \/ (CreateCommentRequest.parentId data = Some 0 /\ Db.comments db !! 0 = None) ->
        CommentService.createComment data (Some u) now db = (Err (ThrowPrisma "P2003"), db))
  /\ (forall fuel data authorId now db r db',
        ArticleService.createArticle generateSlug fuel data authorId now db = Some (r, db') ->
        (CreateArticleRequest.categoryId data ∈ Db.categories db
         /\ Db.users db !! authorId = None)
        \/ (CreateArticleRequest.categoryId data = 0 /\ 0 ∉ Db.categories db) ->
        r = Err (ThrowPrisma "P2003") /\ db' = db)
  /\ (forall fuel data authorId now db r db' tagIds tag,
        ArticleService.createArticle generateSlug fuel data authorId now db = Some (r, db') ->
        CreateArticleRequest.categoryId data ∈ Db.categories db ->
        is_Some (Db.users db !! authorId) ->
        CreateArticleRequest.tagIds data = Some tagIds ->
        tag ∈ tagIds -> tag ∉ Db.tags db ->
        r = Err (ThrowPrisma "P2025") /\ db' = db)
  /\ (forall fuel id data userId userRole now db a r db' categoryId,
        ArticleService.updateArticle generateSlug fuel id data userId userRole now db
        = Some (r, db') ->
        Db.articles db !! id = Some a ->
        Article.authorId a = userId \/ userRole = "ADMIN" ->
        UpdateArticleRequest.categoryId data = Some categoryId ->
        categoryId ∉ Db.categories db ->
        r = Err (ThrowPrisma "P2003") /\ db' = db).
Proof.
  split_and!.
  - intros op db t nodeEnv err Hthrown Hcarries.
    destruct (thrown_cases op db t Hthrown) as [Hrun Ht]. split; [done |].
    unfold ErrorHandler.errorHandler, ErrorHandler.classify.
    destruct Ht as [-> | [-> | (status & msg & -> & Hs)]].
    + destruct Hcarries as [target ->]. cbn. split_and!; [set_solver | done | done].
    + destruct Hcarries as [target ->]. cbn. split_and!; [set_solver | done | done].
    + destruct Hcarries as [-> _]. cbn. split_and!; [| done | done].
      destruct Hs as [-> | [-> | ->]]; set_solver.
  - intros data u now db [art Hart] Hu Href. unfold CommentService.createComment.
    rewrite Hart.
    assert (CommentService.checkParent data db = None) as ->.
    { unfold CommentService.checkParent. by destruct Href as [[-> _] | [-> _]]. }
    assert (truthy_num (Some u) = true) as ->.
    { cbn. by destruct (Z.eqb_spec u 0). }
    cbn [negb andb].
    assert (negb (Schema.refersTo (Db.users db) (Some u))
            || negb (Schema.refersTo (Db.comments db) (CreateCommentRequest.parentId data))
            = true) as ->; [| done].
    destruct Href as [[-> Hnone] | [-> Hnone]]; cbn; rewrite Hnone.
    + by rewrite bool_decide_eq_false_2 by by intros [? ?].
    + rewrite (bool_decide_eq_false_2 (is_Some None)) by by intros [? ?].
      apply orb_true_r.
  - intros fuel data authorId now db r db'. unfold ArticleService.createArticle.
    destruct (Slugify.generateUniqueSlug _ _ _ _ _) as [[slug db1]|] eqn:Hslug; [| done].
    apply uniqueSlugLoop_reads in Hslug as ->; [| done].
    intros Hrun Href. revert Hrun.
    assert (negb (CreateArticleRequest.categoryId data =? 0)
            && negb (bool_decide (CreateArticleRequest.categoryId data ∈ Db.categories db))
            = false) as ->.
    { destruct Href as [[Hin _] | [-> _]]; [| done].
      rewrite (bool_decide_eq_true_2 _ Hin). apply andb_false_r. }
    assert (negb (bool_decide (is_Some (Db.users db !! authorId)))
            || negb (bool_decide (CreateArticleRequest.categoryId data ∈ Db.categories db))
            = true) as ->.
    { destruct Href as [[_ Hnone] | [-> Hnot]].
      - rewrite Hnone. by rewrite bool_decide_eq_false_2 by by intros [? ?].
      - rewrite (bool_decide_eq_false_2 _ Hnot). apply orb_true_r. }
    by intros [= <- <-].
  - intros fuel data authorId now db r db' tagIds tag. unfold ArticleService.createArticle.
    destruct (Slugify.generateUniqueSlug _ _ _ _ _) as [[slug db1]|] eqn:Hslug; [| done].
    apply uniqueSlugLoop_reads in Hslug as ->; [| done].
    intros Hrun Hcat Hauthor Htags Hin Hnot. revert Hrun.
    rewrite (bool_decide_eq_true_2 _ Hcat), (bool_decide_eq_true_2 _ Hauthor), Htags.
    rewrite andb_false_r. cbn [negb orb].
    change (default [] (Some tagIds)) with tagIds.
    assert (Schema.allIn (Db.tags db) tagIds = false) as ->.
    { unfold Schema.allIn. apply not_true_iff_false. rewrite forallb_forall.
      intros Hall. apply list_elem_of_In, Hall in Hin. by apply bool_decide_eq_true in Hin. }
    by intros [= <- <-].
  - intros fuel id data userId userRole now db a r db' categoryId.
    unfold ArticleService.updateArticle. intros Hrun Ha Hperm Hcat Hnot. revert Hrun.
    rewrite Ha.
    assert (negb (Article.authorId a =? userId) && negb (String.eqb userRole "ADMIN") = false)
      as ->.
    { destruct Hperm as [<- | ->]; [by rewrite Z.eqb_refl | by rewrite andb_false_r]. }
    destruct (if _ && _ then _ else _) as [[slug db1]|] eqn:Hslug; [| done].
    assert (db1 = db) as ->.
    { destruct (_ && _) in Hslug.
      - apply uniqueSlugLoop_reads in Hslug; done.
      - by injection Hslug as _ <-. }
    rewrite Hcat. cbn. rewrite (bool_decide_eq_false_2 _ Hnot). cbn.
    by intros [= <- <-].
Qed.

End FailingCallProps.

(** On the sample thread: approving a comment that does not exist, and a
    comment in the name of a user that does not exist. *)
Lemma failing_call_is_clean_witness :
  System.run Sample.slugger (System.ApproveComment 99) Sample.threadDb = Some Sample.threadDb
  /\ ErrorResponse.status
       (ErrorHandler.errorHandler None
          (Raised.mk (Raised.PrismaKnown "P2025" None) "PrismaClientKnownRequestError" "" ""))
     = 404
  /\ CommentService.createComment (Sample.anonymous 1) (Some 99) 50 Sample.threadDb
     = (Err (ThrowPrisma "P2003"), Sample.threadDb)
  /\ ErrorResponse.status
       (ErrorHandler.errorHandler None
          (Raised.mk (Raised.PrismaKnown "P2003" None) "PrismaClientKnownRequestError" "" ""))
     = 400.
Proof.
  destruct (failing_call_is_clean Sample.slugger) as (Hclean & Hcomment & _).
  destruct (Hclean (System.ApproveComment 99) Sample.threadDb
              (ThrowPrisma "P2025") None
              (Raised.mk (Raised.PrismaKnown "P2025" None) "PrismaClientKnownRequestError" "" "")
              eq_refl (ex_intro _ None eq_refl)) as (Hrun & _ & H404 & _).
  destruct (Hclean (System.CreateComment (Sample.anonymous 1) (Some 99) 50) Sample.threadDb
              (ThrowPrisma "P2003") None
              (Raised.mk (Raised.PrismaKnown "P2003" None) "PrismaClientKnownRequestError" "" "")
              eq_refl (ex_intro _ None eq_refl)) as (_ & _ & _ & H400).
  split_and!; [exact Hrun | by apply H404 | | by apply H400].
  apply Hcomment; [by eexists | done | left; split; reflexivity].
Defined.

(** ** The role gate *)

Section RoleGateProps.
Variable verifyToken : string -> option JwtPayload.t.

Lemma includes_elem (role : string) (allowedRoles : list string) :
  existsb (String.eqb role) allowedRoles = true <-> role ∈ allowedRoles.
Proof.
  rewrite existsb_exists, list_elem_of_In. split.
  - intros (r & Hin & ->%String.eqb_eq). done.
  - intros Hin. exists role. split; [done | apply String.eqb_refl].
Qed.

Lemma requireRole_passes (allowedRoles : list string) (req : Request.t) :
  snd (RoleCheck.requireRole allowedRoles req) = NextOk
  <-> exists user, Request.user req = Some user /\ AuthUser.role user ∈ allowedRoles.
Proof.
  unfold RoleCheck.requireRole. destruct (Request.user req) as [user|]; cbn.
  - destruct (existsb _ _) eqn:Hin; cbn.
    + apply includes_elem in Hin. split; [eauto | done].
    + split; [done |]. intros (u & [= <-] & Hu%includes_elem). congruence.
  - split; [done | by intros (u & ? & _)].
Qed.

Lemma authenticate_passes (db : Db.t) (req req' : Request.t) :
  Auth.authenticate verifyToken db req = (req', NextOk)
  <-> exists h decoded user,
        Request.authorization req = Some h
        /\ String.prefix "Bearer " h = true
        /\ verifyToken (Auth.tokenOf h) = Some decoded
        /\ Db.users db !! JwtPayload.userId decoded = Some user
        /\ User.isActive user = true
        /\ req' = Request.attach req (Auth.selectUser user).
Proof.
  unfold Auth.authenticate, Auth.authenticateBody. split.
  - destruct (Request.authorization req) as [h|] eqn:Hh; [| done].
    rewrite hasBearer_prefix. destruct (String.prefix "Bearer " h) eqn:Hp; [| done].
    cbn [negb]. change (default "" (Some h)) with h.
    destruct (verifyToken (Auth.tokenOf h)) as [decoded|] eqn:Hv; [| done].
    destruct (Db.users db !! JwtPayload.userId decoded) as [user|] eqn:Hu; [| done].
    destruct (User.isActive user) eqn:Ha; [| done].
    intros [= <-]. by exists h, decoded, user.
  - intros (h & decoded & user & -> & Hp & Hv & Hu & Ha & ->).
    rewrite hasBearer_prefix, Hp. cbn [negb]. change (default "" (Some h)) with h.
    by rewrite Hv, Hu, Ha.
Qed.

Lemma authenticate_error (db : Db.t) (req req' : Request.t) (t : Thrown) :
  Auth.authenticate verifyToken db req = (req', NextError t) ->
  req' = req
  /\ exists status msg, t = ThrowApi (mkApiError status msg) /\ (status = 401 \/ status = 403).
Proof.
  unfold Auth.authenticate, Auth.authenticateBody, throwApi.
  destruct (negb _); [intros [= <- <-]; eauto 10 |].
  destruct (verifyToken _); [| intros [= <- <-]; eauto 10].
  destruct (Db.users db !! _) as [user|]; [| intros [= <- <-]; eauto 10].
  destruct (negb _); [intros [= <- <-]; eauto 10 | done].
Qed.

(** X10. A route guarded by [authenticate] and [requireRole] lets a
    request through exactly when it bears a token that verifies, the
    token's user exists and is active, and the role of that user in the
    database is one of the allowed roles; the request then carries that
    user.  Every other request is turned away with 401 or 403. *)
Theorem guarded_route (db : Db.t) (allowedRoles : list string) (req : Request.t) :
  let out := Route.guarded verifyToken db allowedRoles req in
  (snd out = NextOk
   <-> exists h decoded user,
         Request.authorization req = Some h
         /\ String.prefix "Bearer " h = true
         /\ verifyToken (Auth.tokenOf h) = Some decoded
         /\ Db.users db !! JwtPayload.userId decoded = Some user
         /\ User.isActive user = true
         /\ User.role user ∈ allowedRoles
         /\ fst out = Request.attach req (Auth.selectUser user))
  /\ (forall t, snd out = NextError t ->
        exists status msg,
          t = ThrowApi (mkApiError status msg) /\ (status = 401 \/ status = 403)).
Proof.
  intros out. subst out. unfold Route.guarded, Route.andThen.
  destruct (Auth.authenticate verifyToken db req) as [req1 [|t1]] eqn:Hauth.
  - apply authenticate_passes in Hauth as Hpass.
    destruct Hpass as (h & decoded & user & Hh & Hp & Hv & Hu & Ha & ->).
    split.
    + split.
      * intros Hok. exists h, decoded, user.
        apply requireRole_passes in Hok as (u & [= <-] & Hrole).
        split_and!; try done.
        unfold RoleCheck.requireRole. cbn.
        apply includes_elem in Hrole. cbn in Hrole. by rewrite Hrole.
      * intros (h' & d' & u' & Hh' & _ & Hv' & Hu' & _ & Hrole & _).
        rewrite Hh in Hh'. injection Hh' as <-.
        rewrite Hv in Hv'. injection Hv' as <-.
        rewrite Hu in Hu'. injection Hu' as <-.
        apply requireRole_passes. eexists. split; [reflexivity | done].
    + intros t. unfold RoleCheck.requireRole. cbn.
      destruct (existsb _ _); cbn; [done |]. intros [= <-]. eauto 10.
  - destruct (authenticate_error _ _ _ _ Hauth) as (-> & status & msg & -> & Hs). split.
    + split; [done |].
      intros (h & d & u & Hh & Hp & Hv & Hu & Ha & _).
      assert (Hok : Auth.authenticate verifyToken db req
                    = (Request.attach req (Auth.selectUser u), NextOk)).
      { apply authenticate_passes. by exists h, d, u. }
      rewrite Hauth in Hok. discriminate Hok.
    + cbn. intros t [= <-]. eauto.
Qed.

End RoleGateProps.

(** On the sample users: Alice is an active AUTHOR, Bob an inactive
    EDITOR. *)
Lemma guarded_route_witness :
  snd (Route.guarded Sample.verifier Sample.db0 ["ADMIN"; "EDITOR"; "AUTHOR"]
         (Sample.bearing "Bearer tok-alice")) = NextOk
  /\ snd (Route.guarded Sample.verifier Sample.db0 ["ADMIN"]
           (Sample.bearing "Bearer tok-alice")) <> NextOk.
Proof.
  split.
  - apply (guarded_route Sample.verifier Sample.db0 ["ADMIN"; "EDITOR"; "AUTHOR"]
             (Sample.bearing "Bearer tok-alice")).
    exists "Bearer tok-alice", (JwtPayload.mk 1 "alice@example.com" "AUTHOR"), Sample.alice.
    split_and!; try reflexivity. do 2 right. left.
  - intros Hok.
    apply (guarded_route Sample.verifier Sample.db0 ["ADMIN"]
             (Sample.bearing "Bearer tok-alice")) in Hok
      as (h & d & u & [= <-] & _ & [= <-] & [= <-] & _ & Hrole & _).
    apply list_elem_of_singleton in Hrole. discriminate Hrole.
Defined.

Section TokenClaimsProps.

(** X11. The authenticator reads nothing but [userId] from a verified
    token: two token codecs that agree on the user id of every token give
    the same result on every request, in [authenticate], in
    [optionalAuthenticate] and behind every role gate.  The [role] and
    [email] a token carries are never consulted; the role that counts is
    the one in the database. *)
Theorem token_claims_not_trusted
  (verify1 verify2 : string -> option JwtPayload.t)
  (db : Db.t) (allowedRoles : list string) (req : Request.t) :
  (forall token, JwtPayload.userId <$> verify1 token = JwtPayload.userId <$> verify2 token) ->
  Auth.authenticate verify1 db req = Auth.authenticate verify2 db req
  /\ Auth.optionalAuthenticate verify1 db req = Auth.optionalAuthenticate verify2 db req
  /\ Route.guarded verify1 db allowedRoles req = Route.guarded verify2 db allowedRoles req.
Proof.
  intros Hagree.
  assert (Hauth : Auth.authenticate verify1 db req = Auth.authenticate verify2 db req).
  { unfold Auth.authenticate, Auth.authenticateBody.
    destruct (negb _); [done |].
    specialize (Hagree (Auth.tokenOf (default "" (Request.authorization req)))).
    destruct (verify1 _) as [d1|], (verify2 _) as [d2|]; cbn in Hagree; try done.
    by injection Hagree as ->. }
  split_and!; [done | |].
  - unfold Auth.optionalAuthenticate.
    destruct (Auth.hasBearer _); [| done].
    specialize (Hagree (Auth.tokenOf (default "" (Request.authorization req)))).
    destruct (verify1 _) as [d1|], (verify2 _) as [d2|]; cbn in Hagree; try done.
    by injection Hagree as ->.
  - unfold Route.guarded, Route.andThen. by rewrite Hauth.
Qed.

(** A token that still says AUTHOR for Alice and one that says ADMIN are
    worth the same. *)
Lemma token_claims_not_trusted_witness :
  Route.guarded Sample.verifier Sample.db0 ["ADMIN"] (Sample.bearing "Bearer tok-alice")
  = Route.guarded
      (fun token => (fun d => JwtPayload.mk (JwtPayload.userId d) "root@example.com" "ADMIN")
                    <$> Sample.verifier token)
      Sample.db0 ["ADMIN"] (Sample.bearing "Bearer tok-alice").
Proof.
  apply (token_claims_not_trusted Sample.verifier _ Sample.db0 ["ADMIN"]
           (Sample.bearing "Bearer tok-alice")).
  intros token. by destruct (Sample.verifier token).
Defined.

(** X12. Role gates are monotone and leave the request alone: a request
    that passes [requireRole] for some roles passes it for every larger
    list of roles, so whoever passes the admin gate passes the editor
    gate, and whoever passes the editor gate passes the author gate; a
    request without a user is answered 401 by every gate, and a user with
    another role 403. *)
Theorem requireRole_monotone (allowed allowed' : list string) (req : Request.t) :
  allowed ⊆ allowed' ->
  (snd (RoleCheck.requireRole allowed req) = NextOk ->
   snd (RoleCheck.requireRole allowed' req) = NextOk)
  /\ (snd (RoleCheck.requireAdmin req) = NextOk -> snd (RoleCheck.requireEditor req) = NextOk)
  /\ (snd (RoleCheck.requireEditor req) = NextOk -> snd (RoleCheck.requireAuthor req) = NextOk)
  /\ fst (RoleCheck.requireRole allowed req) = req
  /\ (Request.user req = None ->
      exists msg, snd (RoleCheck.requireRole allowed req)
                  = NextError (ThrowApi (mkApiError 401 msg)))
  /\ (forall user, Request.user req = Some user -> AuthUser.role user ∉ allowed ->
      exists msg, snd (RoleCheck.requireRole allowed req)
                  = NextError (ThrowApi (mkApiError 403 msg))).
Proof.
  intros Hsub.
  assert (Hmono : forall l l', l ⊆ l' ->
             snd (RoleCheck.requireRole l req) = NextOk ->
             snd (RoleCheck.requireRole l' req) = NextOk).
  { intros l l' Hl (user & Hu & Hrole)%requireRole_passes.
    apply requireRole_passes. exists user. split; [done | by apply Hl]. }
  split_and!.
  - by apply Hmono.
  - apply Hmono. apply list_subseteq_skip, list_subseteq_nil.
  - apply Hmono. do 2 apply list_subseteq_skip. apply list_subseteq_nil.
  - unfold RoleCheck.requireRole. destruct (Request.user req); [| done].
    by destruct (negb _).
  - unfold RoleCheck.requireRole. intros ->. cbn. eauto.
  - unfold RoleCheck.requireRole. intros user -> Hno. cbn.
    destruct (existsb _ _) eqn:Hin; cbn; [| eauto].
    by apply includes_elem in Hin.
Qed.

Lemma requireRole_monotone_witness :
  snd (RoleCheck.requireRole ["ADMIN"; "EDITOR"]
         (Request.mk None (Some (Auth.selectUser Sample.bob)))) = NextOk.
Proof.
  destruct (requireRole_monotone ["EDITOR"] ["ADMIN"; "EDITOR"]
              (Request.mk None (Some (Auth.selectUser Sample.bob)))) as (H & _).
  - apply list_subseteq_cons. done.
  - apply H. reflexivity.
Defined.

End TokenClaimsProps.

(** ** Accounts: deactivation and roles take effect at once *)

Section AccountProps.
Variable verifyToken : string -> option JwtPayload.t.

Local Abbreviation bearsTokenOf := (Bearing.tokenOf verifyToken).

Lemma authenticate_found (db : Db.t) (id : Z) (u : User.t) (req : Request.t) :
  bearsTokenOf id req ->
  Db.users db !! id = Some u ->
  Auth.authenticate verifyToken db req
  = if User.isActive u
    then (Request.attach req (Auth.selectUser u), NextOk)
    else (req, NextError (ThrowApi (mkApiError 403 "Your account has been deactivated."))).
Proof.
  intros (h & decoded & Hh & Hp & Hv & <-) Hu.
  unfold Auth.authenticate, Auth.authenticateBody.
  rewrite Hh, hasBearer_prefix, Hp. cbn [negb]. change (default "" (Some h)) with h.
  rewrite Hv, Hu. by destruct (User.isActive u).
Qed.

(** X13. Deactivating a user takes effect on the tokens already out:
    after [deactivateUser] every request bearing a token of that user is
    turned away with 403, requests of other users are treated as before,
    and after [activateUser] the same token authenticates again, as the
    same user but for [isActive] and the time of the last update.  On an
    id that is not in the table both calls throw P2025 and write
    nothing. *)
Theorem deactivation_takes_effect (db : Db.t) (id : Z) (now later : Z) :
  (Db.users db !! id = None ->
   UserService.deactivateUser id now db = (Err (ThrowPrisma "P2025"), db)
   /\ UserService.activateUser id now db = (Err (ThrowPrisma "P2025"), db))
  /\ (forall u, Db.users db !! id = Some u ->
      exists db1 db2,
        UserService.deactivateUser id now db = (Ok "User deactivated successfully", db1)
        /\ UserService.activateUser id later db1 = (Ok "User activated successfully", db2)
        /\ (forall req, bearsTokenOf id req ->
              Outcome.rejected 403 (Auth.authenticate verifyToken db1 req) req)
        /\ (forall req, bearsTokenOf id req ->
              Auth.authenticate verifyToken db2 req
              = (Request.attach req
                   (AuthUser.mk (User.id u) (User.email u) (User.name u) (User.role u)
                      (User.avatarUrl u) (User.bio u) true (User.createdAt u) later),
                 NextOk))
        /\ (forall req other, bearsTokenOf other req -> other <> id ->
              Auth.authenticate verifyToken db1 req = Auth.authenticate verifyToken db req)
        /\ Db.users db1 !! id
           = Some (User.mk (User.id u) (User.email u) (User.password u) (User.name u)
                     (User.role u) (User.avatarUrl u) (User.bio u) false
                     (User.createdAt u) now)
        /\ Db.articles db1 = Db.articles db
        /\ Db.comments db1 = Db.comments db).
Proof.
  unfold UserService.deactivateUser, UserService.activateUser, UserService.updateRow. split.
  - by intros ->.
  - intros u Hu. rewrite Hu. eexists _, _. split; [reflexivity |]. cbn.
    rewrite lookup_insert_eq. split; [reflexivity |]. split_and!; try done.
    + intros req Hreq. unfold Outcome.rejected.
      rewrite (authenticate_found _ id
                 (UserService.setActive false now u) req Hreq)
        by (cbn; apply lookup_insert_eq).
      cbn. eauto.
    + intros req Hreq.
      erewrite (authenticate_found _ id _ req Hreq) by (cbn; apply lookup_insert_eq).
      done.
    + intros req other (h & decoded & Hh & Hp & Hv & <-) Hother.
      unfold Auth.authenticate, Auth.authenticateBody.
      rewrite Hh, hasBearer_prefix, Hp. cbn [negb]. change (default "" (Some h)) with h.
      rewrite Hv. cbn. by rewrite lookup_insert_ne.
Qed.

(** X14. A change of role takes effect on the tokens already out: after
    [changeUserRole], which returns the row with the new role and the
    time of the update, a request bearing a token of that (active) user
    passes a role gate exactly when the new role is allowed, whatever
    role the token was issued for. *)
Theorem role_change_takes_effect
  (db : Db.t) (id : Z) (u : User.t) (role : string) (now : Z) (allowedRoles : list string)
  (req : Request.t) :
  Db.users db !! id = Some u ->
  User.isActive u = true ->
  bearsTokenOf id req ->
  exists db1,
    UserService.changeUserRole id role now db
    = (Ok (AuthUser.mk (User.id u) (User.email u) (User.name u) role
             (User.avatarUrl u) (User.bio u) (User.isActive u) (User.createdAt u) now), db1)
    /\ (snd (Route.guarded verifyToken db1 allowedRoles req) = NextOk <-> role ∈ allowedRoles).
Proof.
  intros Hu Ha Hreq.
  unfold UserService.changeUserRole, UserService.updateRow. rewrite Hu.
  eexists. split; [reflexivity |].
  unfold Route.guarded, Route.andThen.
  rewrite (authenticate_found _ id (UserService.setRole role now u) req Hreq)
    by (cbn; apply lookup_insert_eq).
  cbn. rewrite Ha. rewrite requireRole_passes. cbn. split.
  - by intros (x & [= <-] & Hrole).
  - intros Hrole. eexists. split; [reflexivity | done].
Qed.

End AccountProps.

(** Alice is deactivated at 200 and activated again at 300; her token
    follows. *)
Lemma deactivation_takes_effect_witness :
  exists db1 db2,
    UserService.deactivateUser 1 200 Sample.db0 = (Ok "User deactivated successfully", db1)
    /\ UserService.activateUser 1 300 db1 = (Ok "User activated successfully", db2)
    /\ Outcome.rejected 403
         (Auth.authenticate Sample.verifier db1 (Sample.bearing "Bearer tok-alice"))
         (Sample.bearing "Bearer tok-alice")
    /\ Auth.authenticate Sample.verifier db2 (Sample.bearing "Bearer tok-alice")
       = (Request.mk (Some "Bearer tok-alice")
            (Some (AuthUser.mk 1 "alice@example.com" "Alice" "AUTHOR" None None true 100 300)),
          NextOk).
Proof.
  destruct (deactivation_takes_effect Sample.verifier Sample.db0 1 200 300) as (_ & H).
  destruct (H Sample.alice eq_refl) as (db1 & db2 & Hd & Ha & Hoff & Hon & _).
  assert (Hreq : Bearing.tokenOf Sample.verifier 1 (Sample.bearing "Bearer tok-alice")).
  { exists "Bearer tok-alice", (JwtPayload.mk 1 "alice@example.com" "AUTHOR"). done. }
  exists db1, db2. split_and!; [done | done | by apply Hoff |].
  by rewrite (Hon _ Hreq).
Defined.

(** Alice is made an ADMIN at 200; the token that says AUTHOR now opens
    the admin gate. *)
Lemma role_change_takes_effect_witness :
  exists db1,
    UserService.changeUserRole 1 "ADMIN" 200 Sample.db0
    = (Ok (AuthUser.mk 1 "alice@example.com" "Alice" "ADMIN" None None true 100 200), db1)
    /\ snd (Route.guarded Sample.verifier db1 ["ADMIN"] (Sample.bearing "Bearer tok-alice"))
       = NextOk.
Proof.
  destruct (role_change_takes_effect Sample.verifier Sample.db0 1 Sample.alice "ADMIN" 200
              ["ADMIN"] (Sample.bearing "Bearer tok-alice") eq_refl eq_refl)
    as (db1 & Hch & Hgate).
  - exists "Bearer tok-alice", (JwtPayload.mk 1 "alice@example.com" "AUTHOR"). done.
  - exists db1. split; [done |]. apply Hgate. apply list_elem_of_here.
Defined.

(** ** Logging in and refreshing tokens *)

Section LoginProps.
Variable generateToken : JwtPayload.t -> string.
Variable generateRefreshToken : JwtPayload.t -> string.
Variable verifyRefreshToken : string -> option JwtPayload.t.
Variable verifyPassword : string -> string -> bool.
Variable verifyToken : string -> option JwtPayload.t.

Local Abbreviation login :=
  (AuthController.login generateToken generateRefreshToken verifyPassword).
Local Abbreviation refreshToken :=
  (AuthController.refreshToken generateToken generateRefreshToken verifyRefreshToken).

Lemma getUserByEmail_Some (email : string) (db : Db.t) (u : User.t) :
  UserService.getUserByEmail email db = Some u ->
  User.email u = email /\ exists k, Db.users db !! k = Some u.
Proof.
  unfold UserService.getUserByEmail. intros [Hin Heq]%find_some.
  apply String.eqb_eq in Heq. split; [done |].
  apply list_elem_of_In, list_elem_of_fmap in Hin as ([k u'] & -> & H%elem_of_map_to_list).
  eauto.
Qed.

Lemma getUserByEmail_None (email : string) (db : Db.t) :
  UserService.getUserByEmail email db = None ->
  forall k u, Db.users db !! k = Some u -> User.email u <> email.
Proof.
  unfold UserService.getUserByEmail. intros Hnone k u Hu Heq.
  assert (Hin : In u (map_to_list (Db.users db)).*2).
  { apply list_elem_of_In, list_elem_of_fmap. exists (k, u).
    split; [done | by apply elem_of_map_to_list]. }
  apply (find_none _ _ Hnone) in Hin. apply String.eqb_neq in Hin. done.
Qed.

(** X15. [login] issues tokens only to a stored, active user whose
    password verifies, and the tokens carry the id, e-mail and role of the
    database row.  An unknown e-mail and a wrong password get the very
    same 401; an inactive account gets 403 whatever the password. *)
Theorem login_outcomes (email password : string) (db : Db.t) :
  (forall data, login email password db = Ok data ->
     exists k u,
       Db.users db !! k = Some u
       /\ User.email u = email
       /\ User.isActive u = true
       /\ verifyPassword password (User.password u) = true
       /\ LoginData.user data = Auth.selectUser u
       /\ LoginData.accessToken data
          = generateToken (JwtPayload.mk (User.id u) (User.email u) (User.role u))
       /\ LoginData.refreshToken data
          = generateRefreshToken (JwtPayload.mk (User.id u) (User.email u) (User.role u)))
  /\ (UserService.getUserByEmail email db = None ->
      login email password db = throwApi 401 "Invalid email or password")
  /\ (forall u, UserService.getUserByEmail email db = Some u ->
      (User.isActive u = false ->
       login email password db = throwApi 403 "Your account has been deactivated")
      /\ (User.isActive u = true ->
          verifyPassword password (User.password u) = false ->
          login email password db = throwApi 401 "Invalid email or password")
      /\ (User.isActive u = true ->
          verifyPassword password (User.password u) = true ->
          exists data, login email password db = Ok data)).
Proof.
  unfold AuthController.login. split_and!.
  - intros data.
    destruct (UserService.getUserByEmail email db) as [u|] eqn:Hu; [| done].
    destruct (User.isActive u) eqn:Ha; [| done]. cbn [negb].
    destruct (verifyPassword password (User.password u)) eqn:Hpw; [| done]. cbn [negb].
    intros [= <-]. apply getUserByEmail_Some in Hu as [Hemail [k Hk]].
    exists k, u. split_and!; done.
  - by intros ->.
  - intros u ->. split_and!.
    + by intros ->.
    + by intros -> ->.
    + intros -> ->. cbn. eauto.
Qed.

(** X16. [refreshToken] answers 400 to a missing or empty token and the
    same 401 to every other failure (a token that does not verify, a user
    that is gone).  It hands out a new pair of tokens whenever the refresh
    token verifies and its user is stored, with the e-mail and role of
    the database row, and it does so whether or not the user is
    active. *)
Theorem refreshToken_outcomes (body : option string) (db : Db.t) :
  (truthy_str body = false -> refreshToken body db = throwApi 400 "Refresh token is required")
  /\ (forall token, body = Some token -> token <> "" ->
      (verifyRefreshToken token = None ->
       refreshToken body db = throwApi 401 "Invalid or expired refresh token")
      /\ (forall payload,
            verifyRefreshToken token = Some payload ->
            (Db.users db !! JwtPayload.userId payload = None ->
             refreshToken body db = throwApi 401 "Invalid or expired refresh token")
            /\ (forall u active,
                  Db.users db !! JwtPayload.userId payload = Some u ->
                  User.isActive u = active ->
                  refreshToken body db
                  = Ok (TokenPair.mk
                          (generateToken
                             (JwtPayload.mk (User.id u) (User.email u) (User.role u)))
                          (generateRefreshToken
                             (JwtPayload.mk (User.id u) (User.email u) (User.role u))))))).
Proof.
  unfold AuthController.refreshToken, AuthController.refreshAttempt, UserService.getUserById.
  split.
  - by intros ->.
  - intros token -> Hne.
    assert (truthy_str (Some token) = true) as ->.
    { cbn. by destruct (String.eqb_spec token ""). }
    cbn [negb default from_option id]. split.
    + by intros ->.
    + intros payload ->. split.
      * by intros ->.
      * by intros u active -> _.
Qed.

Lemma substring_all (s : string) : String.substring 0 (String.length s) s = s.
Proof. induction s as [|a s IH]; [done |]. cbn. by rewrite IH. Qed.

Lemma tokenOf_bearer (token : string) : Auth.tokenOf ("Bearer " +:+ token) = token.
Proof.
  unfold Auth.tokenOf, append. simpl. rewrite Nat.sub_0_r. apply substring_all.
Qed.

Lemma bearer_prefix (token : string) : String.prefix "Bearer " ("Bearer " +:+ token) = true.
Proof. unfold append. simpl. by destruct token. Qed.

(** X17. Round trip of a token: provided the codec accepts what it has
    signed and the keys of the user table are the users' ids, the access
    token that [login] returns authenticates, on the same database, as
    the very user that [login] returned.  A token pair obtained through
    [refreshToken] by a user who is not active does not: its access
    token is turned away with 403. *)
Theorem issued_token_authenticates (db : Db.t) :
  Bearing.keyed db ->
  (forall k u, Db.users db !! k = Some u ->
     verifyToken (generateToken (JwtPayload.mk (User.id u) (User.email u) (User.role u)))
     = Some (JwtPayload.mk (User.id u) (User.email u) (User.role u))) ->
  (forall email password data,
      login email password db = Ok data ->
      Auth.authenticate verifyToken db
        (Request.mk (Some ("Bearer " +:+ LoginData.accessToken data)) None)
      = (Request.mk (Some ("Bearer " +:+ LoginData.accessToken data))
           (Some (LoginData.user data)), NextOk))
  /\ (forall token payload u tokens,
        verifyRefreshToken token = Some payload ->
        Db.users db !! JwtPayload.userId payload = Some u ->
        User.isActive u = false ->
        refreshToken (Some token) db = Ok tokens ->
        Outcome.rejected 403
          (Auth.authenticate verifyToken db
             (Request.mk (Some ("Bearer " +:+ TokenPair.accessToken tokens)) None))
          (Request.mk (Some ("Bearer " +:+ TokenPair.accessToken tokens)) None)).
Proof.
  intros Hkeyed Hcodec. split.
  - intros email password data Hlogin.
    destruct (login_outcomes email password db) as (Hok & _).
    destruct (Hok data Hlogin) as (k & u & Hu & _ & Ha & _ & Huser & Htok & _).
    apply Hkeyed in Hu as Hk. subst k.
    unfold Auth.authenticate, Auth.authenticateBody. cbn [Request.authorization].
    rewrite hasBearer_prefix, bearer_prefix. cbn [negb].
    change (default "" (Some ?h)) with h.
    rewrite tokenOf_bearer, Htok, (Hcodec _ _ Hu). cbn [JwtPayload.userId].
    rewrite Hu, Ha. cbn [negb]. unfold Request.attach. cbn. by rewrite Huser.
  - intros token payload u tokens Hv Hu Ha.
    unfold AuthController.refreshToken, AuthController.refreshAttempt, UserService.getUserById.
    destruct (truthy_str (Some token)); cbn [negb]; [| done].
    cbn [default from_option id]. rewrite Hv, Hu. intros [= <-].
    unfold Outcome.rejected, Auth.authenticate, Auth.authenticateBody.
    cbn [Request.authorization TokenPair.accessToken].
    rewrite hasBearer_prefix, bearer_prefix. cbn [negb].
    change (default "" (Some ?h)) with h.
    rewrite tokenOf_bearer.
    change (AuthController.claimsOf (Auth.selectUser u))
      with (JwtPayload.mk (User.id u) (User.email u) (User.role u)).
    rewrite (Hcodec _ _ Hu). cbn [JwtPayload.userId].
    apply Hkeyed in Hu as Hk. rewrite Hk, Hu, Ha. cbn. eauto.
Qed.


End LoginProps.

Lemma issued_token_authenticates_witness :
  Auth.authenticate Sample.verifier Sample.db0 (Sample.bearing "Bearer tok-alice")
  = (Request.mk (Some "Bearer tok-alice") (Some (Auth.selectUser Sample.alice)), NextOk)
  /\ Outcome.rejected 403
       (Auth.authenticate Sample.verifier Sample.db0 (Sample.bearing "Bearer tok-bob"))
       (Sample.bearing "Bearer tok-bob").
Proof.
  assert (Hkeyed : Bearing.keyed Sample.db0).
  { intros k u. unfold Sample.db0, Sample.users. cbn.
    intros [[<- <-]|[_ [[<- <-]|[_ H]]%lookup_insert_Some]]%lookup_insert_Some; done. }
  assert (Hcodec : forall k u, Db.users Sample.db0 !! k = Some u ->
            Sample.verifier
              (Credentials.signer (JwtPayload.mk (User.id u) (User.email u) (User.role u)))
            = Some (JwtPayload.mk (User.id u) (User.email u) (User.role u))).
  { intros k u. unfold Sample.db0, Sample.users. cbn.
    intros [[<- <-]|[_ [[<- <-]|[_ H]]%lookup_insert_Some]]%lookup_insert_Some; done. }
  destruct (issued_token_authenticates Credentials.signer Credentials.signer
              Sample.verifier Credentials.checker Sample.verifier
              Sample.db0 Hkeyed Hcodec) as [Hlogin Hrefresh].
  split.
  - exact (Hlogin "alice@example.com" "a"
             (LoginData.mk (Auth.selectUser Sample.alice) "tok-alice" "tok-alice") eq_refl).
  - exact (Hrefresh "tok-bob" (JwtPayload.mk 2 "bob@example.com" "EDITOR") Sample.bob
             (TokenPair.mk "tok-bob" "tok-bob") eq_refl eq_refl eq_refl eq_refl).
Defined.

(** ** Article slugs *)

Section ArticleSlugProps.
Variable generateSlug : string -> string.

Local Abbreviation cand := (Slugify.candidate generateSlug).
Local Abbreviation run := (System.run generateSlug).
Local Abbreviation history := (System.history generateSlug).

Lemma show_nat_inj (a b : nat) : show_nat a = show_nat b -> a = b.
Proof.
  unfold show_nat. intros H.
  assert (Hnil : forall n, Nat.to_uint n <> Decimal.Nil).
  { intros n Hn. pose proof (DecimalNat.Unsigned.of_to n) as Hof.
    rewrite Hn in Hof. cbn in Hof. subst n. vm_compute in Hn. discriminate. }
  apply DecimalNat.Unsigned.to_uint_inj.
  pose proof (NilZero.usu _ (Hnil a)) as Ha. pose proof (NilZero.usu _ (Hnil b)) as Hb.
  rewrite H in Ha. rewrite Ha in Hb. by injection Hb.
Qed.

Lemma append_empty (s : string) : s +:+ "" = s.
Proof.
  induction s as [|c s IH]; [done |].
  change (String c (s +:+ "") = String c s). by rewrite IH.
Qed.

(** The candidates of one text are pairwise different. *)
Lemma candidate_inj (text : string) (i j : nat) : cand text i = cand text j -> i = j.
Proof.
  destruct i as [|i], j as [|j]; cbn; unfold Slugify.suffixed; intros H; [done | | |].
  - rewrite <- (append_empty (generateSlug text)) in H at 1.
    apply String.app_inj in H. done.
  - rewrite <- (append_empty (generateSlug text)) in H at 2.
    apply String.app_inj in H. done.
  - apply String.app_inj in H. apply (String.app_inj "-") in H. by apply show_nat_inj.
Qed.

(** A check that only reads the state runs the loop of a pure check. *)
Lemma uniqueSlugLoop_pure {St} (check : string -> St -> bool * St) (P : string -> bool)
  (st : St) (text : string) :
  (forall slug, check slug st = (P slug, st)) ->
  forall fuel slug counter,
    Slugify.uniqueSlugLoop generateSlug check fuel text slug counter st
    = (fun r => (r.1, st))
        <$> Slugify.uniqueSlugLoop generateSlug (Slugify.purely P) fuel text slug counter tt.
Proof.
  intros Hcheck. induction fuel as [|fuel IH]; intros slug counter; [done |].
  rewrite uniqueSlugLoop_step. cbn [Slugify.uniqueSlugLoop]. rewrite Hcheck.
  destruct (P slug); [apply IH | done].
Qed.

Lemma findBySlug_Some (db : Db.t) (slug : string) (a : Article.t) :
  ArticleService.findBySlug db slug = Some a ->
  Article.slug a = slug /\ exists k, Db.articles db !! k = Some a.
Proof.
  unfold ArticleService.findBySlug. intros [Hin Heq]%find_some.
  apply String.eqb_eq in Heq. split; [done |].
  apply list_elem_of_In, list_elem_of_fmap in Hin as ([k a'] & -> & H%elem_of_map_to_list).
  eauto.
Qed.

Lemma findBySlug_None (db : Db.t) (slug : string) :
  ArticleService.findBySlug db slug = None <-> ~ Slugs.used db slug.
Proof.
  unfold ArticleService.findBySlug, Slugs.used. split.
  - intros Hnone (k & a & Ha & Heq).
    assert (Hin : In a (Db.articleRows db)).
    { apply list_elem_of_In, list_elem_of_fmap. exists (k, a).
      split; [done | by apply elem_of_map_to_list]. }
    apply (find_none _ _ Hnone) in Hin. apply String.eqb_neq in Hin. done.
  - intros Hfree. destruct (find _ _) as [a|] eqn:Hfind; [| done].
    apply findBySlug_Some in Hfind as [Heq [k Hk]]. destruct Hfree. eauto.
Qed.

Lemma slugTaken_spec (db : Db.t) (slug : string) :
  bool_decide (is_Some (ArticleService.findBySlug db slug)) = true <-> Slugs.used db slug.
Proof.
  rewrite bool_decide_eq_true. split.
  - intros [a [Heq [k Hk]]%findBySlug_Some]. exists k, a. done.
  - intros Hused. destruct (ArticleService.findBySlug db slug) eqn:Hfind; [done |].
    apply findBySlug_None in Hfind. done.
Qed.

(** Writing a row whose slug no other row has keeps the slugs unique. *)
Lemma unique_insert (db : Db.t) (id next : Z) (a : Article.t) :
  Slugs.unique db ->
  (forall k b, Db.articles db !! k = Some b -> k <> id -> Article.slug b <> Article.slug a) ->
  Slugs.unique (Db.withArticles db (<[id := a]> (Db.articles db)) next).
Proof.
  intros Huniq Hother i j x y. cbn.
  rewrite !lookup_insert_Some.
  intros [[<- <-]|[Hi Hx]] [[<- <-]|[Hj Hy]] Heq; [done | | | by eapply Huniq].
  - by destruct (Hother _ _ Hy).
  - by destruct (Hother _ _ Hx).
Qed.

Lemma unique_same_slug (db : Db.t) (id next : Z) (a a' : Article.t) :
  Slugs.unique db ->
  Db.articles db !! id = Some a ->
  Article.slug a' = Article.slug a ->
  Slugs.unique (Db.withArticles db (<[id := a']> (Db.articles db)) next).
Proof.
  intros Huniq Ha Hslug. apply unique_insert; [done |].
  intros k b Hb Hk Heq. apply Hk. eapply Huniq; [done.. |]. congruence.
Qed.

(** The slug of a created article was free. *)
Lemma createArticle_slug fuel data authorId now db a db' :
  ArticleService.createArticle generateSlug fuel data authorId now db = Some (Ok a, db') ->
  ~ Slugs.used db (Article.slug a)
  /\ db' = Db.withArticles db (<[Db.nextArticleId db := a]> (Db.articles db))
             (Db.nextArticleId db + 1).
Proof.
  unfold ArticleService.createArticle, Slugify.generateUniqueSlug.
  rewrite (uniqueSlugLoop_pure (ArticleService.slugTaken)
             (fun s => bool_decide (is_Some (ArticleService.findBySlug db s))) db)
    by done.
  destruct (Slugify.uniqueSlugLoop _ _ _ _ _ _ _) as [[slug []]|] eqn:Hloop; [| done].
  apply uniqueSlugLoop_free in Hloop. cbn.
  destruct (_ && _); [done |]. destruct (_ || _); [done |].
  destruct (negb (Schema.allIn _ _)); [done |].
  intros [= <- <-]. cbn. split; [| done].
  rewrite <- slugTaken_spec. by rewrite Hloop.
Qed.

(** An updated article keeps its slug or gets one that no other article has. *)
Lemma updateArticle_slug fuel id data userId userRole now db a db' :
  ArticleService.updateArticle generateSlug fuel id data userId userRole now db
  = Some (Ok a, db') ->
  exists existingArticle,
    Db.articles db !! id = Some existingArticle
    /\ db' = Db.withArticles db (<[id := a]> (Db.articles db)) (Db.nextArticleId db)
    /\ (Article.slug a = Article.slug existingArticle
        \/ (ArticleService.slugTakenByOther id (Article.slug a) db).1 = false).
Proof.
  unfold ArticleService.updateArticle.
  destruct (Db.articles db !! id) as [existingArticle|] eqn:Ha; [| done].
  destruct (_ && _); [done |].
  destruct (_ && _).
  - unfold Slugify.generateUniqueSlug.
    rewrite (uniqueSlugLoop_pure (ArticleService.slugTakenByOther id)
               (fun s => (ArticleService.slugTakenByOther id s db).1) db) by done.
    destruct (Slugify.uniqueSlugLoop _ _ _ _ _ _ _) as [[slug []]|] eqn:Hloop; [| done].
    apply uniqueSlugLoop_free in Hloop. cbn [fmap option_fmap option_map fst].
    destruct (negb (Schema.memberOf _ _)); [done |].
    destruct (negb (Schema.allIn _ _)); [done |].
    unfold ArticleService.updateRow. rewrite Ha. intros [= <- <-].
    exists existingArticle. split_and!; [done.. |]. right. exact Hloop.
  - destruct (negb (Schema.memberOf _ _)); [done |].
    destruct (negb (Schema.allIn _ _)); [done |].
    unfold ArticleService.updateRow. rewrite Ha. intros [= <- <-].
    exists existingArticle. split_and!; [done.. |]. by left.
Qed.

(** Every call keeps the slugs of the [article] table unique. *)
Lemma run_unique (op : System.Op) (db db' : Db.t) :
  run op db = Some db' -> Wf.articles db -> Slugs.unique db -> Slugs.unique db'.
Proof.
  intros Hrun [Hnext Hwf] Huniq. destruct op; cbn in Hrun.
  - destruct (ArticleService.createArticle _ _ _ _ _ _) as [[[a|t] db1]|] eqn:H;
      cbn in Hrun; simplify_eq.
    + apply createArticle_slug in H as [Hfree ->].
      apply unique_insert; [done |]. intros k b Hb _ Heq. apply Hfree. by exists k, b.
    + apply createArticle_inv in H as [[_ ->] | (slug & ? & _)]; done.
  - destruct (ArticleService.updateArticle _ _ _ _ _ _ _ _) as [[[a|t] db1]|] eqn:H;
      cbn in Hrun; simplify_eq.
    + apply updateArticle_slug in H as (existing & Hex & -> & [Hkeep | Hnew]).
      * by eapply unique_same_slug.
      * apply unique_insert; [done |]. intros k b Hb Hk Heq. apply Hk.
        unfold ArticleService.slugTakenByOther in Hnew. cbn in Hnew.
        destruct (ArticleService.findBySlug db (Article.slug a)) as [e|] eqn:Hfind.
        -- apply findBySlug_Some in Hfind as [Hslug [ke Hke]].
           apply negb_false_iff, Z.eqb_eq in Hnew.
           destruct (Hwf _ _ Hke) as [_ Hid].
           rewrite <- Hnew, Hid. eapply Huniq; [done.. |]. congruence.
        -- apply findBySlug_None in Hfind. destruct Hfind. by exists k, b.
    + apply updateArticle_inv in H as [[_ ->] | (e & slug & _ & ? & _)]; done.
  - simplify_eq. unfold ArticleService.publishArticle, ArticleService.updateRow.
    destruct (Db.articles db !! id) as [a|] eqn:Ha; cbn; [| done].
    by eapply unique_same_slug.
  - simplify_eq. unfold ArticleService.archiveArticle, ArticleService.updateRow.
    destruct (Db.articles db !! id) as [a|] eqn:Ha; cbn; [| done].
    by eapply unique_same_slug.
  - simplify_eq. unfold CommentService.createComment.
    destruct (Db.articles db !! _); [| done].
    destruct (CommentService.checkParent _ _); [done |].
    destruct (_ && _); [done |]. destruct (_ || _); done.
  - simplify_eq. unfold CommentService.updateComment, CommentService.updateRow.
    destruct (Db.comments db !! id); [| done]. destruct (_ && _); done.
  - simplify_eq. unfold CommentService.approveComment, CommentService.updateRow.
    destruct (Db.comments db !! id); done.
  - simplify_eq. unfold CommentService.rejectComment, CommentService.updateRow.
    destruct (Db.comments db !! id); done.
  - simplify_eq. unfold CommentService.markAsSpam, CommentService.updateRow.
    destruct (Db.comments db !! id); done.
  - simplify_eq. unfold CommentService.deleteComment.
    destruct (Db.comments db !! id); [| done].
    destruct (_ && _); [done |]. destruct (0 <? _)%nat; done.
Qed.

(** X18. Slugs stay unique: in every database of a history (one that
    starts with no article and goes through any calls of the article and
    comment services), no two articles have the same slug, so that
    [findBySlug] finds an article by its own slug. *)
Theorem article_slugs_unique (h : list Db.t) :
  history h ->
  forall d, d ∈ h ->
    Slugs.unique d
    /\ forall k a, Db.articles d !! k = Some a ->
         ArticleService.findBySlug d (Article.slug a) = Some a.
Proof.
  intros Hh.
  assert (Hhead : forall db past, history (db :: past) -> Slugs.unique db).
  { clear h Hh. intros db past. remember (db :: past) as h eqn:Heq. intros Hh.
    revert db past Heq.
    induction Hh as [us cats tgs | op db0 db1 past0 Hh IH Hrun]; intros db past [= <- <-].
    - intros i j a b. cbn. by rewrite lookup_empty.
    - eapply run_unique; [done | | by eapply IH].
      by destruct (history_wf generateSlug _ _ Hh). }
  intros d Hd. apply list_elem_of_split in Hd as (later & past & ->).
  apply history_suffix in Hh. pose proof (Hhead _ _ Hh) as Huniq.
  split; [done |]. intros k a Ha.
  destruct (ArticleService.findBySlug d (Article.slug a)) as [e|] eqn:Hfind.
  - apply findBySlug_Some in Hfind as [Hslug [ke Hke]].
    assert (ke = k) as -> by by eapply Huniq. congruence.
  - apply findBySlug_None in Hfind. destruct Hfind. by exists k, a.
Qed.

(** Among more candidates than there are articles, one is free. *)
Lemma free_candidate (db : Db.t) (text : string) :
  exists j, (j <= size (Db.articles db))%nat /\ ~ Slugs.used db (cand text j).
Proof.
  set (taken := fun s => bool_decide (is_Some (ArticleService.findBySlug db s)) = true).
  set (cands := cand text <$> seq 0 (S (size (Db.articles db)))).
  destruct (decide (Forall taken cands)) as [Hall | Hnot].
  - exfalso.
    assert (Hnodup : NoDup cands).
    { apply NoDup_fmap_2_strong; [| apply NoDup_seq].
      intros i j _ _. apply candidate_inj. }
    assert (Hsub : cands ⊆+ Article.slug <$> Db.articleRows db).
    { apply NoDup_submseteq; [done |]. intros s Hs.
      rewrite Forall_forall in Hall. apply Hall in Hs.
      apply slugTaken_spec in Hs as (k & a & Ha & <-).
      apply list_elem_of_fmap. exists a. split; [done |].
      apply list_elem_of_fmap. exists (k, a). split; [done | by apply elem_of_map_to_list]. }
    apply submseteq_length in Hsub. unfold cands, Db.articleRows in Hsub.
    rewrite !length_fmap, length_seq, length_map_to_list in Hsub. lia.
  - apply not_Forall_Exists in Hnot; [| tc_solve].
    apply Exists_exists in Hnot as (s & Hs & Hfree).
    apply list_elem_of_fmap in Hs as (j & -> & Hj). apply elem_of_seq in Hj.
    exists j. split; [lia |]. by rewrite <- slugTaken_spec.
Qed.

(** The loop of [createArticle] stops at the first candidate no article
    has, after at most one check per article and one more. *)
Lemma slugTaken_loop (fuel : nat) (text : string) (db : Db.t) :
  (size (Db.articles db) < fuel)%nat ->
  exists m,
    (m <= size (Db.articles db))%nat
    /\ Slugify.generateUniqueSlug generateSlug ArticleService.slugTaken fuel text db
       = Some (cand text m, db)
    /\ ~ Slugs.used db (cand text m)
    /\ forall j, (j < m)%nat -> Slugs.used db (cand text j).
Proof.
  intros Hfuel. destruct (free_candidate db text) as (j & Hj & Hfree).
  set (P := fun s => bool_decide (is_Some (ArticleService.findBySlug db s))).
  destruct (first_false (fun i => P (cand text i)) j) as (m & Hm & Hfreem & Htaken).
  { apply not_true_iff_false. unfold P. by rewrite slugTaken_spec. }
  exists m. split_and!.
  - lia.
  - unfold Slugify.generateUniqueSlug.
    rewrite (uniqueSlugLoop_pure ArticleService.slugTaken P db) by done.
    pose proof (uniqueSlugLoop_walk generateSlug P text m 0 fuel) as Hwalk.
    cbn [Slugify.candidate Nat.add] in Hwalk.
    rewrite Hwalk; [done | | done | lia].
    intros i Hi. apply Htaken. lia.
  - rewrite <- slugTaken_spec. fold (P (cand text m)). by rewrite Hfreem.
  - intros i Hi. apply slugTaken_spec. by apply Htaken.
Qed.

Lemma slugTakenByOther_loop (fuel : nat) (id : Z) (text : string) (db : Db.t) :
  (size (Db.articles db) < fuel)%nat ->
  exists slug,
    Slugify.generateUniqueSlug generateSlug (ArticleService.slugTakenByOther id) fuel text db
    = Some (slug, db).
Proof.
  intros Hfuel. destruct (free_candidate db text) as (j & Hj & Hfree).
  set (P := fun s => (ArticleService.slugTakenByOther id s db).1).
  destruct (first_false (fun i => P (cand text i)) j) as (m & Hm & Hfreem & Htaken).
  { unfold P, ArticleService.slugTakenByOther. cbn.
    apply findBySlug_None in Hfree. by rewrite Hfree. }
  exists (cand text m). unfold Slugify.generateUniqueSlug.
  rewrite (uniqueSlugLoop_pure (ArticleService.slugTakenByOther id) P db) by done.
  pose proof (uniqueSlugLoop_walk generateSlug P text m 0 fuel) as Hwalk.
  cbn [Slugify.candidate Nat.add] in Hwalk.
  rewrite Hwalk; [done | | done | lia].
  intros i Hi. apply Htaken. lia.
Qed.

(** X19. The slug loops return.  Given room for one check more than
    there are articles, [createArticle] returns, and the slug it settles
    on is the first candidate of the title ([slugify(title)],
    [slugify(title)-1], ...) that no article has; [updateArticle]
    returns as well. *)
Theorem article_slug_loops_return (fuel : nat) (db : Db.t) :
  (size (Db.articles db) < fuel)%nat ->
  (forall data authorId now,
      exists m r db',
        (m <= size (Db.articles db))%nat
        /\ ArticleService.createArticle generateSlug fuel data authorId now db = Some (r, db')
        /\ ~ Slugs.used db (cand (CreateArticleRequest.title data) m)
        /\ (forall j, (j < m)%nat -> Slugs.used db (cand (CreateArticleRequest.title data) j))
        /\ (forall a, r = Ok a -> Article.slug a = cand (CreateArticleRequest.title data) m))
  /\ (forall id data userId userRole now,
        is_Some (ArticleService.updateArticle generateSlug fuel id data userId userRole now db)).
Proof.
  intros Hfuel. split.
  - intros data authorId now.
    destruct (slugTaken_loop fuel (CreateArticleRequest.title data) db Hfuel)
      as (m & Hm & Hloop & Hfree & Htaken).
    unfold ArticleService.createArticle. rewrite Hloop.
    destruct (_ && _);
      [eexists m, _, _; (split_and!; [lia | reflexivity | done | done | done]) |].
    destruct (_ || _);
      [eexists m, _, _; (split_and!; [lia | reflexivity | done | done | done]) |].
    destruct (negb (Schema.allIn _ _));
      eexists m, _, _; (split_and!; [lia | reflexivity | done | done |]).
    + done.
    + by intros a [= <-].
  - intros id data userId userRole now. unfold ArticleService.updateArticle.
    destruct (Db.articles db !! id) as [existingArticle|]; [| done].
    destruct (_ && _); [done |].
    assert (Hrefs : forall slug,
               is_Some (if negb (Schema.memberOf (Db.categories db)
                                   (UpdateArticleRequest.categoryId data))
                        then Some (Err (ThrowPrisma "P2003"), db)
                        else if negb (Schema.allIn (Db.tags db)
                                        (default [] (UpdateArticleRequest.tagIds data)))
                        then Some (Err (ThrowPrisma "P2025"), db)
                        else Some (ArticleService.updateRow id
                                     (fun _ => ArticleService.applyUpdate data slug now
                                                 existingArticle) db))).
    { intros slug. destruct (negb (Schema.memberOf _ _)); [done |].
      destruct (negb (Schema.allIn _ _)); done. }
    destruct (_ && _); [| apply Hrefs].
    destruct (slugTakenByOther_loop fuel id (default "" (UpdateArticleRequest.title data))
                db Hfuel) as [slug ->].
    apply Hrefs.
Qed.

End ArticleSlugProps.

Lemma article_slugs_unique_witness : Slugs.unique Sample.twoArticlesDb.
Proof.
  destruct (article_slugs_unique Sample.slugger Sample.twoArticlesHistory
              sample_two_articles_history Sample.twoArticlesDb) as [H _]; [| exact H].
  exact (list_elem_of_here Sample.twoArticlesDb (drop 1 Sample.twoArticlesHistory)).
Defined.

Lemma article_slug_loops_return_witness :
  exists db',
    ArticleService.createArticle Sample.slugger 3
      (CreateArticleRequest.mk "world" "again" None None 7 None None) 1 60
      Sample.twoArticlesDb
    = Some (Ok (Article.mk 3 "world" "world-1" "again" None None 1 (Some 7)
                  ArticleStatus.DRAFT 0 None [] 60), db').
Proof.
  assert (Hfuel : (size (Db.articles Sample.twoArticlesDb) < 3)%nat) by (vm_compute; lia).
  destruct (article_slug_loops_return Sample.slugger 3 Sample.twoArticlesDb Hfuel)
    as [Hcreate _].
  destruct (Hcreate (CreateArticleRequest.mk "world" "again" None None 7 None None) 1 60)
    as (m & r & db' & _ & Hrun & _).
  exists db'. rewrite Hrun. vm_compute in Hrun. by injection Hrun as <- <-.
Defined.

(** ** Reading an article by its slug *)

Section ArticleReadProps.

Lemma findBySlug_keyed (db : Db.t) (slug : string) (a : Article.t) :
  Wf.articles db ->
  ArticleService.findBySlug db slug = Some a ->
  Db.articles db !! Article.id a = Some a.
Proof.
  intros [_ Hwf] [_ [k Hk]]%findBySlug_Some. destruct (Hwf _ _ Hk) as [_ ->]. done.
Qed.

(** X20. [GET /api/articles/:slug].  A reader who is signed in gets the
    article whatever its status, and the database is left as it is.  An
    anonymous reader gets the same 404 for a missing article and for one
    that is not PUBLISHED, again with the database untouched; for a
    PUBLISHED article the view count of that row, and nothing else, goes
    up by one, while the response still carries the row as it was read,
    with the count before the increment.  When the count has reached the
    largest [Int] the increment is refused and the read fails with P2020,
    nothing written. *)
Theorem getArticleBySlug_views (req : Request.t) (slug : string) (db : Db.t) :
  Wf.articles db ->
  (slug = "" ->
   ArticleController.getArticleBySlug req slug db = (throwApi 400 "Slug is required", db))
  /\ (slug <> "" ->
      (ArticleService.findBySlug db slug = None ->
       ArticleController.getArticleBySlug req slug db
       = (throwApi 404 "Article not found", db))
      /\ (forall a,
            ArticleService.findBySlug db slug = Some a ->
            (is_Some (Request.user req) ->
             ArticleController.getArticleBySlug req slug db = (Ok a, db))
            /\ (Request.user req = None ->
                Article.status a <> ArticleStatus.PUBLISHED ->
                ArticleController.getArticleBySlug req slug db
                = (throwApi 404 "Article not found", db))
            /\ (Request.user req = None ->
                Article.status a = ArticleStatus.PUBLISHED ->
                Article.viewCount a < Schema.maxInt ->
                ArticleController.getArticleBySlug req slug db
                = (Ok a,
                   Db.withArticles db
                     (<[Article.id a :=
                          Article.mk (Article.id a) (Article.title a) (Article.slug a)
                            (Article.content a) (Article.excerpt a)
                            (Article.featuredImage a) (Article.authorId a)
                            (Article.categoryId a) (Article.status a)
                            (Article.viewCount a + 1) (Article.publishedAt a)
                            (Article.tagIds a) (Article.createdAt a)]> (Db.articles db))
                     (Db.nextArticleId db)))
            /\ (Request.user req = None ->
                Article.status a = ArticleStatus.PUBLISHED ->
                Schema.maxInt <= Article.viewCount a ->
                ArticleController.getArticleBySlug req slug db
                = (Err (ThrowPrisma "P2020"), db)))).
Proof.
  intros Hwf. split; [by intros -> |]. intros Hne.
  unfold ArticleController.getArticleBySlug, ArticleReads.getArticleBySlug.
  destruct (String.eqb_spec slug "") as [? | _]; [done |]. split.
  - by intros ->.
  - intros a Hfind. rewrite Hfind. split_and!.
    + intros Huser. rewrite (bool_decide_eq_true_2 _ Huser). by cbn.
    + intros -> Hstatus. cbn. repeat case_bool_decide; done.
    + intros -> Hstatus Hcount. unfold ArticleService.updateRow.
      rewrite (findBySlug_keyed _ _ _ Hwf Hfind). cbn.
      destruct (Z.ltb_spec Schema.maxInt (Article.viewCount a + 1)); [lia |].
      repeat case_bool_decide; done.
    + intros -> Hstatus Hcount. cbn.
      destruct (Z.ltb_spec Schema.maxInt (Article.viewCount a + 1)); [| lia].
      repeat case_bool_decide; done.
Qed.

End ArticleReadProps.

Lemma getArticleBySlug_views_witness :
  ArticleController.getArticleBySlug (Request.mk None None) "hello" Sample.publishedDb
  = (Ok (Sample.article ArticleStatus.PUBLISHED (Some 20)),
     Db.withArticles Sample.publishedDb
       (<[1 := Article.mk 1 "hello" "hello" "body" None None 1 (Some 7)
                 ArticleStatus.PUBLISHED 1 (Some 20) [] 10]>
          (Db.articles Sample.publishedDb))
       (Db.nextArticleId Sample.publishedDb)).
Proof.
  assert (Hwf : Wf.articles Sample.publishedDb).
  { apply (history_wf Sample.slugger Sample.publishedDb (drop 2 Sample.articleHistory)).
    exact (history_suffix Sample.slugger (take 1 Sample.articleHistory) Sample.publishedDb
             (drop 2 Sample.articleHistory) sample_article_history). }
  destruct (getArticleBySlug_views (Request.mk None None) "hello" Sample.publishedDb Hwf)
    as [_ Hread].
  destruct (Hread ltac:(done)) as [_ Hfound].
  destruct (Hfound (Sample.article ArticleStatus.PUBLISHED (Some 20)) eq_refl)
    as (_ & _ & Hviews & _).
  exact (Hviews eq_refl eq_refl eq_refl).
Defined.

(** ** Changing a password *)

Section PasswordProps.
Variable hash : string -> string -> string.
Variable compare : string -> string -> bool.
Variable generateToken : JwtPayload.t -> string.
Variable generateRefreshToken : JwtPayload.t -> string.
Variable verifyToken : string -> option JwtPayload.t.

Local Abbreviation changePassword := (Passwords.changePassword hash compare).
Local Abbreviation login :=
  (AuthController.login generateToken generateRefreshToken compare).

(** Whether a request authenticates, and with which error it does not,
    depends neither on the stored hash nor on the time of the last
    update. *)
Lemma authenticate_setPassword (db : Db.t) (id : Z) (u : User.t) (hashed : string) (now : Z)
  (req : Request.t) :
  Db.users db !! id = Some u ->
  snd (Auth.authenticate verifyToken
         (UserService.withUsers db
            (<[id := Passwords.setPassword hashed now u]> (Db.users db)))
         req)
  = snd (Auth.authenticate verifyToken db req).
Proof.
  intros Hu. unfold Auth.authenticate, Auth.authenticateBody. cbn [Db.users UserService.withUsers].
  destruct (negb _); [done |].
  destruct (verifyToken _) as [decoded|]; [| done].
  rewrite lookup_insert. case_decide as Hid; [| done].
  rewrite <- Hid, Hu. cbn. by destruct (User.isActive u).
Qed.

(** X21. [changePassword] answers 404 for a missing user and 401 when
    the old password does not match, leaving the database as it is.
    When it goes through, the row keeps every column but the hash and
    the time of the last update, and the other rows are as before.  For
    a user whose e-mail no other row has and a hash that
    [bcrypt.compare] accepts for the new password: an active user can log
    in with the new password and gets tokens with the same claims as
    before, an inactive one still gets 403.  Every request is let
    through or turned away exactly as before the change, so tokens issued
    earlier stay good; a request of this user carries the row with the
    new time of update. *)
Theorem changePassword_takes_effect (salt : string) (id : Z) (oldPassword newPassword : string)
  (now : Z) (db : Db.t) :
  (Db.users db !! id = None ->
   changePassword salt id oldPassword newPassword now db
   = (throwApi 404 "User not found", db))
  /\ (forall u,
        Db.users db !! id = Some u ->
        (compare oldPassword (User.password u) = false ->
         changePassword salt id oldPassword newPassword now db
         = (throwApi 401 "Current password is incorrect", db))
        /\ (compare oldPassword (User.password u) = true ->
            exists db',
              changePassword salt id oldPassword newPassword now db
              = (Ok "Password changed successfully", db')
              /\ Db.users db' !! id
                 = Some (User.mk (User.id u) (User.email u) (hash salt newPassword)
                           (User.name u) (User.role u) (User.avatarUrl u) (User.bio u)
                           (User.isActive u) (User.createdAt u) now)
              /\ (forall k, k <> id -> Db.users db' !! k = Db.users db !! k)
              /\ (Passwords.ownEmail id db ->
                  compare newPassword (hash salt newPassword) = true ->
                  login (User.email u) newPassword db'
                  = (if User.isActive u
                     then Ok (LoginData.mk
                                (AuthUser.mk (User.id u) (User.email u) (User.name u)
                                   (User.role u) (User.avatarUrl u) (User.bio u) true
                                   (User.createdAt u) now)
                                (generateToken
                                   (JwtPayload.mk (User.id u) (User.email u) (User.role u)))
                                (generateRefreshToken
                                   (JwtPayload.mk (User.id u) (User.email u) (User.role u))))
                     else throwApi 403 "Your account has been deactivated"))
              /\ (forall req,
                    snd (Auth.authenticate verifyToken db' req)
                    = snd (Auth.authenticate verifyToken db req))
              /\ (forall req,
                    Bearing.tokenOf verifyToken id req ->
                    User.isActive u = true ->
                    Auth.authenticate verifyToken db' req
                    = (Request.attach req
                         (AuthUser.mk (User.id u) (User.email u) (User.name u)
                            (User.role u) (User.avatarUrl u) (User.bio u) true
                            (User.createdAt u) now), NextOk)))).
Proof.
  unfold Passwords.changePassword. split; [by intros -> |].
  intros u Hu. rewrite Hu. split; [by intros -> |].
  intros ->. cbn [negb]. unfold UserService.updateRow. rewrite Hu.
  eexists. split; [reflexivity |].
  set (u' := Passwords.setPassword (hash salt newPassword) now u).
  split_and!.
  - cbn. by rewrite lookup_insert_eq.
  - intros k Hk. cbn. by rewrite lookup_insert_ne.
  - intros Hown Hhash.
    assert (Hfind : UserService.getUserByEmail (User.email u)
                      (UserService.withUsers db (<[id := u']> (Db.users db))) = Some u').
    { destruct (UserService.getUserByEmail _ _) as [x|] eqn:Hx.
      - apply getUserByEmail_Some in Hx as [Hemail [k Hk]]. cbn in Hk.
        apply lookup_insert_Some in Hk as [[_ <-] | [Hne Hk]]; [done |].
        destruct Hne. symmetry. by eapply Hown.
      - exfalso. eapply (getUserByEmail_None _ _ Hx id u'); [| done].
        cbn. by rewrite lookup_insert_eq. }
    unfold AuthController.login. rewrite Hfind.
    cbn [User.isActive u' Passwords.setPassword].
    destruct (User.isActive u) eqn:Hactive; [| done]. cbn. rewrite Hhash. cbn.
    unfold Auth.selectUser. cbn. by rewrite Hactive.
  - intros req. by apply authenticate_setPassword.
  - intros req Hreq Hactive.
    rewrite (authenticate_found verifyToken _ id u' req Hreq) by (cbn; apply lookup_insert_eq).
    unfold Auth.selectUser. cbn. by rewrite Hactive.
Qed.

End PasswordProps.

(** Alice changes her password at 200. *)
Lemma changePassword_takes_effect_witness :
  exists db',
    Passwords.changePassword Credentials.hasher Credentials.checker "salt" 1 "a" "z" 200
      Sample.db0
    = (Ok "Password changed successfully", db')
    /\ Db.users db' !! 1
       = Some (User.mk 1 "alice@example.com" "hash-z" "Alice" "AUTHOR" None None true 100 200)
    /\ (exists tokens refresh,
          AuthController.login Credentials.signer Credentials.signer Credentials.checker
            "alice@example.com" "z" db'
          = Ok (LoginData.mk
                  (AuthUser.mk 1 "alice@example.com" "Alice" "AUTHOR" None None true 100 200)
                  tokens refresh))
    /\ snd (Auth.authenticate Sample.verifier db' (Sample.bearing "Bearer tok-alice"))
       = snd (Auth.authenticate Sample.verifier Sample.db0 (Sample.bearing "Bearer tok-alice")).
Proof.
  assert (Hown : Passwords.ownEmail 1 Sample.db0).
  { intros u k v. unfold Sample.db0, Sample.users. cbn.
    rewrite lookup_insert_eq. intros [= <-].
    intros [[<- <-]|[_ [[<- <-]|[_ H]]%lookup_insert_Some]]%lookup_insert_Some; done. }
  destruct (changePassword_takes_effect Credentials.hasher Credentials.checker
              Credentials.signer Credentials.signer Sample.verifier
              "salt" 1 "a" "z" 200 Sample.db0) as [_ Hfound].
  destruct (Hfound Sample.alice eq_refl) as [_ Hok].
  destruct (Hok eq_refl) as (db' & Hrun & Hrow & _ & Hlogin & Hauth & _).
  exists db'. split_and!; [done | exact Hrow | | apply Hauth].
  specialize (Hlogin Hown eq_refl). cbn in Hlogin. eauto.
Defined.

(** ** What the service calls leave alone in the article table *)

Section ArticleFrameProps.
Variable generateSlug : string -> string.

Local Abbreviation run := (System.run generateSlug).

(** X22. Frame of the [article] table.  None of the calls [createArticle],
    [updateArticle], [publishArticle], [archiveArticle] and the comment
    calls removes an article or changes its id, its author, its view
    count or its creation time; [publishArticle] and [archiveArticle]
    moreover keep its title, slug, content, category and tags, and the
    comment calls keep the whole table. *)
Theorem article_columns_kept (op : System.Op) (db db' : Db.t) :
  run op db = Some db' ->
  Wf.articles db ->
  (forall k a,
      Db.articles db !! k = Some a ->
      exists a',
        Db.articles db' !! k = Some a'
        /\ Article.id a' = Article.id a
        /\ Article.authorId a' = Article.authorId a
        /\ Article.viewCount a' = Article.viewCount a
        /\ Article.createdAt a' = Article.createdAt a
        /\ (match op with
            | System.PublishArticle _ _ | System.ArchiveArticle _ =>
                Article.title a' = Article.title a
                /\ Article.slug a' = Article.slug a
                /\ Article.content a' = Article.content a
                /\ Article.categoryId a' = Article.categoryId a
                /\ Article.tagIds a' = Article.tagIds a
            | System.CreateArticle _ _ _ _ | System.UpdateArticle _ _ _ _ _ _ => True
            | _ => a' = a
            end))
  /\ (match op with
      | System.CreateArticle _ _ _ _ => True
      | _ => forall k, Db.articles db !! k = None -> Db.articles db' !! k = None
      end).
Proof.
  intros Hrun [Hnext Hwf]. destruct op; cbn in Hrun.
  - destruct (ArticleService.createArticle _ _ _ _ _ _) as [[r db1]|] eqn:H;
      cbn in Hrun; simplify_eq.
    split; [| done]. intros k a Ha.
    apply createArticle_inv in H as [[_ ->] | (slug & _ & ->)]; [by exists a |].
    exists a. cbn. rewrite lookup_insert_ne; [done |].
    intros <-. apply Hwf in Ha. lia.
  - destruct (ArticleService.updateArticle _ _ _ _ _ _ _ _) as [[r db1]|] eqn:H;
      cbn in Hrun; simplify_eq.
    apply updateArticle_inv in H as [[_ ->] | (e & slug & He & _ & ->)].
    + split; [by intros k a Ha; exists a | done].
    + split.
      * intros k a Ha. cbn. destruct (decide (k = id)) as [-> | Hne].
        -- rewrite lookup_insert_eq. eexists. split; [done |]. by simplify_eq.
        -- rewrite lookup_insert_ne by done. by exists a.
      * intros k Hk. cbn. rewrite lookup_insert_ne; [done | congruence].
  - simplify_eq. unfold ArticleService.publishArticle, ArticleService.updateRow.
    destruct (Db.articles db !! id) as [e|] eqn:He; cbn.
    + split.
      * intros k a Ha. destruct (decide (k = id)) as [-> | Hne].
        -- rewrite lookup_insert_eq. eexists. split; [done |]. by simplify_eq.
        -- rewrite lookup_insert_ne by done. by exists a.
      * intros k Hk. rewrite lookup_insert_ne; [done | congruence].
    + split; [by intros k a Ha; exists a | done].
  - simplify_eq. unfold ArticleService.archiveArticle, ArticleService.updateRow.
    destruct (Db.articles db !! id) as [e|] eqn:He; cbn.
    + split.
      * intros k a Ha. destruct (decide (k = id)) as [-> | Hne].
        -- rewrite lookup_insert_eq. eexists. split; [done |]. by simplify_eq.
        -- rewrite lookup_insert_ne by done. by exists a.
      * intros k Hk. rewrite lookup_insert_ne; [done | congruence].
    + split; [by intros k a Ha; exists a | done].
  - simplify_eq. unfold CommentService.createComment.
    destruct (Db.articles db !! _); [| split; [by intros k a Ha; exists a | done]].
    destruct (CommentService.checkParent _ _); [split; [by intros k a Ha; exists a | done] |].
    destruct (_ && _); [split; [by intros k a Ha; exists a | done] |].
    destruct (_ || _); (split; [by intros k a Ha; exists a | done]).
  - simplify_eq. unfold CommentService.updateComment, CommentService.updateRow.
    destruct (Db.comments db !! id); [| split; [by intros k a Ha; exists a | done]].
    destruct (_ && _); (split; [by intros k a Ha; exists a | done]).
  - simplify_eq. unfold CommentService.approveComment, CommentService.updateRow.
    destruct (Db.comments db !! id); (split; [by intros k a Ha; exists a | done]).
  - simplify_eq. unfold CommentService.rejectComment, CommentService.updateRow.
    destruct (Db.comments db !! id); (split; [by intros k a Ha; exists a | done]).
  - simplify_eq. unfold CommentService.markAsSpam, CommentService.updateRow.
    destruct (Db.comments db !! id); (split; [by intros k a Ha; exists a | done]).
  - simplify_eq. unfold CommentService.deleteComment.
    destruct (Db.comments db !! id); [| split; [by intros k a Ha; exists a | done]].
    destruct (_ && _); [split; [by intros k a Ha; exists a | done] |].
    destruct (0 <? _)%nat; (split; [by intros k a Ha; exists a | done]).
Qed.

End ArticleFrameProps.

Lemma article_columns_kept_witness :
  exists a',
    Db.articles (ArticleService.archiveArticle 1 Sample.publishedDb).2 !! 1 = Some a'
    /\ Article.authorId a' = 1
    /\ Article.slug a' = "hello".
Proof.
  assert (Hwf : Wf.articles Sample.publishedDb).
  { apply (history_wf Sample.slugger Sample.publishedDb (drop 2 Sample.articleHistory)).
    exact (history_suffix Sample.slugger (take 1 Sample.articleHistory) Sample.publishedDb
             (drop 2 Sample.articleHistory) sample_article_history). }
  destruct (article_columns_kept Sample.slugger (System.ArchiveArticle 1) Sample.publishedDb
              (ArticleService.archiveArticle 1 Sample.publishedDb).2 eq_refl Hwf) as [Hkept _].
  destruct (Hkept 1 (Sample.article ArticleStatus.PUBLISHED (Some 20)) eq_refl)
    as (a' & Ha' & _ & Hauthor & _ & _ & _ & Hslug & _).
  exists a'. done.
Defined.
